(** * Preorder transformer: a shallow embedding and its properties

    The development follows [preorder_transformer.py] (class
    [PreorderTransformer]) and the catalog filter of [streamlit_app.py]
    (function [process_alliance_catalog]).

    Modelling conventions.
    - Python [str] values are [string]s of ASCII characters; the code points
      128..255 of [ascii] are kept as uncased symbols that are neither
      digits nor white space.
    - A pandas cell read with [dtype=str] is a [cell]: a string, the
      missing marker NaN, or nothing at all when the column is not there.
    - Python floats are [pyfloat]s: the binary64 numbers of IEEE 754 as
      the Standard Library specifies them ([spec_float] with 53 bits of
      precision), with the two zeros, the two infinities and NaN.  Sums,
      differences and products are the library's [SFadd], [SFsub] and
      [SFmul]: rounded to the nearest float, to the even one of two nearest,
      with overflow to an infinity.  [float] of a string rounds the decimal
      number the same way.
    - An exception is a value: [strptime] answers [ValueError] or a
      [datetime], [float] answers [None] for [ValueError]/[TypeError].
    - [print] and the Streamlit widgets have no effect on the values
      computed and are left out; the figures [transform_to_shopify] prints
      when its loop is over are kept as a [run_summary].
    - [pd.read_csv] is a parameter of the functions that read the file. *)

From Stdlib Require Import Bool Arith List String Ascii ZArith Lia.
From Stdlib Require Import Floats.SpecFloat.
Import ListNotations.

Local Open Scope string_scope.
Local Open Scope list_scope.
Local Open Scope nat_scope.

(** ** Python string primitives *)

Module PyStr.

(** [str.isspace] on ASCII: TAB..CR, FS..US and the blank. *)
Definition isspace (c : ascii) : bool :=
  let n := nat_of_ascii c in
  ((9 <=? n) && (n <=? 13)) || ((28 <=? n) && (n <=? 32)).

Definition isupper (c : ascii) : bool :=
  let n := nat_of_ascii c in (65 <=? n) && (n <=? 90).

Definition islower (c : ascii) : bool :=
  let n := nat_of_ascii c in (97 <=? n) && (n <=? 122).

Definition isdigit (c : ascii) : bool :=
  let n := nat_of_ascii c in (48 <=? n) && (n <=? 57).

Definition lower_char (c : ascii) : ascii :=
  if isupper c then ascii_of_nat (nat_of_ascii c + 32) else c.

Definition upper_char (c : ascii) : ascii :=
  if islower c then ascii_of_nat (nat_of_ascii c - 32) else c.

(** [s.lower()] *)
Fixpoint lower (s : string) : string :=
  match s with
  | EmptyString => EmptyString
  | String c s' => String (lower_char c) (lower s')
  end.

(** [s.title()]: a cased character becomes upper case when the character
    before it is not cased, and lower case otherwise. *)
Fixpoint title_from (previous_is_cased : bool) (s : string) : string :=
  match s with
  | EmptyString => EmptyString
  | String c s' =>
      if islower c then
        String (if previous_is_cased then c else upper_char c) (title_from true s')
      else if isupper c then
        String (if previous_is_cased then lower_char c else c) (title_from true s')
      else String c (title_from false s')
  end.

Definition title (s : string) : string := title_from false s.

Definition is_empty (s : string) : bool :=
  match s with EmptyString => true | String _ _ => false end.

(** Truth value of a string: [if s:] *)
Definition truthy (s : string) : bool := negb (is_empty s).

Fixpoint lstrip_by (p : ascii -> bool) (s : string) : string :=
  match s with
  | EmptyString => EmptyString
  | String c s' => if p c then lstrip_by p s' else s
  end.

Fixpoint rstrip_by (p : ascii -> bool) (s : string) : string :=
  match s with
  | EmptyString => EmptyString
  | String c s' =>
      let r := rstrip_by p s' in
      if p c && is_empty r then EmptyString else String c r
  end.

Definition strip_by (p : ascii -> bool) (s : string) : string :=
  rstrip_by p (lstrip_by p s).

(** [s.strip()] *)
Definition strip (s : string) : string := strip_by isspace s.

(** [s.strip(c)] for a one-character argument *)
Definition strip_char (c : ascii) (s : string) : string :=
  strip_by (fun x => Ascii.eqb x c) s.

(** [s.split(sep)] for a one-character separator *)
Fixpoint split (sep : ascii) (s : string) : list string :=
  match s with
  | EmptyString => [EmptyString]
  | String c s' =>
      if Ascii.eqb c sep then EmptyString :: split sep s'
      else match split sep s' with
           | h :: t => String c h :: t
           | [] => [String c EmptyString]
           end
  end.

(** [sep.join(parts)] *)
Fixpoint join (sep : string) (parts : list string) : string :=
  match parts with
  | [] => EmptyString
  | [p] => p
  | p :: rest => p ++ sep ++ join sep rest
  end.

(** [s.startswith(p)] *)
Definition startswith (p s : string) : bool := String.prefix p s.

(** [s.replace(old, new)] for a non-empty [old]: occurrences are replaced
    from left to right and do not overlap.  [skip] counts the characters of
    the occurrence just replaced that are still to be passed over. *)
Fixpoint replace_from (skip : nat) (old new s : string) : string :=
  match s with
  | EmptyString => EmptyString
  | String c s' =>
      match skip with
      | S k => replace_from k old new s'
      | O =>
          if String.prefix old s
          then new ++ replace_from (String.length old - 1) old new s'
          else String c (replace_from 0 old new s')
      end
  end.

Definition replace (old new s : string) : string := replace_from 0 old new s.

(** [c in s] for a character *)
Fixpoint contains_char (c : ascii) (s : string) : bool :=
  match s with
  | EmptyString => false
  | String c' s' => Ascii.eqb c c' || contains_char c s'
  end.

Fixpoint all_chars (p : ascii -> bool) (s : string) : bool :=
  match s with
  | EmptyString => true
  | String c s' => p c && all_chars p s'
  end.

End PyStr.

(** ** Python values read from the catalog *)

(** A cell of a row of the data frame, as [row.get] sees it. *)
Inductive cell : Type :=
| Str (s : string)
| NaN
| NoColumn.

(** ** Floats *)

Module PyFloat.

(** A Python float is a binary64 number: 53 bits of precision, and 1024
    for the exponent of the infinities. *)
Definition pyfloat : Type := spec_float.

Definition FNan : pyfloat := S754_nan.

Definition FInf (negative : bool) : pyfloat := S754_infinity negative.

Definition prec : Z := 53.

Definition emax : Z := 1024.

(** [float(n)] for an integer [n]. *)
Definition of_Z (z : Z) : pyfloat := binary_normalize prec emax z 0 false.

(** [x + y], [x - y] and [x * y]: the exact result rounded to the nearest
    float, to the even one of two nearest. *)
Definition fadd (x y : pyfloat) : pyfloat := SFadd prec emax x y.

Definition fsub (x y : pyfloat) : pyfloat := SFsub prec emax x y.

Definition fmul (x y : pyfloat) : pyfloat := SFmul prec emax x y.

(** [x < y] *)
Definition flt (x y : pyfloat) : bool := SFltb x y.

(** [x > y] *)
Definition fgt (x y : pyfloat) : bool := flt y x.

(** Truth value of a float: only the two zeros are false; NaN is true. *)
Definition truthy (x : pyfloat) : bool :=
  match x with
  | S754_zero _ => false
  | _ => true
  end.

(** *** [float(s)] for a string

    [sign] ("inf" | "infinity" | "nan"), or a decimal literal
    [digitpart] ["." [digitpart]] [("e"|"E") [sign] digitpart] with
    [digitpart ::= digit (["_"] digit)*], between optional white space. *)

Definition digit_of (c : ascii) : option nat :=
  if PyStr.isdigit c then Some (nat_of_ascii c - 48) else None.

(** More digits of a digit part whose first digit was read: [acc] is the
    value so far, [n] the number of digits so far. *)
Fixpoint digits_from (acc : Z) (n : nat) (s : string) : Z * nat * string :=
  match s with
  | EmptyString => (acc, n, s)
  | String c s' =>
      match digit_of c with
      | Some d => digits_from (10 * acc + Z.of_nat d) (S n) s'
      | None =>
          if Ascii.eqb c "_" then
            match s' with
            | EmptyString => (acc, n, s)
            | String c2 s'' =>
                match digit_of c2 with
                | Some d => digits_from (10 * acc + Z.of_nat d) (S n) s''
                | None => (acc, n, s)
                end
            end
          else (acc, n, s)
      end
  end.

Definition digitpart (acc : Z) (s : string) : option (Z * nat * string) :=
  match s with
  | EmptyString => None
  | String c s' =>
      match digit_of c with
      | Some d => Some (digits_from (10 * acc + Z.of_nat d) 1 s')
      | None => None
      end
  end.

Definition read_sign (s : string) : bool * string :=
  match s with
  | String "-" s' => (true, s')
  | String "+" s' => (false, s')
  | _ => (false, s)
  end.

(** The exponent part and the end of the literal; the result is the
    mantissa and the power of ten. *)
Definition exponent_part (m : Z) (nfrac : nat) (s : string) : option (Z * Z) :=
  match s with
  | EmptyString => Some (m, - Z.of_nat nfrac)%Z
  | String c s' =>
      if Ascii.eqb c "e" || Ascii.eqb c "E" then
        let (neg, r) := read_sign s' in
        match digitpart 0 r with
        | Some (e, _, EmptyString) =>
            Some (m, (if neg then - e else e) - Z.of_nat nfrac)%Z
        | _ => None
        end
      else None
  end.

Definition decimal_literal (s : string) : option (Z * Z) :=
  match digitpart 0 s with
  | Some (i, _, r1) =>
      match r1 with
      | String "." r2 =>
          match digitpart i r2 with
          | Some (v, nfrac, r3) => exponent_part v nfrac r3
          | None => exponent_part i 0 r2
          end
      | _ => exponent_part i 0 r1
      end
  | None =>
      match s with
      | String "." r2 =>
          match digitpart 0 r2 with
          | Some (v, nfrac, r3) => exponent_part v nfrac r3
          | None => None
          end
      | _ => None
      end
  end.

(** The float nearest to [m * 10 ^ e] for the digits [m] of a literal,
    with the sign [neg].  A whole number is rounded as it is; a fraction is
    the quotient of [m] by a power of ten, divided and rounded as the
    library's [SFdiv] divides: one correct rounding of the exact quotient.
    A number too large gives an infinity, one too small a zero of its
    sign. *)
Definition of_decimal (neg : bool) (m e : Z) : pyfloat :=
  if (m =? 0)%Z then S754_zero neg
  else if (0 <=? e)%Z
       then binary_normalize prec emax (cond_Zopp neg (m * 10 ^ e)) 0 false
       else let '(q, e', l) :=
              SFdiv_core_binary prec emax m 0 (10 ^ (- e)) 0 in
            binary_round_aux prec emax neg q e' l.

Definition float_of_string (s : string) : option pyfloat :=
  let (neg, body) := read_sign (PyStr.strip s) in
  let l := PyStr.lower body in
  if String.eqb l "inf" || String.eqb l "infinity" then Some (FInf neg)
  else if String.eqb l "nan" then Some FNan
  else match decimal_literal body with
       | Some (m, e) => Some (of_decimal neg m e)
       | None => None
       end.

(** [float(v)] for the value [row.get('MSRP', 0)] hands over: the string of
    the cell, the float NaN of an empty cell, or the integer default [0].
    [None] stands for [ValueError]. *)
Definition float (v : cell) : option pyfloat :=
  match v with
  | Str s => float_of_string s
  | NaN => Some FNan
  | NoColumn => Some (of_Z 0)
  end.

End PyFloat.
Import PyFloat.

(** ** The value of a float *)

Module FloatValue.

Local Open Scope Z_scope.

(** A finite float is a whole number of units of [2 ^ -2200], a unit small
    enough for the exact product of two floats. *)
Definition unit_exponent : Z := 2200.

(** The value of a float in units; the infinities and NaN have none. *)
Definition units (x : pyfloat) : Z :=
  match x with
  | S754_finite s m e => cond_Zopp s (Zpos m) * 2 ^ (e + unit_exponent)
  | _ => 0
  end.

(** The float is a zero or a finite number. *)
Definition is_number (x : pyfloat) : bool :=
  match x with
  | S754_zero _ | S754_finite _ _ _ => true
  | _ => false
  end.

(** The float is one of binary64: its mantissa and exponent are in the
    canonical form, within the range. *)
Definition valid_float (x : pyfloat) : bool := valid_binary prec emax x.

(** The exponent of the last place of a number of units: 53 bits are
    kept, and no place below the least exponent [-1074]. *)
Definition canon (X : Z) : Z :=
  Z.max (Zdigits2 X - prec) (emin prec emax + unit_exponent).

(** The numbers of units a float can hold, the range apart. *)
Definition representable (F : Z) : Prop := (2 ^ canon F | F).

(** Rounding to the nearest multiple of the last place, to the even one of
    two nearest, for a number that is not negative. *)
Definition nearest_even (X : Z) : Z :=
  let p := 2 ^ canon X in
  let q := X / p in
  let r := X mod p in
  if 2 * r <? p then q * p
  else if p <? 2 * r then (q + 1) * p
  else if Z.even q then q * p else (q + 1) * p.

Definition round_units (X : Z) : Z :=
  if X <? 0 then - nearest_even (- X) else nearest_even X.

(** [r] is the float the exact value [X] rounds to: the rounded value when
    it is in the range, the infinity of its sign otherwise. *)
Definition rounds_to (X : Z) (r : pyfloat) : Prop :=
  valid_float r = true
  /\ match r with
     | S754_nan => False
     | S754_infinity s =>
         2 ^ (emax + unit_exponent) <= Z.abs (round_units X) /\ s = (X <? 0)
     | _ => units r = round_units X
     end.

End FloatValue.
Import FloatValue.

(** ** [PreorderTransformer]: the pricing constants of [__init__] *)

Record PreorderTransformer : Type := {
  cost_multiplier : pyfloat;
  base_markup : pyfloat;
  msrp_minimum_markup : pyfloat;
  club_base_markup : pyfloat;
  club_tier1_threshold : pyfloat;
  club_tier1_addition : pyfloat;
  club_tier2_threshold : pyfloat;
  club_tier2_addition : pyfloat
}.

(** The literal [0.77]: the float nearest to 77/100. *)
Definition float_0_77 : pyfloat := Eval vm_compute in of_decimal false 77 (-2).

Definition PreorderTransformer_init : PreorderTransformer := {|
  cost_multiplier := float_0_77;
  base_markup := of_Z 6;
  msrp_minimum_markup := of_Z 7;
  club_base_markup := of_Z 6;
  club_tier1_threshold := of_Z 14;
  club_tier1_addition := of_Z 4;
  club_tier2_threshold := of_Z 20;
  club_tier2_addition := of_Z 9
|}.

(** ** Pricing *)

(** [calculate_pricing]: [None] is the triple [(None, None, None)] of the
    [except] branch. *)
Definition calculate_pricing (self : PreorderTransformer) (msrp : cell)
  : option (pyfloat * pyfloat * pyfloat) :=
  match float msrp with
  | None => None
  | Some msrp =>
      let estimated_cost := fmul msrp (cost_multiplier self) in
      let my_price := fadd estimated_cost (base_markup self) in
      let adjusted_msrp :=
        if flt msrp (fadd my_price (of_Z 6))
        then fadd my_price (msrp_minimum_markup self)
        else msrp in
      let club_price := fadd estimated_cost (club_base_markup self) in
      let cost_diff := fsub club_price estimated_cost in
      let club_price :=
        if fgt cost_diff (club_tier1_threshold self) then
          let club_price := fadd club_price (club_tier1_addition self) in
          let cost_diff := fsub club_price estimated_cost in
          if fgt cost_diff (club_tier2_threshold self)
          then fadd club_price (club_tier2_addition self)
          else club_price
        else club_price in
      Some (estimated_cost, adjusted_msrp, club_price)
  end.

(** The pricing rules in the order the specification lists them: the two
    tier tests follow one another, the second one on the difference taken
    again after the first addition.  Each product, sum and difference is
    the one of binary64. *)
Definition pricing_rules (P : pyfloat) : pyfloat * pyfloat * pyfloat :=
  let estimated_cost := fmul P float_0_77 in
  let base_sell := fadd estimated_cost (of_Z 6) in
  let adjusted_list_price :=
    if flt P (fadd base_sell (of_Z 6)) then fadd base_sell (of_Z 7) else P in
  let club0 := fadd estimated_cost (of_Z 6) in
  let club1 :=
    if flt (of_Z 14) (fsub club0 estimated_cost) then fadd club0 (of_Z 4)
    else club0 in
  let club2 :=
    if flt (of_Z 20) (fsub club1 estimated_cost) then fadd club1 (of_Z 9)
    else club1 in
  (estimated_cost, adjusted_list_price, club2).

(** ** Dates: [datetime], [strftime] and [strptime] *)

Module PyDate.

Record datetime : Type := mkdatetime {
  year : nat; month : nat; day : nat;
  hour : nat; minute : nat; second : nat
}.

(** The calendar date of [datetime.date()]. *)
Record date : Type := mkdate { date_year : nat; date_month : nat; date_day : nat }.

Definition date_of (dt : datetime) : date :=
  mkdate (year dt) (month dt) (day dt).

Definition date_eqb (a b : date) : bool :=
  (date_year a =? date_year b) && (date_month a =? date_month b)
  && (date_day a =? date_day b).

(** [datetime.combine(d, datetime.min.time())] *)
Definition at_midnight (d : date) : datetime :=
  mkdatetime (date_year d) (date_month d) (date_day d) 0 0 0.

Definition is_leap (y : nat) : bool :=
  ((y mod 4 =? 0) && negb (y mod 100 =? 0)) || (y mod 400 =? 0).

Definition days_in_month (y m : nat) : nat :=
  match m with
  | 2 => if is_leap y then 29 else 28
  | 4 | 6 | 9 | 11 => 30
  | _ => 31
  end.

(** The values the [datetime] constructor accepts. *)
Definition valid_datetime (dt : datetime) : bool :=
  (1 <=? year dt) && (N.of_nat (year dt) <=? 9999)%N
  && (1 <=? month dt) && (month dt <=? 12)
  && (1 <=? day dt) && (day dt <=? days_in_month (year dt) (month dt))
  && (hour dt <=? 23) && (minute dt <=? 59) && (second dt <=? 59).

Definition valid_date (d : date) : bool := valid_datetime (at_midnight d).

(** The directives the program uses, literal characters, and a run of
    white space. *)
Inductive fmt_item : Type :=
| FY | Fm | Fd | FH | FM | FS | Fy
| FLit (c : ascii)
| FSpace
| FBad (c : ascii).

Definition directive (c : ascii) : fmt_item :=
  if Ascii.eqb c "Y" then FY else if Ascii.eqb c "m" then Fm
  else if Ascii.eqb c "d" then Fd else if Ascii.eqb c "H" then FH
  else if Ascii.eqb c "M" then FM else if Ascii.eqb c "S" then FS
  else if Ascii.eqb c "y" then Fy else FBad c.

Fixpoint parse_format (fmt : string) : list fmt_item :=
  match fmt with
  | EmptyString => []
  | String c rest =>
      if Ascii.eqb c "%" then
        match rest with
        | String d rest' => directive d :: parse_format rest'
        | EmptyString => [FBad c]
        end
      else if PyStr.isspace c then
        match parse_format rest with
        | FSpace :: items => FSpace :: items
        | items => FSpace :: items
        end
      else FLit c :: parse_format rest
  end.

Definition digit_char (d : nat) : ascii := ascii_of_nat (48 + d).

Definition pad2 (n : nat) : string :=
  String (digit_char (n / 10)) (String (digit_char (n mod 10)) EmptyString).

Definition pad4 (n : nat) : string :=
  String (digit_char (n / 1000))
    (String (digit_char ((n / 100) mod 10))
       (String (digit_char ((n / 10) mod 10))
          (String (digit_char (n mod 10)) EmptyString))).

(** [%Y] as the C library of Linux writes it: the year in decimal, which
    has four digits from the year 1000 on and fewer below (other platforms
    fill a year below 1000 with zeros). *)
Definition year_text (y : nat) : string :=
  if y <? 10 then String (digit_char y) EmptyString
  else if y <? 100 then pad2 y
  else if y <? 1000 then String (digit_char (y / 100)) (pad2 (y mod 100))
  else pad4 y.

(** [dt.strftime(fmt)] *)
Definition format_item (dt : datetime) (it : fmt_item) : string :=
  match it with
  | FY => year_text (year dt)
  | Fm => pad2 (month dt)
  | Fd => pad2 (day dt)
  | FH => pad2 (hour dt)
  | FM => pad2 (minute dt)
  | FS => pad2 (second dt)
  | Fy => pad2 (year dt mod 100)
  | FLit c => String c EmptyString
  | FSpace => " "
  | FBad c => String "%" (String c EmptyString)
  end.

Fixpoint format_items (dt : datetime) (items : list fmt_item) : string :=
  match items with
  | [] => EmptyString
  | it :: rest => format_item dt it ++ format_items dt rest
  end.

Definition strftime (dt : datetime) (fmt : string) : string :=
  format_items dt (parse_format fmt).

(** *** [strptime]

    The library turns the format into a regular expression, one group of
    ordered alternatives per directive, and takes the first match a
    backtracking search finds from the start of the string.  A matcher
    lists, in that order, the value and the rest of every way to match. *)

Definition two_digits (ok : nat -> nat -> bool) (s : string) : list (nat * string) :=
  match s with
  | String c1 (String c2 r) =>
      match digit_of c1, digit_of c2 with
      | Some a, Some b => if ok a b then [(10 * a + b, r)] else []
      | _, _ => []
      end
  | _ => []
  end.

Definition one_digit (ok : nat -> bool) (s : string) : list (nat * string) :=
  match s with
  | String c1 r =>
      match digit_of c1 with
      | Some a => if ok a then [(a, r)] else []
      | None => []
      end
  | _ => []
  end.

Definition blank_digit (s : string) : list (nat * string) :=
  match s with
  | String " " r => one_digit (fun a => 1 <=? a) r
  | _ => []
  end.

(** [3[0-1]|[1-2]\d|0[1-9]|[1-9]| [1-9]] *)
Definition re_d (s : string) : list (nat * string) :=
  two_digits (fun a b => ((a =? 3) && (b <=? 1)) || ((1 <=? a) && (a <=? 2))
                         || ((a =? 0) && (1 <=? b))) s
  ++ one_digit (fun a => 1 <=? a) s ++ blank_digit s.

(** [1[0-2]|0[1-9]|[1-9]] *)
Definition re_m (s : string) : list (nat * string) :=
  two_digits (fun a b => ((a =? 1) && (b <=? 2)) || ((a =? 0) && (1 <=? b))) s
  ++ one_digit (fun a => 1 <=? a) s.

(** [2[0-3]|[0-1]\d|\d] *)
Definition re_H (s : string) : list (nat * string) :=
  two_digits (fun a b => ((a =? 2) && (b <=? 3)) || (a <=? 1)) s
  ++ one_digit (fun _ => true) s.

(** [[0-5]\d|\d] *)
Definition re_M (s : string) : list (nat * string) :=
  two_digits (fun a _ => a <=? 5) s ++ one_digit (fun _ => true) s.

(** [6[0-1]|[0-5]\d|\d] *)
Definition re_S (s : string) : list (nat * string) :=
  two_digits (fun a b => ((a =? 6) && (b <=? 1)) || (a <=? 5)) s
  ++ one_digit (fun _ => true) s.

(** [\d\d] *)
Definition re_y (s : string) : list (nat * string) :=
  two_digits (fun _ _ => true) s.

(** [\d\d\d\d] *)
Definition re_Y (s : string) : list (nat * string) :=
  match s with
  | String c1 (String c2 (String c3 (String c4 r))) =>
      match digit_of c1, digit_of c2, digit_of c3, digit_of c4 with
      | Some a, Some b, Some c, Some d =>
          [(1000 * a + 100 * b + 10 * c + d, r)]
      | _, _, _, _ => []
      end
  | _ => []
  end.

(** [\s+], the longest run first *)
Fixpoint re_space (s : string) : list string :=
  match s with
  | EmptyString => []
  | String c r => if PyStr.isspace c then re_space r ++ [r] else []
  end.

(** Two-digit years: 69..99 are 1969..1999, 00..68 are 2000..2068. *)
Definition century (yy : nat) : nat :=
  if yy <=? 68 then yy + 2000 else yy + 1900.

Definition with_year (dt : datetime) (v : nat) : datetime :=
  mkdatetime v (month dt) (day dt) (hour dt) (minute dt) (second dt).
Definition with_month (dt : datetime) (v : nat) : datetime :=
  mkdatetime (year dt) v (day dt) (hour dt) (minute dt) (second dt).
Definition with_day (dt : datetime) (v : nat) : datetime :=
  mkdatetime (year dt) (month dt) v (hour dt) (minute dt) (second dt).
Definition with_hour (dt : datetime) (v : nat) : datetime :=
  mkdatetime (year dt) (month dt) (day dt) v (minute dt) (second dt).
Definition with_minute (dt : datetime) (v : nat) : datetime :=
  mkdatetime (year dt) (month dt) (day dt) (hour dt) v (second dt).
Definition with_second (dt : datetime) (v : nat) : datetime :=
  mkdatetime (year dt) (month dt) (day dt) (hour dt) (minute dt) v.

Definition store (set : datetime -> nat -> datetime) (acc : datetime)
  (alts : list (nat * string)) : list (datetime * string) :=
  map (fun '(v, r) => (set acc v, r)) alts.

(** Every way to match one item; literal characters are compared without
    regard to case, as the compiled expression does. *)
Definition match_item (it : fmt_item) (acc : datetime) (s : string)
  : list (datetime * string) :=
  match it with
  | FY => store with_year acc (re_Y s)
  | Fm => store with_month acc (re_m s)
  | Fd => store with_day acc (re_d s)
  | FH => store with_hour acc (re_H s)
  | FM => store with_minute acc (re_M s)
  | FS => store with_second acc (re_S s)
  | Fy => store (fun dt v => with_year dt (century v)) acc (re_y s)
  | FLit c =>
      match s with
      | String c' r =>
          if Ascii.eqb (PyStr.lower_char c) (PyStr.lower_char c')
          then [(acc, r)] else []
      | EmptyString => []
      end
  | FSpace => map (fun r => (acc, r)) (re_space s)
  | FBad _ => []
  end.

Fixpoint match_items (items : list fmt_item) (acc : datetime) (s : string)
  : list (datetime * string) :=
  match items with
  | [] => [(acc, s)]
  | it :: rest =>
      flat_map (fun '(acc', s') => match_items rest acc' s') (match_item it acc s)
  end.

Inductive exn : Type := ValueError | TypeError.

Inductive result (A : Type) : Type :=
| Ok (a : A)
| Raise (e : exn).
Arguments Ok {A} a.
Arguments Raise {A} e.

Definition has_bad (items : list fmt_item) : bool :=
  existsb (fun it => match it with FBad _ => true | _ => false end) items.

(** The fields a format leaves out: 1900-01-01 00:00:00. *)
Definition strptime_default : datetime := mkdatetime 1900 1 1 0 0 0.

(** [datetime.strptime(s, fmt)]: a bad directive, no match, unconverted
    data after the match, and field values the [datetime] constructor
    refuses all raise [ValueError]. *)
Definition strptime_items (items : list fmt_item) (s : string) : result datetime :=
  if has_bad items then Raise ValueError
  else match match_items items strptime_default s with
       | [] => Raise ValueError
       | (dt, rest) :: _ =>
           if PyStr.is_empty rest then
             if valid_datetime dt then Ok dt else Raise ValueError
           else Raise ValueError
       end.

Definition strptime (s fmt : string) : result datetime :=
  strptime_items (parse_format fmt) s.

End PyDate.
Import PyDate.

(** ** [parse_avail_date] *)

Definition date_formats : list string :=
  [ "%Y-%m-%d %H:%M:%S"; "%Y-%m-%d"; "%m/%d/%Y %H:%M:%S"; "%m/%d/%Y";
    "%m-%d-%Y"; "%Y%m%d"; "%m/%d/%y" ].

(** The loop [for fmt in date_formats: try: return strptime(...) except
    ValueError: continue]; any other exception leaves the loop. *)
Fixpoint try_formats (s : string) (fmts : list string) : result (option datetime) :=
  match fmts with
  | [] => Ok None
  | fmt :: rest =>
      match strptime s fmt with
      | Ok dt => Ok (Some dt)
      | Raise ValueError => try_formats s rest
      | Raise e => Raise e
      end
  end.

Definition parse_avail_date (avail_dt_str : cell) : result (option datetime) :=
  match avail_dt_str with
  | NaN | NoColumn => Ok None
  | Str s =>
      if PyStr.is_empty s then Ok None
      else
        let avail_dt_str := PyStr.strip s in
        if PyStr.is_empty avail_dt_str
           || String.eqb (PyStr.lower avail_dt_str) "nan"
        then Ok None
        else try_formats avail_dt_str date_formats
  end.

(** ** Handles, titles and descriptions *)

(** [safe_str] of [create_handle] and [create_title] *)
Definition safe_str (value : cell) : string :=
  match value with
  | Str s => PyStr.strip s
  | NaN | NoColumn => EmptyString
  end.

Definition is_dash (c : ascii) : bool := Ascii.eqb c "-".

(** The class [[a-zA-Z0-9-]] *)
Definition handle_char (c : ascii) : bool :=
  PyStr.islower c || PyStr.isupper c || PyStr.isdigit c || is_dash c.

(** [re.sub(r'[^a-zA-Z0-9-]', '-', s)] *)
Fixpoint sub_special (s : string) : string :=
  match s with
  | EmptyString => EmptyString
  | String c s' => String (if handle_char c then c else "-"%char) (sub_special s')
  end.

Definition starts_with_dash (s : string) : bool :=
  match s with
  | String c _ => is_dash c
  | EmptyString => false
  end.

(** [re.sub(r'-+', '-', s)] *)
Fixpoint sub_dashes (s : string) : string :=
  match s with
  | EmptyString => EmptyString
  | String c s' =>
      if is_dash c && starts_with_dash s' then sub_dashes s'
      else String c (sub_dashes s')
  end.

Definition create_handle (artist title details : cell) (release_date : datetime)
  : string :=
  let handle_parts :=
    [ safe_str artist; safe_str title; safe_str details;
      strftime release_date "%Y%m%d" ] in
  let handle := PyStr.join "-" (filter PyStr.truthy handle_parts) in
  let handle := sub_special (PyStr.lower handle) in
  let handle := sub_dashes handle in
  PyStr.strip_char "-" handle.

(** The dictionary [replacements], in the order it is written. *)
Definition replacements : list (string * string) :=
  [ ("Lp", "LP"); ("Ep", "EP"); ("Cd", "CD"); ("Rsd", "RSD");
    ("Vinyl", "Vinyl"); ("Ltd", "Ltd"); ("Limited", "Limited");
    ("Edition", "Edition"); ("Exclusive", "Exclusive"); ("Indie", "Indie");
    ("Signed", "Signed"); ("Autographed", "Autographed");
    ("Colored", "Colored"); ("Picture", "Picture"); ("Disc", "Disc");
    ("Gatefold", "Gatefold"); ("Explicit", "Explicit"); ("Lyrics", "Lyrics") ].

(** The body of the loop over [parts] in [format_vinyl_details]. *)
Definition format_part (part : string) : string :=
  let formatted := PyStr.title part in
  let formatted :=
    fold_left (fun formatted '(old, new) => PyStr.replace old new formatted)
      replacements formatted in
  if PyStr.contains_char "/" formatted then
    let slash_parts := map PyStr.strip (PyStr.split "/" formatted) in
    PyStr.join "/" slash_parts
  else formatted.

Definition format_vinyl_details (details_string : cell) : string :=
  match details_string with
  | NoColumn => EmptyString
  | NaN => EmptyString
  | Str s =>
      if PyStr.is_empty s || String.eqb (PyStr.lower (PyStr.strip s)) "nan"
      then EmptyString
      else
        let details := PyStr.strip s in
        if PyStr.is_empty details then EmptyString
        else
          let parts :=
            map PyStr.strip
              (filter (fun part => PyStr.truthy (PyStr.strip part))
                 (PyStr.split "^" details)) in
          let formatted_parts :=
            fold_left (fun formatted_parts part =>
                         formatted_parts ++ [format_part part]) parts [] in
          PyStr.join ", " formatted_parts
  end.

Definition create_title (artist album color_details : cell) : string :=
  let artist := safe_str artist in
  let album := safe_str album in
  let color_details := safe_str color_details in
  let title := (artist ++ " - " ++ album ++ " LP")%string in
  if PyStr.truthy color_details then
    let formatted_details := format_vinyl_details (Str color_details) in
    if PyStr.truthy formatted_details
    then (title ++ " (" ++ formatted_details ++ ")")%string
    else title
  else title.

Definition calculate_weight_grams (format_type : string) : nat :=
  if String.eqb format_type "VINYL LP" then 180
  else if String.eqb format_type "12-INCH SINGLE" then 140
  else if String.eqb format_type "7-INCH SINGLE" then 40
  else 180.

Definition create_description (item_notes : string) (release_date : datetime)
  : string :=
  let preamble :=
    ("<p>This is a preorder for " ++ strftime release_date "%m/%d/%Y"
     ++ "! We will ship as soon as your full order arrives, which will usually be that day or the following day. Occasionally, it may be up to a week later. See the full list of the week for more details, and email info@latchkeyrecords.com with any questions!</p>")%string in
  if PyStr.truthy item_notes && PyStr.truthy (PyStr.strip item_notes)
     && negb (String.eqb (PyStr.lower (PyStr.strip item_notes)) "nan")
  then
    let cleaned_notes := PyStr.strip item_notes in
    let cleaned_notes :=
      if PyStr.startswith "<" cleaned_notes then cleaned_notes
      else ("<p>" ++ cleaned_notes ++ "</p>")%string in
    (preamble ++ cleaned_notes)%string
  else preamble.

(** ** Rows of the catalog and of the product file *)

Record alliance_row : Type := {
  Artist : cell; ItemName : cell; FormatDesc : cell; ItemFormat : cell;
  Barcode : cell; MSRP : cell; AvailDt : cell; DelimMisc : cell;
  ItemNotes : cell; ImgHttpPath : cell
}.

Record shopify_row : Type := {
  Handle : string; Variant_Barcode : string; Title : string;
  Body_HTML : string; Vendor : string; Product_Category : string;
  Type_ : string; Tags : string; Option1_Name : string;
  Option1_Value : string; Variant_Grams : nat;
  Variant_Inventory_Tracker : string; Variant_Inventory_Policy : string;
  Variant_Fulfillment_Service : string; Variant_Price : pyfloat;
  Variant_Compare_At_Price : pyfloat; Variant_Requires_Shipping : string;
  Variant_Taxable : string; Image_Src : string; Gift_Card : string;
  Variant_Weight_Unit : string; Cost_per_item : pyfloat;
  Included_United_States : string; Included_International : string;
  Status : string
}.

(** [safe_get(column)] with the default [''] *)
Definition safe_get (value : cell) : string :=
  match value with
  | Str s => PyStr.strip s
  | NaN | NoColumn => EmptyString
  end.

Definition vinyl_formats : list string :=
  [ "12-INCH SINGLE"; "7-INCH SINGLE"; "VINYL LP" ].

(** [x in vinyl_formats] *)
Definition in_formats (x : string) : bool := existsb (String.eqb x) vinyl_formats.

(** ** [transform_to_shopify] *)

(** The variables the loop updates. *)
Record counters : Type := mkcounters {
  vinyl_count : nat;
  skipped_count : nat;
  date_matches : nat;
  shopify_data : list shopify_row
}.

Definition counters_init : counters := mkcounters 0 0 0 [].

Definition skip (st : counters) : counters :=
  mkcounters (vinyl_count st) (S (skipped_count st)) (date_matches st)
    (shopify_data st).

Definition count_date_match (st : counters) : counters :=
  mkcounters (vinyl_count st) (skipped_count st) (S (date_matches st))
    (shopify_data st).

Definition count_vinyl (st : counters) : counters :=
  mkcounters (S (vinyl_count st)) (skipped_count st) (date_matches st)
    (shopify_data st).

Definition append_row (st : counters) (r : shopify_row) : counters :=
  mkcounters (vinyl_count st) (skipped_count st) (date_matches st)
    (shopify_data st ++ [r]).

(** [not cost] for the first component of [calculate_pricing]'s answer *)
Definition not_cost (pricing : option (pyfloat * pyfloat * pyfloat)) : bool :=
  match pricing with
  | None => true
  | Some (cost, _, _) => negb (PyFloat.truthy cost)
  end.

Definition build_row (self : PreorderTransformer) (target_date : datetime)
  (artist album format_desc barcode color_details item_notes image_url : string)
  (cost adjusted_msrp club_price : pyfloat) : shopify_row :=
  let handle :=
    create_handle (Str artist) (Str album) (Str color_details) target_date in
  let title := create_title (Str artist) (Str album) (Str color_details) in
  let weight_grams := calculate_weight_grams format_desc in
  let body_content := create_description item_notes target_date in
  let tags := ("preorder club,preorder" ++ strftime target_date "%Y%m%d")%string in
  {| Handle := handle;
     Variant_Barcode := barcode;
     Title := title;
     Body_HTML := body_content;
     Vendor := "Alliance Entertainment";
     Product_Category := "Media > Music & Sound Recordings > Records & LPs";
     Type_ := "Records & LPs";
     Tags := tags;
     Option1_Name := "Title";
     Option1_Value := "Default Title";
     Variant_Grams := weight_grams;
     Variant_Inventory_Tracker := "shopify";
     Variant_Inventory_Policy := "continue";
     Variant_Fulfillment_Service := "manual";
     Variant_Price := club_price;
     Variant_Compare_At_Price := adjusted_msrp;
     Variant_Requires_Shipping := "TRUE";
     Variant_Taxable := "TRUE";
     Image_Src := image_url;
     Gift_Card := "FALSE";
     Variant_Weight_Unit := "lb";
     Cost_per_item := cost;
     Included_United_States := "TRUE";
     Included_International := "TRUE";
     Status := "draft" |}.

(** One turn of the loop over the rows.  An exception inside the [try]
    ends the turn with the variables as they are. *)
Definition process_row (self : PreorderTransformer) (target_date : datetime)
  (st : counters) (row : alliance_row) : counters :=
  let target_date_only := date_of target_date in
  let artist := safe_get (Artist row) in
  let album := safe_get (ItemName row) in
  let format_desc := safe_get (FormatDesc row) in
  let barcode := safe_get (Barcode row) in
  let msrp_raw := MSRP row in
  let color_details := safe_get (DelimMisc row) in
  let item_notes := safe_get (ItemNotes row) in
  let image_url := safe_get (ImgHttpPath row) in
  let avail_dt_raw := safe_get (AvailDt row) in
  if negb (PyStr.truthy artist) || negb (PyStr.truthy album) then skip st
  else
    match parse_avail_date (Str avail_dt_raw) with
    | Raise _ => st
    | Ok None => skip st
    | Ok (Some avail_date) =>
        if negb (date_eqb (date_of avail_date) target_date_only) then skip st
        else
          let st := count_date_match st in
          if negb (in_formats format_desc) then skip st
          else
            let st := count_vinyl st in
            let pricing := calculate_pricing self msrp_raw in
            if not_cost pricing then st
            else
              match pricing with
              | Some (cost, adjusted_msrp, club_price) =>
                  append_row st
                    (build_row self target_date artist album format_desc
                       barcode color_details item_notes image_url
                       cost adjusted_msrp club_price)
              | None => st
              end
    end.

Definition transform_loop (self : PreorderTransformer) (target_date : datetime)
  (alliance_df : list alliance_row) : counters :=
  fold_left (process_row self target_date) alliance_df counters_init.

(** The data frame [transform_to_shopify] returns. *)
Definition transform_to_shopify (self : PreorderTransformer)
  (alliance_df : list alliance_row) (target_date : datetime) : list shopify_row :=
  shopify_data (transform_loop self target_date alliance_df).

(** The figures [transform_to_shopify] prints when the loop is over. *)
Record run_summary : Type := {
  total_records_processed : nat;
  records_matching_target_date : nat;
  vinyl_records_found : nat;
  records_skipped : nat;
  final_products : nat
}.

Definition transform_summary (self : PreorderTransformer)
  (alliance_df : list alliance_row) (target_date : datetime) : run_summary :=
  let st := transform_loop self target_date alliance_df in
  {| total_records_processed := List.length alliance_df;
     records_matching_target_date := date_matches st;
     vinyl_records_found := vinyl_count st;
     records_skipped := skipped_count st;
     final_products := List.length (shopify_data st) |}.

(** ** The catalog filter of [process_alliance_catalog] *)

Record filter_state : Type := mkfilter {
  total_processed : nat;
  filter_date_matches : nat;
  vinyl_matches : nat;
  matched_records : list alliance_row
}.

Definition filter_init : filter_state := mkfilter 0 0 0 [].

(** One turn of the loop over the rows of a chunk; [Raise] leaves the
    enclosing [try]. *)
Definition filter_row (self : PreorderTransformer) (target_date_only : date)
  (st : filter_state) (row : alliance_row) : result filter_state :=
  let st := mkfilter (S (total_processed st)) (filter_date_matches st)
              (vinyl_matches st) (matched_records st) in
  let artist := safe_get (Artist row) in
  let album := safe_get (ItemName row) in
  let format_desc := safe_get (FormatDesc row) in
  let avail_dt_raw := safe_get (AvailDt row) in
  if negb (PyStr.truthy artist) || negb (PyStr.truthy album) then Ok st
  else
    match parse_avail_date (Str avail_dt_raw) with
    | Raise e => Raise e
    | Ok None => Ok st
    | Ok (Some avail_date) =>
        if date_eqb (date_of avail_date) target_date_only then
          let st := mkfilter (total_processed st) (S (filter_date_matches st))
                      (vinyl_matches st) (matched_records st) in
          if in_formats format_desc then
            Ok (mkfilter (total_processed st) (filter_date_matches st)
                  (S (vinyl_matches st)) (matched_records st ++ [row]))
          else Ok st
        else Ok st
    end.

Fixpoint filter_rows (self : PreorderTransformer) (target_date_only : date)
  (st : filter_state) (rows : list alliance_row) : result filter_state :=
  match rows with
  | [] => Ok st
  | row :: rest =>
      match filter_row self target_date_only st row with
      | Ok st' => filter_rows self target_date_only st' rest
      | Raise e => Raise e
      end
  end.

(** ** Reading the file *)

Definition encodings_to_try : list string :=
  [ "utf-16"; "utf-16-le"; "utf-16-be"; "utf-8"; "latin-1" ].

Definition tab : string := String (ascii_of_nat 9) EmptyString.

Definition separators_to_try : list string := [ "|"; ","; tab ].

Record frame : Type := {
  columns : list string;
  rows : list alliance_row
}.

(** [df['Barcode'].astype(str).str.replace('.0', '', regex=False)] *)
Definition clean_barcode (c : cell) : cell :=
  match c with
  | Str s => Str (PyStr.replace ".0" "" s)
  | NaN => Str "nan"
  | NoColumn => NoColumn
  end.

Definition clean_barcode_row (r : alliance_row) : alliance_row :=
  {| Artist := Artist r; ItemName := ItemName r; FormatDesc := FormatDesc r;
     ItemFormat := ItemFormat r; Barcode := clean_barcode (Barcode r);
     MSRP := MSRP r; AvailDt := AvailDt r; DelimMisc := DelimMisc r;
     ItemNotes := ItemNotes r; ImgHttpPath := ImgHttpPath r |}.

Section Reading.

  (** The file on disk and [pd.read_csv(path, dtype=str, encoding=...,
      sep=..., nrows=...)]: the frame read, or [None] when the call raises. *)
Variable file : Type.
Variable read_csv : file -> string -> string -> option nat -> option frame.

  (** [load_alliance_data] of the command-line tool, for a file that
      exists. *)
Definition load_alliance_data (file_path : file) : option frame :=
    match read_csv file_path "utf-16" "|" None with
    | Some df =>
        Some {| columns := columns df;
                rows := map clean_barcode_row (rows df) |}
    | None => None
    end.

  (** The trial parse: the first five rows must give more than five
      columns. *)
Definition accepts (f : file) (combination : string * string) : bool :=
    match read_csv f (fst combination) (snd combination) (Some 5) with
    | Some df_test => 5 <? List.length (columns df_test)
    | None => false
    end.

  (** The inner loop of the detection: the first separator whose sample of
      five rows has more than five columns. *)
Fixpoint try_separators (f : file) (encoding : string) (seps : list string)
    : option string :=
    match seps with
    | [] => None
    | separator :: rest =>
        match read_csv f encoding separator (Some 5) with
        | Some df_test =>
            if 5 <? List.length (columns df_test) then Some separator
            else try_separators f encoding rest
        | None => try_separators f encoding rest
        end
    end.

Fixpoint try_encodings (f : file) (encs : list string)
    : option (string * string) :=
    match encs with
    | [] => None
    | encoding :: rest =>
        match try_separators f encoding separators_to_try with
        | Some separator => Some (encoding, separator)
        | None => try_encodings f rest
        end
    end.

  (** [final_encoding] and [final_separator] when [success] is set. *)
Definition detect_format (f : file) : option (string * string) :=
    try_encodings f encodings_to_try.

  (** [process_alliance_catalog] from the format detection on, for the
      extracted file: the data frame and the error message it returns.
      The chunks of [chunksize] rows are read one after the other, so the
      loop sees the rows of the file in order.  The text of the exception
      that the second message ends with is left out. *)
Definition process_alliance_catalog (self : PreorderTransformer)
    (analysis_file_path : file) (target_date : date)
    : option (list shopify_row) * option string :=
    match detect_format analysis_file_path with
    | None => (None, Some "Could not detect file format")
    | Some (final_encoding, final_separator) =>
        let target_datetime := at_midnight target_date in
        let target_date_only := date_of target_datetime in
        match read_csv analysis_file_path final_encoding final_separator None with
        | None => (None, Some "Error processing data")
        | Some df =>
            match filter_rows self target_date_only filter_init (rows df) with
            | Raise _ => (None, Some "Error processing data")
            | Ok st =>
                match matched_records st with
                | [] => (Some [], None)
                | matched =>
                    (Some (transform_to_shopify self matched target_datetime),
                     None)
                end
            end
        end
    end.

End Reading.

(** What [parse_avail_date] hands to the filter for a row. *)
Definition avail_date_of (row : alliance_row) : option datetime :=
  match parse_avail_date (Str (safe_get (AvailDt row))) with
  | Ok r => r
  | Raise _ => None
  end.

(** ** The stages of the filter, as the specification names them *)

Inductive stage : Type :=
| MissingField
| DateMismatch
| FormatMismatch
| Matched.

(** Required fields first, then the calendar date of the availability
    date against the target date, then the format category. *)
Definition classify (target : date) (row : alliance_row)
  (avail : option datetime) : stage :=
  if PyStr.is_empty (safe_get (Artist row))
     || PyStr.is_empty (safe_get (ItemName row)) then MissingField
  else
    match avail with
    | None => DateMismatch
    | Some dt =>
        if date_eqb (date_of dt) target then
          if in_formats (safe_get (FormatDesc row)) then Matched
          else FormatMismatch
        else DateMismatch
    end.

(** The same row with another format description. *)
Definition with_format (row : alliance_row) (f : cell) : alliance_row :=
  {| Artist := Artist row; ItemName := ItemName row; FormatDesc := f;
     ItemFormat := ItemFormat row; Barcode := Barcode row; MSRP := MSRP row;
     AvailDt := AvailDt row; DelimMisc := DelimMisc row;
     ItemNotes := ItemNotes row; ImgHttpPath := ImgHttpPath row |}.

(** [total_processed += 1] *)
Definition tick (st : filter_state) : filter_state :=
  mkfilter (S (total_processed st)) (filter_date_matches st)
    (vinyl_matches st) (matched_records st).

(** ** Sample rows *)

Definition sample_target : datetime := mkdatetime 2025 9 19 0 0 0.

Definition sample_row : alliance_row :=
  {| Artist := Str "Test Artist"; ItemName := Str "Test Album";
     FormatDesc := Str "VINYL LP"; ItemFormat := Str "LP";
     Barcode := Str "602455000000"; MSRP := Str "24.98";
     AvailDt := Str "2025-09-19"; DelimMisc := NaN; ItemNotes := NaN;
     ImgHttpPath := NaN |}.

Definition with_avail (row : alliance_row) (a : cell) : alliance_row :=
  {| Artist := Artist row; ItemName := ItemName row;
     FormatDesc := FormatDesc row; ItemFormat := ItemFormat row;
     Barcode := Barcode row; MSRP := MSRP row; AvailDt := a;
     DelimMisc := DelimMisc row; ItemNotes := ItemNotes row;
     ImgHttpPath := ImgHttpPath row |}.

Definition with_msrp (row : alliance_row) (m : cell) : alliance_row :=
  {| Artist := Artist row; ItemName := ItemName row;
     FormatDesc := FormatDesc row; ItemFormat := ItemFormat row;
     Barcode := Barcode row; MSRP := m; AvailDt := AvailDt row;
     DelimMisc := DelimMisc row; ItemNotes := ItemNotes row;
     ImgHttpPath := ImgHttpPath row |}.

Definition with_artist (row : alliance_row) (a : cell) : alliance_row :=
  {| Artist := a; ItemName := ItemName row;
     FormatDesc := FormatDesc row; ItemFormat := ItemFormat row;
     Barcode := Barcode row; MSRP := MSRP row; AvailDt := AvailDt row;
     DelimMisc := DelimMisc row; ItemNotes := ItemNotes row;
     ImgHttpPath := ImgHttpPath row |}.

(** ** What a handle may look like *)

(** The class [[a-z0-9-]] *)
Definition slug_char (c : ascii) : bool :=
  PyStr.islower c || PyStr.isdigit c || is_dash c.

Fixpoint ends_with_dash (s : string) : bool :=
  match s with
  | EmptyString => false
  | String c EmptyString => is_dash c
  | String _ s' => ends_with_dash s'
  end.

(** The first, the last character is one of the class [p]. *)
Definition starts_with (p : ascii -> bool) (s : string) : bool :=
  match s with String c _ => p c | EmptyString => false end.

Fixpoint ends_with (p : ascii -> bool) (s : string) : bool :=
  match s with
  | EmptyString => false
  | String c EmptyString => p c
  | String _ s' => ends_with p s'
  end.

(** Two dashes in a row somewhere in the string. *)
Fixpoint has_double_dash (s : string) : bool :=
  match s with
  | EmptyString => false
  | String c s' => (is_dash c && starts_with_dash s') || has_double_dash s'
  end.

(** ** The detail formatter, step by step as the specification words it *)

(** The dictionary applied entry after entry, each entry to every place
    where its key occurs. *)
Definition restore_terms (text : string) : string :=
  fold_left (fun text entry => PyStr.replace (fst entry) (snd entry) text)
    replacements text.

(** Each slash-separated segment trimmed, for a text with a slash. *)
Definition trim_slash_segments (text : string) : string :=
  if PyStr.contains_char "/" text
  then PyStr.join "/" (map PyStr.strip (PyStr.split "/" text))
  else text.


(** Empty or absent: nothing but white space, or the null marker. *)
Definition is_absent (s : string) : bool :=
  PyStr.is_empty (PyStr.strip s) || String.eqb (PyStr.lower (PyStr.strip s)) "nan".


(** The parts that are not blank, trimmed. *)
Definition tags_of (s : string) : list string :=
  filter PyStr.truthy (map PyStr.strip (PyStr.split "^" (PyStr.strip s))).

(** ** Reading back what [strftime] wrote *)

Definition is_directive (it : fmt_item) : bool :=
  match it with
  | FY | Fm | Fd | FH | FM | FS | Fy => true
  | FLit _ | FSpace | FBad _ => false
  end.

(** Formats without unknown directives in which a run of white space is
    followed by a directive. *)
Fixpoint well_formed (items : list fmt_item) : bool :=
  match items with
  | [] => true
  | FBad _ :: _ => false
  | FSpace :: rest =>
      match rest with
      | it :: _ => is_directive it
      | [] => false
      end && well_formed rest
  | _ :: rest => well_formed rest
  end.

(** The field an item stores when it reads the text [strftime] wrote for
    [dt]. *)
Definition read_back (dt : datetime) (acc : datetime) (it : fmt_item) : datetime :=
  match it with
  | FY => with_year acc (year dt)
  | Fm => with_month acc (month dt)
  | Fd => with_day acc (day dt)
  | FH => with_hour acc (hour dt)
  | FM => with_minute acc (minute dt)
  | FS => with_second acc (second dt)
  | Fy => with_year acc (century (year dt mod 100))
  | FLit _ | FSpace | FBad _ => acc
  end.

(** The ranges of the fields of a [datetime]. *)
Record in_range (dt : datetime) : Prop := {
  year_low : 1 <= year dt;
  year_high : (N.of_nat (year dt) <= 9999)%N;
  month_range : 1 <= month dt <= 12;
  day_range : 1 <= day dt <= days_in_month (year dt) (month dt);
  hour_range : hour dt <= 23;
  minute_range : minute dt <= 59;
  second_range : second dt <= 59
}.

(** ** A reader for examples *)

(** Every encoding with every separator, encodings first. *)
Definition combinations : list (string * string) :=
  list_prod encodings_to_try separators_to_try.

(** A file described by the encoding and the separator it was written
    with; the reader below raises for any other encoding and finds a single
    column for any other separator. *)
Record described_file : Type := {
  written_encoding : string;
  written_separator : string;
  header : list string;
  body : list alliance_row
}.

Definition described_read_csv (f : described_file) (encoding sep : string)
  (nrows : option nat) : option frame :=
  if String.eqb encoding (written_encoding f) then
    Some {| columns := if String.eqb sep (written_separator f) then header f
                       else [PyStr.join (written_separator f) (header f)];
            rows := match nrows with
                    | Some n => firstn n (body f)
                    | None => body f
                    end |}
  else None.

Definition legacy_file : described_file :=
  {| written_encoding := "cp1252"; written_separator := ";";
     header := [ "Artist"; "ItemName" ]; body := [] |}.

Definition comma_file : described_file :=
  {| written_encoding := "utf-8"; written_separator := ",";
     header := [ "Artist"; "ItemName"; "FormatDesc"; "ItemFormat"; "Barcode";
                 "MSRP"; "AvailDt"; "DelimMisc"; "ItemNotes"; "ImgHttpPath" ];
     body := [sample_row] |}.

(** * The rest of the two programs *)

(** ** Calendar arithmetic of [datetime] *)

Module PyCalendar.

Local Open Scope Z_scope.

(** [_DAYS_BEFORE_MONTH] *)
Definition days_before_month_table (m : nat) : Z :=
  match m with
  | 1%nat => 0 | 2%nat => 31 | 3%nat => 59 | 4%nat => 90 | 5%nat => 120
  | 6%nat => 151 | 7%nat => 181 | 8%nat => 212 | 9%nat => 243
  | 10%nat => 273 | 11%nat => 304 | 12%nat => 334
  | _ => 0
  end.

(** [_days_before_month(year, month)] *)
Definition days_before_month (y m : nat) : Z :=
  days_before_month_table m + (if (2 <? m)%nat && is_leap y then 1 else 0).

(** [_days_before_year(year)] *)
Definition days_before_year (year : nat) : Z :=
  let y := Z.of_nat year - 1 in
  y * 365 + y / 4 - y / 100 + y / 400.

(** [d.toordinal()]: the first of January of the year 1 is day 1. *)
Definition toordinal (d : date) : Z :=
  days_before_year (date_year d)
  + days_before_month (date_year d) (date_month d)
  + Z.of_nat (date_day d).

(** [d.weekday()]: Monday is 0, Friday is 4. *)
Definition weekday (d : date) : nat := Z.to_nat ((toordinal d + 6) mod 7).

(** [d + timedelta(days=1)]; the day after the last day of the year 9999
    is [OverflowError], here [None]. *)
Definition tomorrow (d : date) : option date :=
  let y := date_year d in
  let m := date_month d in
  if (date_day d <? days_in_month y m)%nat then Some (mkdate y m (S (date_day d)))
  else if (m <? 12)%nat then Some (mkdate y (S m) 1)
  else if (N.of_nat y <? 9999)%N then Some (mkdate (S y) 1 1)
  else None.

(** [d + timedelta(days=n)] for [n >= 0], a day at a time. *)
Fixpoint add_days (n : nat) (d : date) : option date :=
  match n with
  | O => Some d
  | S k =>
      match tomorrow d with
      | Some d' => add_days k d'
      | None => None
      end
  end.

(** [dt + timedelta(days=n)]: the time of day stays. *)
Definition datetime_add_days (n : nat) (dt : datetime) : option datetime :=
  match add_days n (date_of dt) with
  | Some d =>
      Some (mkdatetime (date_year d) (date_month d) (date_day d)
              (hour dt) (minute dt) (second dt))
  | None => None
  end.

(** [a < b] and [a <= b] on dates: year, month, day in this order. *)
Definition date_ltb (a b : date) : bool :=
  (date_year a <? date_year b)%nat
  || ((date_year a =? date_year b)%nat
      && ((date_month a <? date_month b)%nat
          || ((date_month a =? date_month b)%nat
              && (date_day a <? date_day b)%nat))).

Definition date_leb (a b : date) : bool := negb (date_ltb b a).

(** [d.strftime('%A')] *)
Definition day_name (d : date) : string :=
  nth (weekday d)
    [ "Monday"; "Tuesday"; "Wednesday"; "Thursday"; "Friday"; "Saturday";
      "Sunday" ]%string EmptyString.

(** [str(d)]: [d.isoformat()] *)
Definition isoformat (d : date) : string :=
  (pad4 (date_year d) ++ "-" ++ pad2 (date_month d) ++ "-"
   ++ pad2 (date_day d))%string.

End PyCalendar.
Import PyCalendar.

(** ** The release Fridays *)

(** [(4 - today.weekday()) % 7], and a whole week when today is a Friday. *)
Definition days_until_friday (today : datetime) : nat :=
  let days_until_friday :=
    Z.to_nat ((4 - Z.of_nat (weekday (date_of today))) mod 7) in
  if (days_until_friday =? 0) && (weekday (date_of today) =? 4) then 7
  else days_until_friday.

(** [calculate_default_friday] of the web application, [today] being
    [datetime.now()]. *)
Definition calculate_default_friday (today : datetime) : option date :=
  match datetime_add_days (days_until_friday today) today with
  | None => None
  | Some next_friday =>
      match datetime_add_days (3 * 7) next_friday with
      | None => None
      | Some target_friday => Some (date_of target_friday)
      end
  end.

(** The list comprehension [[next_friday + timedelta(weeks=i) for i in
    range(4)]]. *)
Fixpoint weeks_from (next_friday : datetime) (weeks : list nat)
  : option (list datetime) :=
  match weeks with
  | [] => Some []
  | i :: rest =>
      match datetime_add_days (i * 7) next_friday with
      | None => None
      | Some friday =>
          match weeks_from next_friday rest with
          | None => None
          | Some fridays => Some (friday :: fridays)
          end
      end
  end.

(** [calculate_next_four_fridays] of the command-line tool. *)
Definition calculate_next_four_fridays (today : datetime)
  : option (list datetime) :=
  match datetime_add_days (days_until_friday today) today with
  | None => None
  | Some next_friday => weeks_from next_friday (seq 0 4)
  end.

(** The warning sign the messages begin with, as its bytes in UTF-8. *)
Definition warning_sign : string :=
  String (ascii_of_nat 226) (String (ascii_of_nat 154) (String (ascii_of_nat 160)
    (String (ascii_of_nat 239) (String (ascii_of_nat 184)
       (String (ascii_of_nat 143) " "))))).

(** [validate_date] of the web application; [now] is [datetime.now()] for
    both of its calls. *)
Definition validate_date (selected_date : date) (now : datetime)
  : option (list string) :=
  let warnings := [] in
  let warnings :=
    if negb (weekday selected_date =? 4) then
      warnings ++ [ (warning_sign ++ isoformat selected_date ++ " is a "
                     ++ day_name selected_date ++ ", not a Friday")%string ]
    else warnings in
  let warnings :=
    if date_leb selected_date (date_of now) then
      warnings ++ [ (warning_sign ++ isoformat selected_date
                     ++ " is in the past")%string ]
    else warnings in
  match add_days 90 (date_of now) with
  | None => None
  | Some three_months =>
      Some (if date_ltb three_months selected_date then
              warnings ++ [ (warning_sign ++ isoformat selected_date
                             ++ " is more than 3 months away")%string ]
            else warnings)
  end.

(** [validate_target_date] of the command-line tool.  [answers] are the
    lines [input] will read; the result is the value returned and the
    lines left, [None] when [input] finds no line. *)
Definition validate_target_date (target_date now : datetime)
  (answers : list string) : option (bool * list string) :=
  let ask (answers : list string) (k : list string -> option (bool * list string)) :=
    match answers with
    | [] => None
    | response :: rest =>
        if negb (String.eqb (PyStr.lower response) "y") then Some (false, rest)
        else k rest
    end in
  let second (answers : list string) :=
    if date_leb (date_of target_date) (date_of now)
    then ask answers (fun rest => Some (true, rest))
    else Some (true, answers) in
  if negb (weekday (date_of target_date) =? 4) then ask answers second
  else second answers.

(** ** [parse_target_date] *)

Definition target_date_formats : list string :=
  [ "%Y-%m-%d"; "%m/%d/%Y"; "%m-%d-%Y"; "%Y%m%d"; "%m/%d/%y" ].

(** The loop over the formats and the [raise ValueError] after it. *)
Fixpoint try_target_formats (s : string) (fmts : list string) : result datetime :=
  match fmts with
  | [] => Raise ValueError
  | fmt :: rest =>
      match strptime s fmt with
      | Ok dt => Ok dt
      | Raise ValueError => try_target_formats s rest
      | Raise e => Raise e
      end
  end.

Definition parse_target_date (date_string : string) : result (option datetime) :=
  if PyStr.is_empty date_string then Ok None
  else match try_target_formats date_string target_date_formats with
       | Ok dt => Ok (Some dt)
       | Raise e => Raise e
       end.

(** ** The entry of the archive that is read *)

(** [s.endswith(suffix)] *)
Fixpoint endswith (suffix s : string) : bool :=
  String.eqb s suffix
  || match s with
     | String _ s' => endswith suffix s'
     | EmptyString => false
     end.

Section Archive.

(** [zip_ref.getinfo(filename).file_size] *)
Variable file_size : string -> nat.

(** The loop that looks for the target file: the first name ending in
    [.txt] ends it, names ending in [/] are passed over, and a file larger
    than the largest seen so far becomes the target. *)
Fixpoint find_target (file_list : list string) (target_file : option string)
  (largest_size : nat) : option string :=
  match file_list with
  | [] => target_file
  | filename :: rest =>
      if endswith "/" filename then find_target rest target_file largest_size
      else if endswith ".txt" (PyStr.lower filename) then Some filename
      else if largest_size <? file_size filename
           then find_target rest (Some filename) (file_size filename)
           else find_target rest target_file largest_size
  end.

Definition select_target (file_list : list string) : option string :=
  find_target file_list None 0.

End Archive.

(** ** What one record adds to the product file *)

Definition row_output (self : PreorderTransformer) (target_date : datetime)
  (row : alliance_row) : list shopify_row :=
  shopify_data (process_row self target_date counters_init row).

(** The product row with another barcode. *)
Definition with_barcode (r : shopify_row) (b : string) : shopify_row :=
  {| Handle := Handle r; Variant_Barcode := b; Title := Title r;
     Body_HTML := Body_HTML r; Vendor := Vendor r;
     Product_Category := Product_Category r; Type_ := Type_ r;
     Tags := Tags r; Option1_Name := Option1_Name r;
     Option1_Value := Option1_Value r; Variant_Grams := Variant_Grams r;
     Variant_Inventory_Tracker := Variant_Inventory_Tracker r;
     Variant_Inventory_Policy := Variant_Inventory_Policy r;
     Variant_Fulfillment_Service := Variant_Fulfillment_Service r;
     Variant_Price := Variant_Price r;
     Variant_Compare_At_Price := Variant_Compare_At_Price r;
     Variant_Requires_Shipping := Variant_Requires_Shipping r;
     Variant_Taxable := Variant_Taxable r; Image_Src := Image_Src r;
     Gift_Card := Gift_Card r; Variant_Weight_Unit := Variant_Weight_Unit r;
     Cost_per_item := Cost_per_item r;
     Included_United_States := Included_United_States r;
     Included_International := Included_International r;
     Status := Status r |}.

(** The record passes the three stages of the filter. *)
Definition is_matched (target : date) (row : alliance_row) : bool :=
  match classify target row (avail_date_of row) with
  | Matched => true
  | _ => false
  end.

(** The record passes the first two stages: it is a date match. *)
Definition is_date_match (target : date) (row : alliance_row) : bool :=
  match classify target row (avail_date_of row) with
  | Matched | FormatMismatch => true
  | _ => false
  end.

(** The name is a file, not a directory, and ends in [.txt] in any case. *)
Definition is_text_file (filename : string) : bool :=
  negb (endswith "/" filename) && endswith ".txt" (PyStr.lower filename).

(** A record as [sample_row] with an empty barcode cell. *)
Definition sample_row_without_barcode : alliance_row :=
  {| Artist := Artist sample_row; ItemName := ItemName sample_row;
     FormatDesc := FormatDesc sample_row; ItemFormat := ItemFormat sample_row;
     Barcode := NaN; MSRP := MSRP sample_row; AvailDt := AvailDt sample_row;
     DelimMisc := DelimMisc sample_row; ItemNotes := ItemNotes sample_row;
     ImgHttpPath := ImgHttpPath sample_row |}.


(** ** The calendar's last day and the questions of the command line *)

(** [date.max.toordinal()]: the ordinal of 31 December 9999. *)
Definition max_ordinal : Z := 3652059.

(** The number of warnings [validate_target_date] prints for a date: one
    when it is not a Friday, one when it is today or earlier. *)
Definition questions (target_date now : datetime) : nat :=
  (if weekday (date_of target_date) =? 4 then 0 else 1)
  + (if date_leb (date_of target_date) (date_of now) then 1 else 0).

(** Reading one answer for each of [questions] warnings: an answer other
    than [y] or [Y] ends with [False], no answer left is [EOFError]. *)
Fixpoint ask_all (questions : nat) (answers : list string)
  : option (bool * list string) :=
  match questions with
  | 0 => Some (true, answers)
  | S k =>
      match answers with
      | [] => None
      | response :: rest =>
          if String.eqb (PyStr.lower response) "y" then ask_all k rest
          else Some (false, rest)
      end
  end.

(** ** The tags of the details cell *)

(** The cell holds a tag: it is not empty or absent, and a part between
    carets is not blank. *)
Definition has_tags (details : cell) : bool :=
  match details with
  | Str s =>
      negb (is_absent s)
      && match tags_of s with [] => false | _ :: _ => true end
  | NaN | NoColumn => false
  end.

(** * Properties *)

(** ** Pricing *)

(** *** Binary64 arithmetic

    The operations of the library are related to exact arithmetic on
    numbers of units: the result of a sum, a difference or a product is the
    float nearest to the exact result. *)

Section FloatFacts.

Local Open Scope Z_scope.

Lemma digits2_pos_size (p : positive) : digits2_pos p = Pos.size p.
Proof. induction p as [p IH|p IH|]; cbn; rewrite ?IH; reflexivity. Qed.

Lemma Zdigits2_log2 (X : Z) : 0 < X -> Zdigits2 X = Z.log2 X + 1.
Proof.
  destruct X as [|p|p]; try lia. intros _. cbn [Zdigits2].
  rewrite digits2_pos_size. destruct p as [p|p|]; cbn; try reflexivity;
    rewrite Pos.add_1_r; reflexivity.
Qed.

Lemma Zdigits2_opp (X : Z) : Zdigits2 (- X) = Zdigits2 X.
Proof. destruct X; reflexivity. Qed.

Lemma Zdigits2_nonneg (X : Z) : 0 <= Zdigits2 X.
Proof. destruct X; cbn; lia. Qed.

Lemma Zdigits2_bounds (X : Z) :
  0 < X -> 2 ^ (Zdigits2 X - 1) <= X < 2 ^ Zdigits2 X.
Proof.
  intro H. rewrite (Zdigits2_log2 X H).
  replace (Z.log2 X + 1 - 1) with (Z.log2 X) by lia.
  pose proof (Z.log2_spec X H) as S. unfold Z.succ in S. exact S.
Qed.

Lemma Zdigits2_unique (X k : Z) :
  2 ^ (k - 1) <= X < 2 ^ k -> 0 < k -> Zdigits2 X = k.
Proof.
  intros H Hk.
  assert (HX : 0 < X) by (pose proof (Z.pow_pos_nonneg 2 (k - 1)); lia).
  rewrite (Zdigits2_log2 X HX).
  rewrite (Z.log2_unique X (k - 1)); [lia|lia|].
  unfold Z.succ. replace (k - 1 + 1) with k by lia. exact H.
Qed.

Lemma Zdigits2_ge (X k : Z) : 2 ^ k <= X -> 0 <= k -> k + 1 <= Zdigits2 X.
Proof.
  intros H Hk.
  assert (HX : 0 < X) by (pose proof (Z.pow_pos_nonneg 2 k); lia).
  rewrite (Zdigits2_log2 X HX).
  pose proof (Z.log2_le_mono _ _ H) as L. rewrite Z.log2_pow2 in L by exact Hk.
  lia.
Qed.

Lemma Zdigits2_le (X k : Z) : 0 <= X < 2 ^ k -> 0 <= k -> Zdigits2 X <= k.
Proof.
  intros [H0 H] Hk. destruct (Z.eq_dec X 0) as [->|N]; [cbn; exact Hk|].
  assert (HX : 0 < X) by lia.
  rewrite (Zdigits2_log2 X HX).
  pose proof (proj1 (Z.log2_lt_pow2 X k HX) H). lia.
Qed.

Lemma Zdigits2_shift (M k : Z) :
  0 < M -> 0 <= k -> Zdigits2 (M * 2 ^ k) = Zdigits2 M + k.
Proof.
  intros HM Hk. pose proof (Zdigits2_bounds M HM) as [L H].
  pose proof (Zdigits2_nonneg M) as N.
  assert (D : 0 < Zdigits2 M).
  { destruct M; try lia. cbn. lia. }
  apply Zdigits2_unique; [|lia].
  replace (Zdigits2 M + k - 1) with (Zdigits2 M - 1 + k) by lia.
  rewrite !Z.pow_add_r by lia.
  pose proof (Z.pow_pos_nonneg 2 k). nia.
Qed.

Lemma Zdigits2_div (M n : Z) :
  0 < M -> 0 <= n < Zdigits2 M -> Zdigits2 (M / 2 ^ n) = Zdigits2 M - n.
Proof.
  intros HM Hn. pose proof (Zdigits2_bounds M HM) as [L H].
  assert (P : 0 < 2 ^ n) by (apply Z.pow_pos_nonneg; lia).
  apply Zdigits2_unique; [|lia].
  replace (2 ^ (Zdigits2 M - 1)) with (2 ^ (Zdigits2 M - n - 1) * 2 ^ n) in L
    by (rewrite <- Z.pow_add_r by lia; f_equal; lia).
  replace (2 ^ Zdigits2 M) with (2 ^ (Zdigits2 M - n) * 2 ^ n) in H
    by (rewrite <- Z.pow_add_r by lia; f_equal; lia).
  split.
  - apply Z.div_le_lower_bound; lia.
  - apply Z.div_lt_upper_bound; lia.
Qed.

Lemma canon_ge (X : Z) : emin prec emax + unit_exponent <= canon X.
Proof. unfold canon. lia. Qed.

Lemma canon_pos (X : Z) : 0 < canon X.
Proof. pose proof (canon_ge X) as H. change (emin prec emax + unit_exponent) with 1126 in H. lia. Qed.

Lemma representable_opp (F : Z) : representable F -> representable (- F).
Proof.
  unfold representable, canon. rewrite Zdigits2_opp.
  intros [k E]. exists (- k). lia.
Qed.

Lemma representable_0 : representable 0.
Proof. exists 0. reflexivity. Qed.

(** No float lies strictly between two neighbours of the grid of [X]. *)
Lemma grid (X F : Z) :
  0 <= X -> representable F ->
  X / 2 ^ canon X * 2 ^ canon X < F ->
  (X / 2 ^ canon X + 1) * 2 ^ canon X <= F.
Proof.
  intros HX [k Hk] HF.
  pose proof (canon_pos X) as CX. pose proof (canon_pos F) as CF.
  set (p := 2 ^ canon X) in *.
  assert (Pp : 0 < p) by (apply Z.pow_pos_nonneg; lia).
  assert (Hq : 0 <= X / p) by (apply Z.div_pos; lia).
  assert (F0 : 0 < F) by nia.
  assert (C : canon X <= canon F).
  { unfold canon. destruct (Z.max_spec (Zdigits2 X - prec)
                              (emin prec emax + unit_exponent)) as [[_ E]|[L E]].
    - unfold canon in p. lia.
    - assert (X0 : 0 < X).
      { destruct (Z.eq_dec X 0) as [->|]; [cbn in L; unfold prec in L; cbn in L; lia|lia]. }
      pose proof (Zdigits2_bounds X X0) as [B _].
      assert (EX : canon X = Zdigits2 X - prec) by (unfold canon; lia).
      assert (S : 2 ^ (Zdigits2 X - 1) = 2 ^ (prec - 1) * p).
      { unfold p. rewrite EX, <- Z.pow_add_r by (unfold prec in *; lia).
        f_equal. lia. }
      assert (Q : 2 ^ (prec - 1) <= X / p).
      { apply Z.div_le_lower_bound; [exact Pp|]. rewrite Z.mul_comm, <- S. exact B. }
      assert (G : 2 ^ (Zdigits2 X - 1) <= F) by nia.
      change (emin prec emax + unit_exponent) with 1126 in *.
      unfold prec in *.
      assert (K : 0 <= Zdigits2 X - 1) by lia.
      pose proof (Zdigits2_ge F (Zdigits2 X - 1) G K) as D.
      lia. }
  assert (Dv : (p | F)).
  { exists (k * 2 ^ (canon F - canon X)). rewrite Hk at 1. unfold p.
    rewrite <- Z.mul_assoc, <- Z.pow_add_r by lia. do 2 f_equal. lia. }
  destruct Dv as [j Hj]. rewrite Hj in HF |- *.
  apply Z.mul_lt_mono_pos_r in HF; [|exact Pp].
  apply Z.mul_le_mono_nonneg_r; lia.
Qed.

Lemma nearest_even_cases (X : Z) :
  0 <= X ->
  let p := 2 ^ canon X in
  let q := X / p in
  let r := X mod p in
  0 < p /\ X = q * p + r /\ 0 <= r < p /\ 0 <= q
  /\ ((nearest_even X = q * p /\ 2 * r <= p)
      \/ (nearest_even X = (q + 1) * p /\ p <= 2 * r)).
Proof.
  intros HX p q r.
  assert (Pp : 0 < p) by (apply Z.pow_pos_nonneg; [lia|pose proof (canon_pos X); lia]).
  pose proof (Z.div_mod X p ltac:(lia)) as E.
  pose proof (Z.mod_pos_bound X p Pp) as B.
  assert (Hq : 0 <= q) by (apply Z.div_pos; lia).
  fold q r in E, B.
  split; [exact Pp|]. split; [lia|]. split; [exact B|]. split; [exact Hq|].
  unfold nearest_even. fold p q r.
  destruct (Z.ltb_spec (2 * r) p); [left; split; [reflexivity|lia]|].
  destruct (Z.ltb_spec p (2 * r)); [right; split; [reflexivity|lia]|].
  destruct (Z.even q); [left|right]; split; try reflexivity; lia.
Qed.

(** The rounded value is at least as near as any float. *)
Lemma nearest_even_nearest (X F : Z) :
  0 <= X -> representable F ->
  Z.abs (nearest_even X - X) <= Z.abs (F - X).
Proof.
  intros HX HF.
  destruct (nearest_even_cases X HX) as (Pp & E & B & Hq & C).
  pose proof (grid X F HX HF) as G.
  set (p := 2 ^ canon X) in *. set (q := X / p) in *. set (r := X mod p) in *.
  destruct (Z.lt_ge_cases (q * p) F) as [L|L].
  - specialize (G L). destruct C as [[-> C]|[-> C]]; nia.
  - destruct C as [[-> C]|[-> C]]; nia.
Qed.

Lemma round_units_nearest (X F : Z) :
  representable F -> Z.abs (round_units X - X) <= Z.abs (F - X).
Proof.
  intro HF. unfold round_units. destruct (Z.ltb_spec X 0).
  - pose proof (nearest_even_nearest (- X) (- F) ltac:(lia) (representable_opp F HF)).
    lia.
  - apply nearest_even_nearest; assumption.
Qed.

Lemma round_units_representable (F : Z) : representable F -> round_units F = F.
Proof.
  intro H. pose proof (round_units_nearest F F H). lia.
Qed.

Lemma Zdigits2_mono (a b : Z) : 0 <= a <= b -> Zdigits2 a <= Zdigits2 b.
Proof.
  intros [Ha Hab]. destruct (Z.eq_dec a 0) as [->|N]; [apply Zdigits2_nonneg|].
  rewrite !Zdigits2_log2 by lia.
  pose proof (Z.log2_le_mono a b Hab). lia.
Qed.

Lemma Zdigits2_pos (a : Z) : 0 < a -> 0 < Zdigits2 a.
Proof. destruct a; try lia. intros _. cbn. lia. Qed.

Lemma fexp_eq (x : Z) : fexp prec emax x = Z.max (x - 53) (-1074).
Proof. reflexivity. Qed.

Lemma iter_pos_nat {A : Type} (f : A -> A) (p : positive) (x : A) :
  iter_pos f p x = Nat.iter (Pos.to_nat p) f x.
Proof.
  revert x. induction p as [p IH|p IH|]; intro x; cbn [iter_pos].
  - rewrite !IH, Pos2Nat.inj_xI.
    replace (S (2 * Pos.to_nat p)) with (Pos.to_nat p + S (Pos.to_nat p))%nat by lia.
    rewrite Nat.iter_add, Nat.iter_succ_r. reflexivity.
  - rewrite !IH, Pos2Nat.inj_xO.
    replace (2 * Pos.to_nat p)%nat with (Pos.to_nat p + Pos.to_nat p)%nat by lia.
    rewrite Nat.iter_add. reflexivity.
  - reflexivity.
Qed.

Lemma shr_1_spec (m : Z) (r s : bool) :
  0 <= m ->
  shr_1 (Build_shr_record m r s) = Build_shr_record (m / 2) (Z.odd m) (r || s).
Proof.
  intro H. destruct m as [|p|p]; [reflexivity| |lia].
  destruct p as [p|p|]; cbn [shr_1].
  - f_equal. rewrite Pos2Z.inj_xI. symmetry.
    rewrite Z.mul_comm, Z.add_comm. rewrite Z.div_add by lia. reflexivity.
  - f_equal. rewrite Pos2Z.inj_xO. symmetry.
    rewrite Z.mul_comm. apply Z.div_mul. lia.
  - reflexivity.
Qed.

(** The mantissa after [n] steps, whatever the two bits were. *)
Lemma shr_m_iter (n : nat) (m : Z) (r s : bool) :
  0 <= m ->
  shr_m (Nat.iter n shr_1 (Build_shr_record m r s)) = m / 2 ^ Z.of_nat n.
Proof.
  revert m r s. induction n as [|n IH]; intros m r s H.
  - cbn. symmetry. apply Z.div_1_r.
  - rewrite Nat.iter_succ_r, shr_1_spec by exact H.
    rewrite IH by (apply Z.div_pos; lia).
    rewrite Nat2Z.inj_succ, Z.pow_succ_r by lia.
    rewrite Z.div_div by (try lia; apply Z.pow_pos_nonneg; lia).
    reflexivity.
Qed.

(** After [n+1] steps from an exact mantissa: the quotient, the round bit
    and the sticky bit. *)
Lemma shr_iter_exact (n : nat) (m : Z) :
  0 <= m ->
  exists q r t,
    Nat.iter (S n) shr_1 (Build_shr_record m false false)
    = Build_shr_record q r (negb (t =? 0))
    /\ m = q * 2 ^ Z.of_nat (S n)
           + (if r then 2 ^ Z.of_nat n else 0) + t
    /\ 0 <= t < 2 ^ Z.of_nat n /\ 0 <= q.
Proof.
  intro H. induction n as [|n (q & r & t & E & Em & Ht & Hq)].
  - exists (m / 2), (Z.odd m), 0. rewrite Nat.iter_succ. cbn [Nat.iter nat_rect].
    rewrite shr_1_spec by exact H.
    split; [reflexivity|]. change (2 ^ Z.of_nat 1) with 2. change (2 ^ Z.of_nat 0) with 1.
    pose proof (Z.div_mod m 2 ltac:(lia)) as D.
    rewrite Zmod_odd in D.
    split; [destruct (Z.odd m); lia|]. split; [lia|]. apply Z.div_pos; lia.
  - exists (q / 2), (Z.odd q), ((if r then 2 ^ Z.of_nat n else 0) + t).
    rewrite (Nat.iter_succ (S n)), E, shr_1_spec by exact Hq.
    assert (P : 0 < 2 ^ Z.of_nat n) by (apply Z.pow_pos_nonneg; lia).
    assert (S1 : 2 ^ Z.of_nat (S n) = 2 * 2 ^ Z.of_nat n)
      by (rewrite Nat2Z.inj_succ, Z.pow_succ_r by lia; reflexivity).
    assert (S2 : 2 ^ Z.of_nat (S (S n)) = 4 * 2 ^ Z.of_nat n)
      by (rewrite Nat2Z.inj_succ, Z.pow_succ_r, S1 by lia; lia).
    pose proof (Z.div_mod q 2 ltac:(lia)) as D. rewrite Zmod_odd in D.
    split; [|split; [|split]].
    + f_equal. destruct r.
      * cbn [orb]. symmetry. apply negb_true_iff, Z.eqb_neq. lia.
      * cbn [orb]. rewrite Z.add_0_l. reflexivity.
    + rewrite S2, S1. rewrite S1 in Em. destruct (Z.odd q), r; lia.
    + rewrite S1. destruct r; lia.
    + apply Z.div_pos; lia.
Qed.

(** The first stage, for an exact mantissa: the shift to the exponent of
    the last place and the rounding to nearest even. *)
Lemma shr_round_exact (M e n : Z) :
  0 <= M -> 0 < n ->
  let '(mrs, e') := shr (shr_record_of_loc M loc_Exact) e n in
  e' = e + n
  /\ round_nearest_even (shr_m mrs) (loc_of_shr_record mrs)
     = (if 2 * (M mod 2 ^ n) <? 2 ^ n then M / 2 ^ n
        else if 2 ^ n <? 2 * (M mod 2 ^ n) then M / 2 ^ n + 1
        else if Z.even (M / 2 ^ n) then M / 2 ^ n else M / 2 ^ n + 1).
Proof.
  intros HM Hn. destruct n as [|p|p]; try lia. cbn [shr shr_record_of_loc].
  split; [reflexivity|]. rewrite iter_pos_nat.
  destruct (Pos2Nat.is_succ p) as [k Ek]. rewrite Ek.
  destruct (shr_iter_exact k M HM) as (q & r & t & E & Em & Ht & Hq).
  rewrite E. cbn [shr_m].
  assert (Ep : Z.pos p = Z.of_nat (S k)) by lia.
  rewrite Ep. 
  assert (P : 0 < 2 ^ Z.of_nat k) by (apply Z.pow_pos_nonneg; lia).
  assert (S1 : 2 ^ Z.of_nat (S k) = 2 * 2 ^ Z.of_nat k)
    by (rewrite Nat2Z.inj_succ, Z.pow_succ_r by lia; reflexivity).
  remember ((if r then 2 ^ Z.of_nat k else 0) + t) as R eqn:ER.
  assert (HR : 0 <= R < 2 ^ Z.of_nat (S k)) by (subst R; destruct r; lia).
  assert (Dq : M / 2 ^ Z.of_nat (S k) = q).
  { symmetry. apply (Z.div_unique _ _ q R); [left; exact HR|]. subst R. lia. }
  assert (Dr : M mod 2 ^ Z.of_nat (S k) = R).
  { symmetry. apply (Z.mod_unique _ _ q R); [left; exact HR|]. subst R. lia. }
  rewrite Dq, Dr. subst R. rewrite S1. clear Dq Dr HR E Em.
  destruct r.
  - destruct (Z.eqb_spec t 0) as [->|Nt]; cbn [negb loc_of_shr_record round_nearest_even].
    + rewrite Z.add_0_r.
      rewrite !Z.ltb_irrefl. reflexivity.
    + rewrite (proj2 (Z.ltb_ge _ _)) by lia.
      rewrite (proj2 (Z.ltb_lt _ _)) by lia. reflexivity.
  - rewrite Z.add_0_l.
    rewrite (proj2 (Z.ltb_lt (2 * t) _)) by lia.
    destruct (t =? 0); reflexivity.
Qed.

Lemma shr_spec (m : Z) (r s : bool) (e n : Z) :
  0 <= m -> 0 <= n ->
  let '(mrs, e') := shr (Build_shr_record m r s) e n in
  shr_m mrs = m / 2 ^ n /\ e' = e + n.
Proof.
  intros Hm Hn. destruct n as [|p|p]; [| |lia]; cbn [shr].
  - cbn [shr_m]. rewrite Z.div_1_r. split; lia.
  - rewrite iter_pos_nat, shr_m_iter by exact Hm.
    rewrite positive_nat_Z. split; reflexivity.
Qed.

Lemma round_nearest_even_range (m : Z) (l : location) :
  m <= round_nearest_even m l <= m + 1.
Proof.
  destruct l as [|[| |]]; cbn [round_nearest_even]; try lia.
  destruct (Z.even m); lia.
Qed.

Lemma shr_record_of_loc_m (m : Z) (l : location) :
  exists r s, shr_record_of_loc m l = Build_shr_record m r s.
Proof. destruct l as [|[| |]]; cbn; eauto. Qed.

(** The exponent of the first stage is the least one when the mantissa
    vanishes in the shift. *)
Lemma small_mantissa (q0 e : Z) :
  0 <= q0 -> e <= fexp prec emax (Zdigits2 q0 + e) ->
  q0 < 2 ^ (fexp prec emax (Zdigits2 q0 + e) - e) ->
  fexp prec emax (Zdigits2 q0 + e) = -1074.
Proof.
  intros H0 He Hq. rewrite fexp_eq in *.
  assert (D : Zdigits2 q0 <= Z.max (Zdigits2 q0 + e - 53) (-1074) - e)
    by (apply Zdigits2_le; lia).
  lia.
Qed.

(** The second stage has nothing to shift or one even place. *)
Lemma second_stage (q0 e q1 : Z) :
  0 <= q0 -> e <= fexp prec emax (Zdigits2 q0 + e) ->
  let E := fexp prec emax (Zdigits2 q0 + e) in
  q0 / 2 ^ (E - e) <= q1 <= q0 / 2 ^ (E - e) + 1 ->
  let n' := fexp prec emax (Zdigits2 q1 + E) - E in
  0 <= n' /\ q1 / 2 ^ n' * 2 ^ n' = q1.
Proof.
  intros H0 He E Hq1 n'.
  assert (HE : E = Z.max (Zdigits2 q0 + e - 53) (-1074)) by apply fexp_eq.
  assert (Hn : n' = Z.max (Zdigits2 q1 + E - 53) (-1074) - E)
    by (unfold n'; rewrite fexp_eq; reflexivity).
  assert (He' : e <= E) by exact He.
  clearbody E n'. clear He.
  assert (P : 0 < 2 ^ (E - e)) by (apply Z.pow_pos_nonneg; lia).
  assert (Q0 : 0 <= q0 / 2 ^ (E - e)) by (apply Z.div_pos; lia).
  assert (C : n' = 0 \/ (n' = 1 /\ exists k, 1 <= k /\ q1 = 2 ^ k)).
  { destruct (Z.lt_ge_cases q0 (2 ^ (E - e))) as [Hs|Hl].
    - left. rewrite Z.div_small in Hq1 by lia.
      assert (D : Zdigits2 q0 <= E - e) by (apply Zdigits2_le; lia).
      assert (D1 : Zdigits2 q1 <= 1) by (apply Zdigits2_le; lia).
      pose proof (Zdigits2_nonneg q1). pose proof (Zdigits2_nonneg q0). lia.
    - assert (Q : 0 < q0) by lia.
      pose proof (Zdigits2_ge q0 (E - e) Hl ltac:(lia)) as Dn.
      pose proof (Zdigits2_div q0 (E - e) Q ltac:(lia)) as Dq.
      remember (q0 / 2 ^ (E - e)) as q eqn:Eq.
      remember (Zdigits2 q0 - (E - e)) as k eqn:Ek.
      assert (Q1 : 0 < q).
      { destruct (Z.eq_dec q 0) as [Z0|]; [|lia]. rewrite Z0 in Dq. cbn in Dq. lia. }
      pose proof (Zdigits2_bounds q Q1) as [Bl Bu]. rewrite Dq in Bl, Bu.
      destruct (Z.eq_dec q1 (2 ^ k)) as [E1|N1].
      + assert (D1 : Zdigits2 q1 = k + 1).
        { apply Zdigits2_unique; [|lia]. rewrite E1.
          replace (k + 1 - 1) with k by lia.
          split; [lia|]. replace (k + 1) with (Z.succ k) by lia.
          rewrite Z.pow_succ_r by lia. pose proof (Z.pow_pos_nonneg 2 k). lia. }
        destruct (Z.eq_dec n' 0) as [|Nn]; [left; assumption|right].
        split; [lia|]. exists k. split; [lia|exact E1].
      + left. assert (D1 : Zdigits2 q1 = k) by (apply Zdigits2_unique; lia).
        lia. }
  destruct C as [->|[-> (k & Hk & ->)]].
  - change (2 ^ 0) with 1. rewrite Z.div_1_r. lia.
  - split; [lia|]. change (2 ^ 1) with 2.
    replace k with (Z.succ (k - 1)) by lia.
    rewrite Z.pow_succ_r by lia.
    rewrite (Z.mul_comm 2), Z.div_mul by lia. reflexivity.
Qed.

(** What [binary_round_aux] returns for a mantissa [q1] at the exponent [E]
    when the second stage keeps the value. *)
Lemma second_shift (q1 E : Z) :
  0 <= q1 ->
  let n' := fexp prec emax (Zdigits2 q1 + E) - E in
  0 <= n' ->
  let '(mrs, e'') := shr_fexp prec emax q1 E loc_Exact in
  shr_m mrs = q1 / 2 ^ n' /\ e'' = E + n'.
Proof.
  intros H n' Hn. unfold shr_fexp. cbn [shr_record_of_loc].
  apply shr_spec; assumption.
Qed.

Lemma canonical_after_shift (q1 E : Z) :
  0 <= q1 ->
  let n' := fexp prec emax (Zdigits2 q1 + E) - E in
  0 <= n' -> 0 < q1 / 2 ^ n' ->
  fexp prec emax (Zdigits2 (q1 / 2 ^ n') + (E + n')) = E + n'.
Proof.
  intros H n' Hn Hq.
  assert (P : 0 < 2 ^ n') by (apply Z.pow_pos_nonneg; lia).
  assert (Q : 0 < q1).
  { destruct (Z.eq_dec q1 0) as [->|]; [rewrite Z.div_0_l in Hq; lia|lia]. }
  assert (L : 2 ^ n' <= q1).
  { destruct (Z.lt_ge_cases q1 (2 ^ n')) as [S|S]; [|exact S].
    rewrite Z.div_small in Hq; lia. }
  pose proof (Zdigits2_ge q1 n' L Hn).
  rewrite Zdigits2_div by lia.
  replace (Zdigits2 q1 - n' + (E + n')) with (Zdigits2 q1 + E) by lia.
  unfold n'. lia.
Qed.

(** The shape of the result of [binary_round_aux]. *)
Lemma binary_round_aux_shape (s : bool) (q0 e : Z) (l : location) :
  0 <= q0 -> e <= fexp prec emax (Zdigits2 q0 + e) ->
  let E := fexp prec emax (Zdigits2 q0 + e) in
  exists mrs,
    shr_fexp prec emax q0 e l = (mrs, E)
    /\ shr_m mrs = q0 / 2 ^ (E - e)
    /\ let q1 := round_nearest_even (shr_m mrs) (loc_of_shr_record mrs) in
       exists q2 E2,
         binary_round_aux prec emax s q0 e l
         = match q2 with
           | Z0 => S754_zero s
           | Zpos m => if E2 <=? emax - prec then S754_finite s m E2
                       else S754_infinity s
           | Zneg _ => S754_nan
           end
         /\ 0 <= q2 /\ E <= E2
         /\ q2 * 2 ^ (E2 - E) = q1
         /\ (0 < q2 -> fexp prec emax (Zdigits2 q2 + E2) = E2).
Proof.
  intros H0 He E.
  destruct (shr_record_of_loc_m q0 l) as (r & s0 & Er).
  pose proof (shr_spec q0 r s0 e (E - e) H0 ltac:(lia)) as S1.
  unfold binary_round_aux.
  destruct (shr_fexp prec emax q0 e l) as [mrs e'] eqn:S.
  unfold shr_fexp in S. fold E in S. rewrite Er in S. rewrite S in S1.
  destruct S1 as [Sm Se].
  assert (Ee : e' = E) by lia. rewrite Ee in *. clear Ee Se.
  exists mrs. split; [reflexivity|]. split; [exact Sm|].
  cbv zeta.
  set (q1 := round_nearest_even (shr_m mrs) (loc_of_shr_record mrs)).
  pose proof (round_nearest_even_range (shr_m mrs) (loc_of_shr_record mrs)) as R.
  fold q1 in R. rewrite Sm in R.
  assert (P : 0 < 2 ^ (E - e)) by (apply Z.pow_pos_nonneg; lia).
  assert (Q0 : 0 <= q0 / 2 ^ (E - e)) by (apply Z.div_pos; lia).
  assert (Q1 : 0 <= q1) by lia.
  destruct (second_stage q0 e q1 H0 He R) as [Hn Hv]. fold E in Hn, Hv.
  pose proof (second_shift q1 E Q1 Hn) as S2.
  destruct (shr_fexp prec emax q1 E loc_Exact) as [mrs2 e2].
  destruct S2 as [S2m S2e].
  set (n' := fexp prec emax (Zdigits2 q1 + E) - E) in *.
  exists (q1 / 2 ^ n'), (E + n').
  assert (P' : 0 < 2 ^ n') by (apply Z.pow_pos_nonneg; lia).
  rewrite S2m, S2e.
  split; [reflexivity|].
  split; [apply Z.div_pos; lia|]. split; [lia|].
  split; [replace (E + n' - E) with n' by lia; exact Hv|].
  intro Hq. apply (canonical_after_shift q1 E Q1 Hn Hq).
Qed.

Lemma canonical_exponent (m : positive) (e : Z) :
  bounded prec emax m e = true ->
  fexp prec emax (Zdigits2 (Zpos m) + e) = e /\ -1074 <= e <= 971.
Proof.
  unfold bounded, canonical_mantissa. rewrite andb_true_iff, Z.eqb_eq, Z.leb_le.
  cbn [Zdigits2]. intros [C B]. split; [exact C|].
  rewrite fexp_eq in C. change (emax - prec) with 971 in B. lia.
Qed.

Lemma canon_scaled (M e : Z) :
  0 < M -> - unit_exponent <= e ->
  canon (M * 2 ^ (e + unit_exponent))
  = fexp prec emax (Zdigits2 M + e) + unit_exponent.
Proof.
  intros HM He. unfold canon. rewrite Zdigits2_shift by lia.
  rewrite fexp_eq. change (emin prec emax) with (-1074). unfold prec. lia.
Qed.

Lemma valid_representable (x : spec_float) :
  valid_float x = true -> representable (units x).
Proof.
  destruct x as [s|s| |s m e]; try (intros _; apply representable_0).
  unfold valid_float. cbn [valid_binary units]. intro B.
  destruct (canonical_exponent m e B) as [C R].
  assert (Rp : representable (Zpos m * 2 ^ (e + unit_exponent))).
  { unfold representable. rewrite canon_scaled by (unfold unit_exponent; lia).
    rewrite C. exists (Zpos m). reflexivity. }
  destruct s; cbn [cond_Zopp]; [|exact Rp].
  replace (- Zpos m * 2 ^ (e + unit_exponent))
    with (- (Zpos m * 2 ^ (e + unit_exponent))) by lia.
  apply representable_opp, Rp.
Qed.

(** The first stage computes the grid point [nearest_even] names. *)
Lemma first_stage_units (M e : Z) :
  0 < M -> - unit_exponent <= e ->
  let E := fexp prec emax (Zdigits2 M + e) in
  e <= E ->
  forall mrs, shr_fexp prec emax M e loc_Exact = (mrs, E) ->
  round_nearest_even (shr_m mrs) (loc_of_shr_record mrs)
  * 2 ^ (E + unit_exponent)
  = nearest_even (M * 2 ^ (e + unit_exponent)).
Proof.
  intros HM He E HE mrs S.
  unfold nearest_even. rewrite canon_scaled by assumption. fold E.
  set (c := 2 ^ (e + unit_exponent)).
  assert (Pc : 0 < c) by (apply Z.pow_pos_nonneg; lia).
  assert (Pn : 0 < 2 ^ (E - e)) by (apply Z.pow_pos_nonneg; lia).
  assert (Ep : 2 ^ (E + unit_exponent) = 2 ^ (E - e) * c).
  { unfold c. rewrite <- Z.pow_add_r by lia. f_equal. lia. }
  rewrite Ep.
  rewrite Z.div_mul_cancel_r by lia.
  rewrite Z.mul_mod_distr_r by lia.
  set (b := 2 ^ (E - e)) in *.
  assert (Q : round_nearest_even (shr_m mrs) (loc_of_shr_record mrs)
              = (if 2 * (M mod b) <? b then M / b
                 else if b <? 2 * (M mod b) then M / b + 1
                 else if Z.even (M / b) then M / b else M / b + 1)).
  { unfold shr_fexp in S. fold E in S.
    destruct (Z.eq_dec (E - e) 0) as [Z0|NZ].
    - rewrite Z0 in S. cbn [shr shr_record_of_loc] in S. inversion S.
      cbn [shr_m loc_of_shr_record round_nearest_even].
      unfold b. rewrite Z0. change (2 ^ 0) with 1.
      rewrite Z.mod_1_r, Z.div_1_r. reflexivity.
    - pose proof (shr_round_exact M e (E - e) ltac:(lia) ltac:(lia)) as R.
      rewrite S in R. destruct R as [_ R]. exact R. }
  rewrite Q.
  pose proof (Z.mod_pos_bound M b Pn) as Bm.
  destruct (Z.ltb_spec (2 * (M mod b)) b) as [L1|L1];
    destruct (Z.ltb_spec (2 * (M mod b * c)) (b * c)) as [L2|L2];
    try reflexivity; try (exfalso; nia).
  destruct (Z.ltb_spec b (2 * (M mod b))) as [L3|L3];
    destruct (Z.ltb_spec (b * c) (2 * (M mod b * c))) as [L4|L4];
    try reflexivity; try (exfalso; nia).
  destruct (Z.even (M / b)); reflexivity.
Qed.

Lemma binary_round_aux_valid (s : bool) (q0 e : Z) (l : location) :
  0 <= q0 -> e <= fexp prec emax (Zdigits2 q0 + e) ->
  valid_float (binary_round_aux prec emax s q0 e l) = true
  /\ binary_round_aux prec emax s q0 e l <> S754_nan.
Proof.
  intros H0 He.
  destruct (binary_round_aux_shape s q0 e l H0 He)
    as (mrs & _ & _ & q2 & E2 & -> & Hq & _ & _ & C).
  destruct q2 as [|m|m]; [split; [reflexivity|discriminate]| |lia].
  destruct (Z.leb_spec E2 (emax - prec)) as [B|B].
  - split; [|discriminate]. unfold valid_float. cbn [valid_binary].
    unfold bounded, canonical_mantissa.
    specialize (C ltac:(lia)). cbn [Zdigits2] in C. rewrite C, Z.eqb_refl.
    apply Z.leb_le. exact B.
  - split; [reflexivity|discriminate].
Qed.

Lemma binary_round_aux_units (s : bool) (M e : Z) :
  0 < M -> - unit_exponent <= e -> e <= fexp prec emax (Zdigits2 M + e) ->
  rounds_to (cond_Zopp s M * 2 ^ (e + unit_exponent))
            (binary_round_aux prec emax s M e loc_Exact).
Proof.
  intros HM He HE.
  pose proof (binary_round_aux_valid s M e loc_Exact ltac:(lia) HE) as [V _].
  split; [exact V|]. clear V.
  destruct (binary_round_aux_shape s M e loc_Exact ltac:(lia) HE)
    as (mrs & S & _ & q2 & E2 & -> & Hq & HE2 & Hv & C).
  pose proof (first_stage_units M e HM He HE mrs S) as F.
  set (E := fexp prec emax (Zdigits2 M + e)) in *.
  set (X := M * 2 ^ (e + unit_exponent)) in *.
  assert (PX : 0 < X) by (apply Z.mul_pos_pos; [lia|apply Z.pow_pos_nonneg; lia]).
  assert (V2 : q2 * 2 ^ (E2 + unit_exponent) = nearest_even X).
  { rewrite <- F, <- Hv, <- Z.mul_assoc, <- Z.pow_add_r by lia.
    do 2 f_equal. lia. }
  assert (RU : round_units (cond_Zopp s M * 2 ^ (e + unit_exponent))
               = cond_Zopp s (nearest_even X)).
  { unfold round_units. destruct s; cbn [cond_Zopp].
    - fold X. replace (- M * 2 ^ (e + unit_exponent)) with (- X) by (unfold X; lia).
      rewrite (proj2 (Z.ltb_lt (- X) 0)) by lia.
      rewrite Z.opp_involutive. reflexivity.
    - fold X. rewrite (proj2 (Z.ltb_ge X 0)) by lia. reflexivity. }
  assert (SX : (cond_Zopp s M * 2 ^ (e + unit_exponent) <? 0) = s).
  { destruct s; cbn [cond_Zopp].
    - apply Z.ltb_lt. replace (- M * 2 ^ (e + unit_exponent)) with (- X) by (unfold X; lia). lia.
    - apply Z.ltb_ge. fold X. lia. }
  rewrite RU.
  destruct q2 as [|m|m]; [| |lia].
  - cbn [units]. rewrite <- V2. destruct s; reflexivity.
  - destruct (Z.leb_spec E2 (emax - prec)) as [B|B].
    + cbn [units]. rewrite <- V2. destruct s; cbn [cond_Zopp]; lia.
    + split; [|symmetry; exact SX].
      specialize (C ltac:(lia)). rewrite fexp_eq in C.
      change (emax - prec) with 971 in B.
      assert (D : Zdigits2 (Z.pos m) = 53) by lia.
      pose proof (Zdigits2_bounds (Z.pos m) ltac:(lia)) as [L _]. rewrite D in L.
      assert (G : 2 ^ (emax + unit_exponent) <= nearest_even X).
      { rewrite <- V2.
        replace (emax + unit_exponent) with (52 + (972 + unit_exponent))
          by (unfold emax; lia).
        rewrite Z.pow_add_r by (unfold unit_exponent; lia).
        apply Z.mul_le_mono_nonneg;
          [apply Z.pow_nonneg; lia|exact L|apply Z.pow_nonneg; lia
          |apply Z.pow_le_mono_r; lia]. }
      destruct s; cbn [cond_Zopp]; lia.
Qed.

Lemma iter_xO (m d : positive) :
  Zpos (Pos.iter xO m d) = Zpos m * 2 ^ Zpos d.
Proof.
  induction d as [|d IH] using Pos.peano_ind.
  - cbn. lia.
  - rewrite Pos.iter_succ, Pos2Z.inj_xO, IH, Pos2Z.inj_succ, Z.pow_succ_r by lia.
    lia.
Qed.

Lemma shl_align_spec (m : positive) (e e' : Z) :
  e' <= e ->
  Zpos (fst (shl_align m e e')) = Zpos m * 2 ^ (e - e')
  /\ snd (shl_align m e e') = e'.
Proof.
  intro H. unfold shl_align. destruct (e' - e) as [|d|d] eqn:D; try lia.
  - assert (e = e') by lia. subst e'. cbn [fst snd].
    rewrite Z.sub_diag. split; [lia|reflexivity].
  - cbn [fst snd]. rewrite iter_xO. replace (e - e') with (Zpos d) by lia.
    split; reflexivity.
Qed.

Lemma binary_round_units (s : bool) (m : positive) (e : Z) :
  - unit_exponent <= e ->
  rounds_to (cond_Zopp s (Zpos m) * 2 ^ (e + unit_exponent))
            (binary_round prec emax s m e).
Proof.
  intros He. unfold binary_round.
  set (E := fexp prec emax (Zpos (digits2_pos m) + e)).
  assert (HE : E = Z.max (Zdigits2 (Zpos m) + e - 53) (-1074)) by apply fexp_eq.
  destruct (Z.le_gt_cases e E) as [L|G].
  - assert (A : shl_align m e E = (m, e)).
    { unfold shl_align. destruct (E - e) eqn:D; try reflexivity. lia. }
    rewrite A. apply binary_round_aux_units; try lia. exact L.
  - destruct (shl_align_spec m e E ltac:(lia)) as [A1 A2].
    destruct (shl_align m e E) as [mz ez]. cbn [fst snd] in A1, A2. subst ez.
    assert (U : - unit_exponent <= E) by (unfold unit_exponent; lia).
    assert (D : Zdigits2 (Zpos mz) + E = Zdigits2 (Zpos m) + e).
    { rewrite A1, Zdigits2_shift by lia. lia. }
    assert (V : cond_Zopp s (Zpos m) * 2 ^ (e + unit_exponent)
                = cond_Zopp s (Zpos mz) * 2 ^ (E + unit_exponent)).
    { rewrite A1. replace (e + unit_exponent) with ((e - E) + (E + unit_exponent)) by lia.
      rewrite Z.pow_add_r by lia. destruct s; cbn [cond_Zopp]; lia. }
    rewrite V. apply binary_round_aux_units; try lia.
    rewrite D. apply Z.le_refl.
Qed.

Lemma round_units_0 : round_units 0 = 0.
Proof. apply round_units_representable, representable_0. Qed.

Lemma binary_normalize_units (S e : Z) :
  - unit_exponent <= e ->
  rounds_to (S * 2 ^ (e + unit_exponent))
            (binary_normalize prec emax S e false).
Proof.
  intro He. destruct S as [|m|m]; cbn [binary_normalize].
  - split; [reflexivity|]. cbn [units]. rewrite Z.mul_0_l, round_units_0. reflexivity.
  - apply (binary_round_units false m e He).
  - apply (binary_round_units true m e He).
Qed.

Lemma unit_exponent_eq : unit_exponent = 2200.
Proof. reflexivity. Qed.

Lemma valid_exponent (s : bool) (m : positive) (e : Z) :
  valid_float (S754_finite s m e) = true ->
  - unit_exponent <= e /\ 0 < 2 ^ (e + unit_exponent).
Proof.
  intro V. destruct (canonical_exponent m e V) as [_ R].
  rewrite unit_exponent_eq. split; [lia|apply Z.pow_pos_nonneg; lia].
Qed.

Lemma rounds_to_self (x : spec_float) :
  valid_float x = true -> is_number x = true -> rounds_to (units x) x.
Proof.
  intros V N. split; [exact V|].
  destruct x as [s|s| |s m e]; try discriminate N.
  - cbn [units]. symmetry. apply round_units_0.
  - symmetry. apply round_units_representable, valid_representable, V.
Qed.

Lemma rounds_to_zero (s : bool) : rounds_to 0 (S754_zero s).
Proof. apply (rounds_to_self (S754_zero s)); reflexivity. Qed.

Lemma aligned (s : bool) (m : positive) (e ez : Z) :
  - unit_exponent <= ez -> ez <= e ->
  cond_Zopp s (Zpos (fst (shl_align m e ez))) * 2 ^ (ez + unit_exponent)
  = cond_Zopp s (Zpos m) * 2 ^ (e + unit_exponent).
Proof.
  intros Hz He. destruct (shl_align_spec m e ez He) as [A _]. rewrite A.
  replace (e + unit_exponent) with ((e - ez) + (ez + unit_exponent)) by lia.
  rewrite (Z.pow_add_r 2 (e - ez) (ez + unit_exponent)) by lia.
  destruct s; cbn [cond_Zopp]; ring.
Qed.

Lemma fadd_units (x y : spec_float) :
  valid_float x = true -> valid_float y = true ->
  is_number x = true -> is_number y = true ->
  rounds_to (units x + units y) (fadd x y).
Proof.
  intros Vx Vy Nx Ny.
  destruct x as [sx|sx| |sx mx ex]; try discriminate Nx;
    destruct y as [sy|sy| |sy my ey]; try discriminate Ny.
  - cbn [units]. destruct sx, sy; apply rounds_to_zero.
  - cbn [fadd SFadd]. change (units (S754_zero sx)) with 0. rewrite Z.add_0_l.
    apply rounds_to_self; assumption.
  - cbn [fadd SFadd]. change (units (S754_zero sy)) with 0. rewrite Z.add_0_r.
    apply rounds_to_self; assumption.
  - destruct (valid_exponent _ _ _ Vx) as [Ex _].
    destruct (valid_exponent _ _ _ Vy) as [Ey _].
    unfold fadd. cbn [SFadd units].
    set (ez := Z.min ex ey).
    rewrite <- (aligned sx mx ex ez), <- (aligned sy my ey ez) by (unfold ez; lia).
    rewrite <- Z.mul_add_distr_r.
    apply binary_normalize_units. unfold ez. lia.
Qed.

Lemma fsub_units (x y : spec_float) :
  valid_float x = true -> valid_float y = true ->
  is_number x = true -> is_number y = true ->
  rounds_to (units x - units y) (fsub x y).
Proof.
  intros Vx Vy Nx Ny.
  destruct x as [sx|sx| |sx mx ex]; try discriminate Nx;
    destruct y as [sy|sy| |sy my ey]; try discriminate Ny.
  - cbn [units]. destruct sx, sy; apply rounds_to_zero.
  - unfold fsub. cbn [SFsub]. change (units (S754_zero sx)) with 0. rewrite Z.sub_0_l.
    replace (- units (S754_finite sy my ey))
      with (units (S754_finite (negb sy) my ey))
      by (cbn [units]; destruct sy; cbn [negb cond_Zopp]; lia).
    apply rounds_to_self; [exact Vy|reflexivity].
  - unfold fsub. cbn [SFsub]. change (units (S754_zero sy)) with 0. rewrite Z.sub_0_r.
    apply rounds_to_self; assumption.
  - destruct (valid_exponent _ _ _ Vx) as [Ex _].
    destruct (valid_exponent _ _ _ Vy) as [Ey _].
    unfold fsub. cbn [SFsub units].
    set (ez := Z.min ex ey).
    rewrite <- (aligned sx mx ex ez), <- (aligned sy my ey ez) by (unfold ez; lia).
    rewrite <- Z.mul_sub_distr_r.
    apply binary_normalize_units. unfold ez. lia.
Qed.

(** The product with a normal number. *)
Lemma fmul_units (sx sy : bool) (mx my : positive) (ex ey : Z) :
  valid_float (S754_finite sx mx ex) = true ->
  valid_float (S754_finite sy my ey) = true ->
  Zdigits2 (Zpos my) = 53 ->
  - unit_exponent <= ex + ey ->
  rounds_to (cond_Zopp (xorb sx sy) (Zpos (mx * my))
             * 2 ^ (ex + ey + unit_exponent))
            (fmul (S754_finite sx mx ex) (S754_finite sy my ey)).
Proof.
  intros Vx Vy Dy He. unfold fmul. cbn [SFmul].
  apply binary_round_aux_units; [lia|exact He|].
  rewrite fexp_eq.
  pose proof (Zdigits2_bounds (Zpos my) ltac:(lia)) as [L _]. rewrite Dy in L.
  assert (G : 2 ^ 52 <= Zpos (mx * my)).
  { rewrite Pos2Z.inj_mul. change (53 - 1) with 52 in L.
    pose proof (Pos2Z.is_pos mx). nia. }
  pose proof (Zdigits2_ge _ 52 G ltac:(lia)). lia.
Qed.

Lemma canonical_lt (m1 m2 : positive) (e1 e2 : Z) :
  bounded prec emax m1 e1 = true -> bounded prec emax m2 e2 = true ->
  e1 < e2 ->
  Zpos m1 * 2 ^ (e1 + unit_exponent) < Zpos m2 * 2 ^ (e2 + unit_exponent).
Proof.
  intros B1 B2 H.
  destruct (canonical_exponent m1 e1 B1) as [C1 R1].
  destruct (canonical_exponent m2 e2 B2) as [C2 R2].
  rewrite fexp_eq in C1, C2.
  pose proof (Zdigits2_bounds (Zpos m1) ltac:(lia)) as [_ U1].
  pose proof (Zdigits2_bounds (Zpos m2) ltac:(lia)) as [L2 _].
  assert (D2 : Zdigits2 (Zpos m2) = 53) by lia.
  assert (D1 : Zdigits2 (Zpos m1) <= 53) by lia.
  rewrite D2 in L2. change (53 - 1) with 52 in L2.
  assert (U1' : Zpos m1 < 2 ^ 53).
  { eapply Z.lt_le_trans; [exact U1|]. apply Z.pow_le_mono_r; lia. }
  rewrite unit_exponent_eq.
  assert (P1 : 0 < 2 ^ (e1 + 2200)) by (apply Z.pow_pos_nonneg; lia).
  assert (S : 2 ^ (e2 + 2200) = 2 ^ (e2 - e1 - 1) * (2 * 2 ^ (e1 + 2200))).
  { rewrite <- Z.pow_succ_r, <- Z.pow_add_r by lia. f_equal. lia. }
  assert (P2 : 1 <= 2 ^ (e2 - e1 - 1)).
  { pose proof (Z.pow_pos_nonneg 2 (e2 - e1 - 1)). lia. }
  rewrite S. change (2 ^ 53) with (2 * 2 ^ 52) in U1'.
  set (p := 2 ^ (e1 + 2200)) in *. set (g := 2 ^ (e2 - e1 - 1)) in *.
  assert (2 ^ 52 * (2 * p) <= Zpos m2 * (g * (2 * p))) by nia.
  nia.
Qed.

Lemma units_sign (s : bool) (m : positive) (e : Z) :
  valid_float (S754_finite s m e) = true ->
  if s then units (S754_finite s m e) < 0 else 0 < units (S754_finite s m e).
Proof.
  intro V. destruct (valid_exponent s m e V) as [_ P]. cbn [units].
  destruct s; cbn [cond_Zopp]; nia.
Qed.

Lemma flt_units (x y : spec_float) :
  valid_float x = true -> valid_float y = true ->
  is_number x = true -> is_number y = true ->
  flt x y = (units x <? units y).
Proof.
  intros Vx Vy Nx Ny. unfold flt, SFltb.
  destruct x as [sx|sx| |sx mx ex]; try discriminate Nx;
    destruct y as [sy|sy| |sy my ey]; try discriminate Ny.
  - reflexivity.
  - pose proof (units_sign _ _ _ Vy) as S. cbn [SFcompare].
    change (units (S754_zero sx)) with 0.
    destruct sy; symmetry; [apply Z.ltb_ge|apply Z.ltb_lt]; lia.
  - pose proof (units_sign _ _ _ Vx) as S. cbn [SFcompare].
    change (units (S754_zero sy)) with 0.
    destruct sx; symmetry; [apply Z.ltb_lt|apply Z.ltb_ge]; lia.
  - pose proof (units_sign _ _ _ Vx) as Sx.
    pose proof (units_sign _ _ _ Vy) as Sy.
    destruct (valid_exponent _ _ _ Vx) as [_ Px].
    destruct (valid_exponent _ _ _ Vy) as [_ Py].
    cbn [SFcompare].
    destruct sx, sy.
    + destruct (Z.compare_spec ex ey) as [E|L|G].
      * subst ey. rewrite Pos.compare_cont_spec. cbn [Pos.switch_Eq].
        cbn [units cond_Zopp].
        destruct (Pos.compare_spec mx my) as [E|L|G]; cbn [CompOpp];
          symmetry; [apply Z.ltb_ge|apply Z.ltb_ge|apply Z.ltb_lt];
          try (subst; lia); nia.
      * pose proof (canonical_lt mx my ex ey Vx Vy L).
        symmetry. apply Z.ltb_ge. cbn [units cond_Zopp]. lia.
      * pose proof (canonical_lt my mx ey ex Vy Vx ltac:(lia)).
        symmetry. apply Z.ltb_lt. cbn [units cond_Zopp]. lia.
    + symmetry. apply Z.ltb_lt. lia.
    + symmetry. apply Z.ltb_ge. lia.
    + destruct (Z.compare_spec ex ey) as [E|L|G].
      * subst ey. rewrite Pos.compare_cont_spec. cbn [Pos.switch_Eq].
        cbn [units cond_Zopp].
        destruct (Pos.compare_spec mx my) as [E|L|G];
          symmetry; [apply Z.ltb_ge|apply Z.ltb_lt|apply Z.ltb_ge];
          try (subst; lia); nia.
      * pose proof (canonical_lt mx my ex ey Vx Vy L).
        symmetry. apply Z.ltb_lt. cbn [units cond_Zopp]. lia.
      * pose proof (canonical_lt my mx ey ex Vy Vx ltac:(lia)).
        symmetry. apply Z.ltb_ge. cbn [units cond_Zopp]. lia.
Qed.

Lemma fexp_mono (a b : Z) : a <= b -> fexp prec emax a <= fexp prec emax b.
Proof. intro H. rewrite !fexp_eq. lia. Qed.

Lemma rounds_to_valid (X : Z) (r : spec_float) : rounds_to X r -> valid_float r = true.
Proof. intros [V _]. exact V. Qed.

Lemma of_decimal_valid (neg : bool) (m e : Z) :
  0 <= m -> valid_float (of_decimal neg m e) = true /\ of_decimal neg m e <> S754_nan.
Proof.
  intro Hm. unfold of_decimal.
  destruct (Z.eqb_spec m 0) as [Z0|NZ]; [split; [reflexivity|discriminate]|].
  destruct (Z.leb_spec 0 e) as [He|He].
  - pose proof (binary_normalize_units (cond_Zopp neg (m * 10 ^ e)) 0
                  ltac:(rewrite unit_exponent_eq; lia)) as [V R].
    split; [exact V|]. intro E. rewrite E in R. exact R.
  - unfold SFdiv_core_binary.
    set (d1 := Zdigits2 m). set (d2 := Zdigits2 (10 ^ (- e))).
    set (e' := Z.min (fexp prec emax (d1 + 0 - (d2 + 0))) (0 - 0)).
    set (s := 0 - 0 - e').
    set (m' := match s with Z.pos _ => Z.shiftl m s | 0 => m | Z.neg _ => 0 end).
    assert (P10 : 0 < 10 ^ (- e)) by (apply Z.pow_pos_nonneg; lia).
    assert (Hs : 0 <= s) by (unfold s, e'; lia).
    assert (Em : m' = m * 2 ^ s).
    { unfold m'. destruct s as [|p|p] eqn:Es; [cbn; lia| |lia].
      apply Z.shiftl_mul_pow2. lia. }
    assert (Ps : 0 < 2 ^ s) by (apply Z.pow_pos_nonneg; lia).
    pose proof (Z_div_mod m' (10 ^ (- e)) ltac:(lia)) as DM.
    destruct (Z.div_eucl m' (10 ^ (- e))) as [q r] eqn:Ed.
    destruct DM as [DM1 DM2].
    assert (Eq : q = m' / 10 ^ (- e)).
    { apply (Z.div_unique _ _ q r); [left; lia|lia]. }
    assert (Hq : 0 <= q) by (rewrite Eq; apply Z.div_pos; nia).
    apply binary_round_aux_valid; [exact Hq|].
    assert (K : d1 - d2 <= Zdigits2 q + e').
    { destruct (Z.le_gt_cases (d1 - d2 + s) 0) as [L|G].
      - pose proof (Zdigits2_nonneg q). unfold s in L. lia.
      - pose proof (Zdigits2_bounds m ltac:(lia)) as [B1 _].
        pose proof (Zdigits2_bounds (10 ^ (- e)) P10) as [_ B2].
        fold d1 in B1. fold d2 in B2.
        pose proof (Zdigits2_pos (10 ^ (- e)) P10) as D2. fold d2 in D2.
        pose proof (Zdigits2_pos m ltac:(lia)) as D1. fold d1 in D1.
        assert (Q : 2 ^ (d1 - d2 + s - 1) <= q).
        { rewrite Eq, Em. apply Z.div_le_lower_bound; [exact P10|].
          assert (A : 2 ^ (d1 - 1) * 2 ^ s = 2 ^ (d1 - d2 + s - 1) * 2 ^ d2).
          { rewrite <- !Z.pow_add_r by lia. f_equal. lia. }
          assert (P : 0 < 2 ^ (d1 - d2 + s - 1)) by (apply Z.pow_pos_nonneg; lia).
          nia. }
        pose proof (Zdigits2_ge q (d1 - d2 + s - 1) Q ltac:(lia)). unfold s in *. lia. }
    pose proof (fexp_mono _ _ K) as F. 
    assert (e' <= fexp prec emax (d1 - d2)).
    { unfold e'. replace (d1 + 0 - (d2 + 0)) with (d1 - d2) by lia. lia. }
    lia.
Qed.

Lemma of_Z_rounds (z : Z) : rounds_to (z * 2 ^ unit_exponent) (of_Z z).
Proof.
  pose proof (binary_normalize_units z 0 ltac:(rewrite unit_exponent_eq; lia)) as H.
  exact H.
Qed.

(** The largest float. *)
Lemma units_bound (x : spec_float) :
  valid_float x = true ->
  Z.abs (units x) <= 2 ^ (emax + unit_exponent) - 2 ^ (971 + unit_exponent).
Proof.
  assert (G : 0 <= 2 ^ (emax + unit_exponent) - 2 ^ (971 + unit_exponent))
    by (vm_compute; discriminate).
  destruct x as [s|s| |s m e]; try (intros _; exact G).
  intro V. destruct (canonical_exponent m e V) as [C R].
  rewrite fexp_eq in C.
  pose proof (Zdigits2_bounds (Zpos m) ltac:(lia)) as [_ U].
  assert (U' : Zpos m < 2 ^ 53).
  { eapply Z.lt_le_trans; [exact U|]. apply Z.pow_le_mono_r; lia. }
  cbn [units].
  assert (A : Z.abs (cond_Zopp s (Z.pos m) * 2 ^ (e + unit_exponent))
              = Z.pos m * 2 ^ (e + unit_exponent)).
  { rewrite unit_exponent_eq.
    pose proof (Z.pow_pos_nonneg 2 (e + 2200) ltac:(lia) ltac:(lia)).
    destruct s; cbn [cond_Zopp]; nia. }
  rewrite A.
  assert (B : 2 ^ (emax + unit_exponent) = 2 ^ 53 * 2 ^ (971 + unit_exponent))
    by (vm_compute; reflexivity).
  rewrite B.
  assert (M : 2 ^ (e + unit_exponent) <= 2 ^ (971 + unit_exponent))
    by (apply Z.pow_le_mono_r; rewrite ?unit_exponent_eq; lia).
  assert (P : 0 < 2 ^ (e + unit_exponent))
    by (apply Z.pow_pos_nonneg; rewrite ?unit_exponent_eq; lia).
  nia.
Qed.

Lemma rounds_to_number (X : Z) (r : spec_float) :
  rounds_to X r -> Z.abs (round_units X) < 2 ^ (emax + unit_exponent) ->
  is_number r = true /\ units r = round_units X.
Proof.
  intros [V R] H. destruct r as [s|s| |s m e]; try (split; [reflexivity|exact R]).
  - lia.
  - destruct R.
Qed.

(** Adding a float [k] moves a float by at most [|k|] and, when [k] is
    small, does not leave the finite floats. *)
Lemma fadd_small (c k : spec_float) :
  valid_float c = true -> valid_float k = true ->
  is_number c = true -> is_number k = true ->
  2 * Z.abs (units k) < 2 ^ (971 + unit_exponent) ->
  valid_float (fadd c k) = true /\ is_number (fadd c k) = true
  /\ units (fadd c k) = round_units (units c + units k)
  /\ Z.abs (units (fadd c k) - (units c + units k)) <= Z.abs (units k).
Proof.
  intros Vc Vk Nc Nk Hk.
  pose proof (fadd_units c k Vc Vk Nc Nk) as R.
  pose proof (round_units_nearest (units c + units k) (units c)
                (valid_representable c Vc)) as N.
  pose proof (units_bound c Vc) as B.
  destruct (rounds_to_number _ _ R ltac:(lia)) as [Nn U].
  split; [exact (rounds_to_valid _ _ R)|]. split; [exact Nn|].
  split; [exact U|]. rewrite U. lia.
Qed.

Lemma small_units (z : Z) :
  0 <= z <= 64 ->
  valid_float (of_Z z) = true /\ is_number (of_Z z) = true
  /\ units (of_Z z) = z * 2 ^ unit_exponent.
Proof.
  intro H.
  assert (C : forallb (fun n => valid_float (of_Z (Z.of_nat n)) && is_number (of_Z (Z.of_nat n))
                        && (units (of_Z (Z.of_nat n)) =? Z.of_nat n * 2 ^ unit_exponent))
                (seq 0 65) = true) by (vm_compute; reflexivity).
  rewrite forallb_forall in C.
  specialize (C (Z.to_nat z)). rewrite Z2Nat.id in C by lia.
  assert (I : In (Z.to_nat z) (seq 0 65)) by (apply in_seq; lia).
  specialize (C I). rewrite !andb_true_iff, Z.eqb_eq in C. tauto.
Qed.

(** The difference between a price marked up by [k] and the cost is
    between 0 and [2 k]. *)
Lemma markup_difference (c : spec_float) (k : Z) :
  valid_float c = true -> is_number c = true -> 0 <= k <= 32 ->
  let d := fsub (fadd c (of_Z k)) c in
  valid_float d = true /\ is_number d = true
  /\ 0 <= units d <= 2 * k * 2 ^ unit_exponent.
Proof.
  intros Vc Nc Hk d.
  destruct (small_units k ltac:(lia)) as (Vk & Nk & Uk).
  destruct (small_units (2 * k) ltac:(lia)) as (V2 & N2 & U2).
  assert (Pu : 0 < 2 ^ unit_exponent) by (vm_compute; reflexivity).
  assert (G : 64 * 2 ^ unit_exponent < 2 ^ (971 + unit_exponent))
    by (vm_compute; reflexivity).
  assert (G2 : 2 ^ (971 + unit_exponent) < 2 ^ (emax + unit_exponent))
    by (vm_compute; reflexivity).
  destruct (fadd_small c (of_Z k) Vc Vk Nc Nk) as (Vs & Ns & Us & Ds).
  { rewrite Uk. nia. }
  pose proof (fsub_units (fadd c (of_Z k)) c Vs Vc Ns Nc) as R.
  set (Y := units (fadd c (of_Z k)) - units c) in *.
  assert (HY : 0 <= Y <= 2 * k * 2 ^ unit_exponent).
  { unfold Y. rewrite Uk in Ds. nia. }
  pose proof (round_units_nearest Y 0 representable_0) as N0.
  pose proof (round_units_nearest Y (units (of_Z (2 * k)))
                (valid_representable _ V2)) as N1.
  rewrite U2 in N1.
  destruct (rounds_to_number _ _ R ltac:(nia)) as [Nd Ud].
  fold d in Nd, Ud, R.
  split; [exact (rounds_to_valid _ _ R)|]. split; [exact Nd|].
  rewrite Ud. lia.
Qed.

Lemma threshold_not_passed (c : spec_float) (k t : Z) :
  valid_float c = true -> 0 <= k <= 32 -> 2 * k <= t <= 64 ->
  flt (of_Z t) (fsub (fadd c (of_Z k)) c) = false.
Proof.
  intros Vc Hk Ht.
  destruct (small_units t ltac:(lia)) as (Vt & Nt & Ut).
  destruct (small_units k ltac:(lia)) as (Vk & Nk & Uk).
  destruct (is_number c) eqn:Nc.
  - destruct (markup_difference c k Vc Nc Hk) as (Vd & Nd & Hd).
    rewrite (flt_units _ _ Vt Vd Nt Nd), Ut.
    assert (Pu : 0 < 2 ^ unit_exponent) by (vm_compute; reflexivity).
    apply Z.ltb_ge. nia.
  - destruct c as [s|s| |s m e]; try discriminate Nc.
    + destruct (of_Z k) as [sk|sk| |sk mk ek]; try discriminate Nk;
        destruct (of_Z t) as [st|st| |st mt et]; try discriminate Nt;
        destruct s; reflexivity.
    + destruct (of_Z t) as [st|st| |st mt et]; try discriminate Nt; reflexivity.
Qed.

(** The product with 0.77 is a float, and it is not zero unless the factor
    is. *)
Lemma cost_valid (P : spec_float) :
  valid_float P = true -> valid_float (fmul P float_0_77) = true.
Proof.
  intro V. destruct P as [s|s| |s m e]; try reflexivity.
  destruct (canonical_exponent m e V) as [_ R].
  exact (rounds_to_valid _ _
           (fmul_units s false m 6935543426150564 e (-53) V eq_refl eq_refl
              ltac:(rewrite unit_exponent_eq; lia))).
Qed.


Lemma flt_irrefl (x : spec_float) : flt x x = false.
Proof.
  unfold flt, SFltb. destruct x as [s|s| |s m e]; cbn [SFcompare];
    try (destruct s; reflexivity); try reflexivity.
  rewrite Z.compare_refl, Pos.compare_cont_refl. destruct s; reflexivity.
Qed.

(** The cost of a finite price is finite. *)
Lemma cost_number (P : spec_float) :
  valid_float P = true -> is_number P = true -> is_number (fmul P float_0_77) = true.
Proof.
  intros V N. destruct P as [s|s| |s m e]; try discriminate N; [reflexivity|].
  destruct (canonical_exponent m e V) as [_ R].
  pose proof (fmul_units s false m 6935543426150564 e (-53) V eq_refl eq_refl
                ltac:(rewrite unit_exponent_eq; lia)) as H.
  change (fmul (S754_finite s m e) (S754_finite false 6935543426150564 (-53)))
    with (fmul (S754_finite s m e) float_0_77) in H.
  set (X := cond_Zopp (xorb s false) (Z.pos (m * 6935543426150564))
            * 2 ^ (e + -53 + unit_exponent)) in *.
  pose proof (round_units_nearest X (units (S754_finite s m e))
                (valid_representable _ V)) as Nr.
  pose proof (units_bound _ V) as B.
  assert (A : Z.abs (units (S754_finite s m e) - X) <= Z.abs (units (S754_finite s m e))
              /\ Z.abs X <= Z.abs (units (S754_finite s m e))).
  { unfold X. cbn [units]. rewrite unit_exponent_eq, Pos2Z.inj_mul.
    replace (e + 2200) with (53 + (e + -53 + 2200)) by lia.
    rewrite Z.pow_add_r by lia.
    assert (P1 : 0 < 2 ^ (e + -53 + 2200)) by (apply Z.pow_pos_nonneg; lia).
    change (2 ^ 53) with 9007199254740992.
    pose proof (Pos2Z.is_pos m).
    destruct s; cbn [xorb cond_Zopp]; nia. }
  apply (rounds_to_number _ _ H).
  assert (G2 : 0 < 2 ^ (971 + unit_exponent)) by (vm_compute; reflexivity).
  lia.
Qed.

(** A larger markup does not give a smaller price. *)
Lemma fadd_small_mono (c : spec_float) (j k : Z) :
  valid_float c = true -> is_number c = true -> 0 <= j <= k -> k <= 32 ->
  units (fadd c (of_Z j)) <= units (fadd c (of_Z k)).
Proof.
  intros Vc Nc Hj Hk.
  destruct (Z.eq_dec j k) as [->|Njk]; [apply Z.le_refl|].
  destruct (small_units j ltac:(lia)) as (Vj & Nj & Uj).
  destruct (small_units k ltac:(lia)) as (Vk & Nk & Uk).
  assert (Pu : 0 < 2 ^ unit_exponent) by (vm_compute; reflexivity).
  assert (G : 64 * 2 ^ unit_exponent < 2 ^ (971 + unit_exponent))
    by (vm_compute; reflexivity).
  destruct (fadd_small c (of_Z j) Vc Vj Nc Nj) as (Vs & Ns & Us & _);
    [rewrite Uj; nia|].
  destruct (fadd_small c (of_Z k) Vc Vk Nc Nk) as (Vt & Nt & Ut & _);
    [rewrite Uk; nia|].
  pose proof (round_units_nearest (units c + units (of_Z j))
                (units (fadd c (of_Z k))) (valid_representable _ Vt)) as N1.
  pose proof (round_units_nearest (units c + units (of_Z k))
                (units (fadd c (of_Z j))) (valid_representable _ Vs)) as N2.
  rewrite <- Us in N1. rewrite <- Ut in N2. rewrite Uj, Uk in *.
  assert (J : j * 2 ^ unit_exponent < k * 2 ^ unit_exponent) by nia.
  lia.
Qed.

End FloatFacts.

(** *** What [float] reads is a float *)

Lemma digits_from_step (acc : Z) (n : nat) (c : ascii) (s' : string) :
  digits_from acc n (String c s')
  = match digit_of c with
    | Some d => digits_from (10 * acc + Z.of_nat d) (S n) s'
    | None =>
        if Ascii.eqb c "_" then
          match s' with
          | EmptyString => (acc, n, String c s')
          | String c2 s'' =>
              match digit_of c2 with
              | Some d => digits_from (10 * acc + Z.of_nat d) (S n) s''
              | None => (acc, n, String c s')
              end
          end
        else (acc, n, String c s')
    end.
Proof. reflexivity. Qed.

Lemma digits_from_nonneg (s : string) :
  (forall acc n, (0 <= acc)%Z -> (0 <= fst (fst (digits_from acc n s)))%Z)
  /\ (forall c acc n, (0 <= acc)%Z ->
                      (0 <= fst (fst (digits_from acc n (String c s))))%Z).
Proof.
  induction s as [|a s [IH1 IH2]].
  - split; [intros acc n H; exact H|].
    intros c acc n H. rewrite digits_from_step.
    destruct (digit_of c) as [d|];
      [change (0 <= 10 * acc + Z.of_nat d)%Z; lia|].
    destruct (Ascii.eqb c "_"); exact H.
  - split; [exact (IH2 a)|].
    intros c acc n H. rewrite digits_from_step.
    destruct (digit_of c) as [d|]; [apply (IH2 a); lia|].
    destruct (Ascii.eqb c "_"); [|exact H].
    destruct (digit_of a) as [d|]; [apply IH1; lia|exact H].
Qed.

Lemma digitpart_nonneg (acc v : Z) (s r : string) (n : nat) :
  digitpart acc s = Some (v, n, r) -> (0 <= acc)%Z -> (0 <= v)%Z.
Proof.
  unfold digitpart. destruct s as [|c s']; [intro H; discriminate H|].
  destruct (digit_of c) as [d|]; [|intro H; discriminate H].
  intros H Ha.
  assert (E : digits_from (10 * acc + Z.of_nat d)%Z 1 s' = (v, n, r))
    by (injection H as E0; exact E0).
  pose proof (proj1 (digits_from_nonneg s') (10 * acc + Z.of_nat d)%Z 1
                ltac:(lia)) as F.
  rewrite E in F. exact F.
Qed.

Lemma exponent_part_mantissa (m m' e : Z) (nfrac : nat) (s : string) :
  exponent_part m nfrac s = Some (m', e) -> m' = m.
Proof.
  unfold exponent_part. destruct s as [|c s']; [intro H; inversion H; reflexivity|].
  destruct (Ascii.eqb c "e" || Ascii.eqb c "E")%bool; [|intro H; discriminate H].
  destruct (read_sign s') as [neg r].
  destruct (digitpart 0 r) as [[[e0 k] rest]|]; [|intro H; discriminate H].
  destruct rest; intro H; inversion H; reflexivity.
Qed.

Lemma decimal_literal_nonneg (s : string) (m e : Z) :
  decimal_literal s = Some (m, e) -> (0 <= m)%Z.
Proof.
  assert (A : forall v nf r, (0 <= v)%Z ->
              exponent_part v nf r = Some (m, e) -> (0 <= m)%Z).
  { intros v nf r Hv H. apply exponent_part_mantissa in H. lia. }
  unfold decimal_literal.
  destruct (digitpart 0 s) as [[[i k] r1]|] eqn:D.
  - pose proof (digitpart_nonneg _ _ _ _ _ D ltac:(lia)) as Hi.
    destruct r1 as [|[[|] [|] [|] [|] [|] [|] [|] [|]] r2];
      try (apply (A i 0%nat); exact Hi).
    destruct (digitpart i r2) as [[[v nf] r3]|] eqn:D2.
    + apply (A v nf). exact (digitpart_nonneg _ _ _ _ _ D2 Hi).
    + apply (A i 0%nat). exact Hi.
  - destruct s as [|[[|] [|] [|] [|] [|] [|] [|] [|]] r2];
      try (intro H; discriminate H).
    destruct (digitpart 0 r2) as [[[v nf] r3]|] eqn:D2; [|intro H; discriminate H].
    apply (A v nf). exact (digitpart_nonneg _ _ _ _ _ D2 ltac:(lia)).
Qed.

Lemma float_valid (v : cell) (P : pyfloat) :
  float v = Some P -> valid_float P = true.
Proof.
  destruct v as [s| |]; cbn [float].
  - unfold float_of_string. destruct (read_sign (PyStr.strip s)) as [neg body].
    destruct (String.eqb _ "inf" || String.eqb _ "infinity")%bool;
      [intro H; inversion H; reflexivity|].
    destruct (String.eqb _ "nan"); [intro H; inversion H; reflexivity|].
    destruct (decimal_literal body) as [[m e]|] eqn:D; [|intro H; discriminate H].
    intro H. inversion H.
    apply of_decimal_valid. exact (decimal_literal_nonneg _ _ _ D).
  - intro H. inversion H. reflexivity.
  - intro H. inversion H. reflexivity.
Qed.

(** Readings and sums at the edges of binary64: the literal [0.77], a
    number too large and one too small, a number between two floats, and
    a sum that loses the markup. *)
Lemma float_examples :
  float (Str "0.77") = Some float_0_77
  /\ float (Str "1e400") = Some (FInf false)
  /\ float (Str "-1e-400") = Some (S754_zero true)
  /\ float (Str "0.1") = Some (S754_finite false 7205759403792794 (-56))
  /\ float (Str "9007199254740993") = float (Str "9007199254740992")
  /\ fadd (of_Z 77000000000000000) (of_Z 6) = of_Z 77000000000000000
  /\ fsub (fadd (of_Z 20000000000000000) (of_Z 6)) (of_Z 20000000000000000)
     = of_Z 8.
Proof. repeat split; vm_compute; reflexivity. Qed.

(** *** The tiers of the club price *)

(** No float passes the first tier test: for a finite cost the difference
    computed is between 0 and 12, otherwise it is NaN. *)
Lemma tier1_never_taken (cost : pyfloat) :
  valid_float cost = true ->
  fgt (fsub (fadd cost (of_Z 6)) cost) (of_Z 14) = false.
Proof.
  intro V. unfold fgt. apply threshold_not_passed; [exact V|lia|lia].
Qed.

Lemma calculate_pricing_unfold (msrp : cell) (x : pyfloat) :
  float msrp = Some x ->
  calculate_pricing PreorderTransformer_init msrp =
  Some (fmul x float_0_77,
        (if flt x (fadd (fadd (fmul x float_0_77) (of_Z 6)) (of_Z 6))
         then fadd (fadd (fmul x float_0_77) (of_Z 6)) (of_Z 7)
         else x),
        fadd (fmul x float_0_77) (of_Z 6)).
Proof.
  intro H. unfold calculate_pricing. rewrite H. cbn [cost_multiplier
    base_markup msrp_minimum_markup club_base_markup club_tier1_threshold
    club_tier1_addition club_tier2_threshold club_tier2_addition
    PreorderTransformer_init].
  rewrite (tier1_never_taken _ (cost_valid x (float_valid _ _ H))).
  reflexivity.
Qed.

Lemma fadd_markup (c : pyfloat) (k : Z) :
  valid_float c = true -> is_number c = true -> (0 <= k <= 32)%Z ->
  valid_float (fadd c (of_Z k)) = true /\ is_number (fadd c (of_Z k)) = true.
Proof.
  intros Vc Nc Hk.
  destruct (small_units k ltac:(lia)) as (Vk & Nk & Uk).
  assert (G : (64 * 2 ^ unit_exponent < 2 ^ (971 + unit_exponent))%Z)
    by (vm_compute; reflexivity).
  assert (Pu : (0 < 2 ^ unit_exponent)%Z) by (vm_compute; reflexivity).
  destruct (fadd_small c (of_Z k) Vc Vk Nc Nk) as (V & N & _).
  - rewrite Uk. nia.
  - split; assumption.
Qed.

(** C1.  For an MSRP that [float] reads as the number [P],
    [calculate_pricing] returns the estimated cost [P * 0.77], the adjusted
    list price [(0.77 P + 6) + 7] when [P < (0.77 P + 6) + 6] and [P]
    otherwise, and the club price [0.77 P + 6] followed by the two tier
    additions, [+4] when the difference from the cost exceeds 14 and then
    [+9] when the difference taken again exceeds 20.  The numbers are
    binary64 floats and each operation is the float operation; no other
    rounding is applied. *)
Theorem calculate_pricing_follows_rules (msrp : cell) (P : pyfloat) :
  float msrp = Some P ->
  calculate_pricing PreorderTransformer_init msrp = Some (pricing_rules P).
Proof.
  intro H. rewrite (calculate_pricing_unfold _ _ H).
  pose proof (cost_valid P (float_valid _ _ H)) as V.
  unfold pricing_rules.
  rewrite (threshold_not_passed (fmul P float_0_77) 6 14 V) by lia.
  rewrite (threshold_not_passed (fmul P float_0_77) 6 20 V) by lia.
  reflexivity.
Qed.

Lemma calculate_pricing_follows_rules_witness :
  float (Str "52.173913043478258")
  = Some (S754_finite false 7342825479408417 (-47))
  /\ calculate_pricing PreorderTransformer_init (Str "52.173913043478258")
     = Some (S754_finite false 5653975619144481 (-47),
             S754_finite false 7342825479408417 (-47),
             S754_finite false 6498400549276449 (-47)).
Proof.
  split; [vm_compute; reflexivity|].
  rewrite (calculate_pricing_follows_rules (Str "52.173913043478258")
             (S754_finite false 7342825479408417 (-47)))
    by (vm_compute; reflexivity).
  vm_compute. reflexivity.
Defined.



(** ** The availability date *)

Lemma strptime_raises_ValueError (s fmt : string) (e : exn) :
  strptime s fmt = Raise e -> e = ValueError.
Proof.
  unfold strptime, strptime_items.
  destruct (has_bad _); [intro H; inversion H; reflexivity|].
  destruct (match_items _ _ _) as [|[dt rest] l];
    [intro H; inversion H; reflexivity|].
  destruct (PyStr.is_empty rest); [|intro H; inversion H; reflexivity].
  destruct (valid_datetime dt); intro H; inversion H; reflexivity.
Qed.

Lemma try_formats_returns (s : string) (fmts : list string) :
  exists r, try_formats s fmts = Ok r.
Proof.
  induction fmts as [|fmt rest IH]; simpl.
  - exists None. reflexivity.
  - destruct (strptime s fmt) as [dt|e] eqn:E.
    + exists (Some dt). reflexivity.
    + apply strptime_raises_ValueError in E. subst e. exact IH.
Qed.

Lemma try_formats_none (s : string) (fmts : list string) :
  (forall fmt, In fmt fmts -> strptime s fmt = Raise ValueError) ->
  try_formats s fmts = Ok None.
Proof.
  induction fmts as [|fmt rest IH]; simpl; intro H.
  - reflexivity.
  - rewrite (H fmt) by (left; reflexivity).
    apply IH. intros f Hf. apply H. right. exact Hf.
Qed.

Lemma parse_avail_date_returns (c : cell) :
  exists r, parse_avail_date c = Ok r.
Proof.
  destruct c as [s| |]; unfold parse_avail_date;
    try (exists None; reflexivity).
  destruct (PyStr.is_empty s); [exists None; reflexivity|].
  destruct (PyStr.is_empty (PyStr.strip s) || _)%bool;
    [exists None; reflexivity|].
  apply try_formats_returns.
Qed.


Lemma is_empty_true (s : string) : PyStr.is_empty s = true <-> s = EmptyString.
Proof. destruct s; simpl; split; congruence. Qed.

(** C6.  [parse_avail_date] never raises.  A string that is empty once
    trimmed, or is the null marker [nan] in any case, gives [None]; so does
    a string that [strptime] refuses in all seven formats. *)
Theorem parse_avail_date_never_raises (s : string) :
  (exists r, parse_avail_date (Str s) = Ok r)
  /\ (PyStr.strip s = EmptyString
      \/ PyStr.lower (PyStr.strip s) = "nan" ->
      parse_avail_date (Str s) = Ok None)
  /\ ((forall fmt, In fmt date_formats ->
         strptime (PyStr.strip s) fmt = Raise ValueError) ->
      parse_avail_date (Str s) = Ok None).
Proof.
  split; [apply parse_avail_date_returns|split].
  - intro H. unfold parse_avail_date.
    destruct (PyStr.is_empty s); [reflexivity|].
    destruct H as [H|H]; rewrite H; [reflexivity|].
    rewrite orb_true_r. reflexivity.
  - intro H. unfold parse_avail_date.
    destruct (PyStr.is_empty s); [reflexivity|].
    destruct (PyStr.is_empty (PyStr.strip s) || _)%bool; [reflexivity|].
    apply try_formats_none. exact H.
Qed.

Lemma parse_avail_date_never_raises_witness :
  parse_avail_date (Str "  NaN ") = Ok None
  /\ parse_avail_date (Str "next week") = Ok None.
Proof.
  split.
  - apply (proj1 (proj2 (parse_avail_date_never_raises "  NaN "))).
    right. reflexivity.
  - apply (proj2 (proj2 (parse_avail_date_never_raises "next week"))).
    intros fmt Hin. simpl in Hin.
    repeat (destruct Hin as [<-|Hin]; [reflexivity|]). destruct Hin.
Defined.

(** ** The filter *)

Lemma parse_avail_date_of (row : alliance_row) :
  parse_avail_date (Str (safe_get (AvailDt row))) = Ok (avail_date_of row).
Proof.
  unfold avail_date_of.
  destruct (parse_avail_date_returns (Str (safe_get (AvailDt row)))) as [r ->].
  reflexivity.
Qed.

Lemma truthy_is_empty (s : string) : negb (PyStr.truthy s) = PyStr.is_empty s.
Proof. unfold PyStr.truthy. apply negb_involutive. Qed.

Lemma process_row_stage (self : PreorderTransformer) (target : datetime)
  (st : counters) (row : alliance_row) :
  match classify (date_of target) row (avail_date_of row) with
  | MissingField | DateMismatch => process_row self target st row = skip st
  | FormatMismatch =>
      process_row self target st row = skip (count_date_match st)
  | Matched =>
      let st' := count_vinyl (count_date_match st) in
      let pricing := calculate_pricing self (MSRP row) in
      process_row self target st row =
      if not_cost pricing then st'
      else match pricing with
           | Some (cost, adjusted_msrp, club_price) =>
               append_row st'
                 (build_row self target (safe_get (Artist row))
                    (safe_get (ItemName row)) (safe_get (FormatDesc row))
                    (safe_get (Barcode row)) (safe_get (DelimMisc row))
                    (safe_get (ItemNotes row)) (safe_get (ImgHttpPath row))
                    cost adjusted_msrp club_price)
           | None => st'
           end
  end.
Proof.
  unfold classify, process_row.
  rewrite !truthy_is_empty, parse_avail_date_of.
  destruct (PyStr.is_empty (safe_get (Artist row))
            || PyStr.is_empty (safe_get (ItemName row)))%bool; [reflexivity|].
  destruct (avail_date_of row) as [dt|]; [|reflexivity].
  destruct (date_eqb (date_of dt) (date_of target)); [|reflexivity].
  cbn [negb].
  destruct (in_formats (safe_get (FormatDesc row))); reflexivity.
Qed.

Lemma filter_row_stage (self : PreorderTransformer) (target : date)
  (st : filter_state) (row : alliance_row) :
  filter_row self target st row =
  match classify target row (avail_date_of row) with
  | MissingField | DateMismatch => Ok (tick st)
  | FormatMismatch =>
      Ok (mkfilter (S (total_processed st)) (S (filter_date_matches st))
            (vinyl_matches st) (matched_records st))
  | Matched =>
      Ok (mkfilter (S (total_processed st)) (S (filter_date_matches st))
            (S (vinyl_matches st)) (matched_records st ++ [row]))
  end.
Proof.
  unfold classify, filter_row, tick.
  rewrite !truthy_is_empty, parse_avail_date_of.
  destruct (PyStr.is_empty (safe_get (Artist row))
            || PyStr.is_empty (safe_get (ItemName row)))%bool; [reflexivity|].
  destruct (avail_date_of row) as [dt|]; [|reflexivity].
  destruct (date_eqb (date_of dt) target); [|reflexivity].
  destruct (in_formats (safe_get (FormatDesc row))); reflexivity.
Qed.

Lemma date_eqb_eq (a b : date) : date_eqb a b = true <-> a = b.
Proof.
  destruct a as [y m d], b as [y' m' d']. unfold date_eqb. simpl.
  rewrite !andb_true_iff, !Nat.eqb_eq.
  split.
  - intros [[-> ->] ->]. reflexivity.
  - intro H. inversion H. auto.
Qed.

Lemma date_eqb_neq (a b : date) : date_eqb a b = false <-> a <> b.
Proof.
  rewrite <- date_eqb_eq. destruct (date_eqb a b); split; congruence.
Qed.

Lemma truthy_not_empty (s : string) :
  PyStr.truthy s = true -> PyStr.is_empty s = false.
Proof. unfold PyStr.truthy. apply negb_true_iff. Qed.

(** C2.  A row with artist and title goes through the stages in this
    order.  When its availability date is absent, unreadable, or falls on
    another calendar date than the target, it is skipped whatever its
    format says, and the date-match counter stays.  When the calendar date
    is the target's and the format is not one of the three vinyl formats,
    it is skipped after the date-match counter went up.  Otherwise it is
    counted as a vinyl match.  Only the calendar date of the availability
    date is compared, whatever its time of day.  The filter of the web
    application takes the same decisions. *)
Theorem filter_stages_in_order (self : PreorderTransformer)
  (target : datetime) (st : counters) (fs : filter_state)
  (row : alliance_row) :
  PyStr.truthy (safe_get (Artist row)) = true ->
  PyStr.truthy (safe_get (ItemName row)) = true ->
  ((avail_date_of row = None
    \/ exists dt, avail_date_of row = Some dt /\ date_of dt <> date_of target) ->
   forall f,
     process_row self target st (with_format row f) = skip st
     /\ filter_row self (date_of target) fs (with_format row f) = Ok (tick fs))
  /\ (forall dt,
        avail_date_of row = Some dt -> date_of dt = date_of target ->
        in_formats (safe_get (FormatDesc row)) = false ->
        process_row self target st row = skip (count_date_match st)
        /\ filter_row self (date_of target) fs row =
           Ok (mkfilter (S (total_processed fs)) (S (filter_date_matches fs))
                 (vinyl_matches fs) (matched_records fs)))
  /\ (forall dt,
        avail_date_of row = Some dt -> date_of dt = date_of target ->
        in_formats (safe_get (FormatDesc row)) = true ->
        let st' := process_row self target st row in
        vinyl_count st' = S (vinyl_count st)
        /\ date_matches st' = S (date_matches st)
        /\ skipped_count st' = skipped_count st
        /\ filter_row self (date_of target) fs row =
           Ok (mkfilter (S (total_processed fs)) (S (filter_date_matches fs))
                 (S (vinyl_matches fs)) (matched_records fs ++ [row]))).
Proof.
  intros Ha Ht.
  apply truthy_not_empty in Ha. apply truthy_not_empty in Ht.
  split; [|split].
  - intros H f.
    pose proof (process_row_stage self target st (with_format row f)) as P.
    pose proof (filter_row_stage self (date_of target) fs (with_format row f)) as F.
    unfold classify in P, F.
    change (safe_get (Artist (with_format row f))) with (safe_get (Artist row)) in *.
    change (safe_get (ItemName (with_format row f))) with (safe_get (ItemName row)) in *.
    change (avail_date_of (with_format row f)) with (avail_date_of row) in *.
    rewrite Ha, Ht in P, F. cbn [orb] in P, F.
    destruct H as [H|[dt [H Hne]]]; rewrite H in P, F.
    + split; assumption.
    + apply date_eqb_neq in Hne. rewrite Hne in P, F. split; assumption.
  - intros dt H Heq Hf.
    pose proof (process_row_stage self target st row) as P.
    pose proof (filter_row_stage self (date_of target) fs row) as F.
    unfold classify in P, F.
    apply date_eqb_eq in Heq.
    rewrite Ha, Ht, H, Heq, Hf in P, F. cbn [orb] in P, F.
    split; assumption.
  - intros dt H Heq Hf.
    pose proof (process_row_stage self target st row) as P.
    pose proof (filter_row_stage self (date_of target) fs row) as F.
    unfold classify in P, F.
    apply date_eqb_eq in Heq.
    rewrite Ha, Ht, H, Heq, Hf in P, F. cbn [orb] in P, F.
    cbn zeta in *. rewrite P.
    destruct (not_cost _); [repeat split; try reflexivity; exact F|].
    destruct (calculate_pricing self (MSRP row)) as [[[c a] k]|];
      repeat split; try reflexivity; exact F.
Qed.

Lemma filter_stages_in_order_witness :
  process_row PreorderTransformer_init sample_target counters_init
    (with_format (with_avail sample_row (Str "2025-09-20 00:00:00")) (Str "CD"))
  = skip counters_init
  /\ process_row PreorderTransformer_init sample_target counters_init
       (with_format sample_row (Str "CD"))
     = skip (count_date_match counters_init)
  /\ vinyl_count
       (process_row PreorderTransformer_init sample_target counters_init
          (with_avail sample_row (Str "2025-09-19 17:30:00"))) = 1.
Proof.
  split; [|split].
  - apply (proj1 (filter_stages_in_order PreorderTransformer_init sample_target
             counters_init filter_init
             (with_avail sample_row (Str "2025-09-20 00:00:00"))
             eq_refl eq_refl)).
    right. eexists. split; [vm_compute; reflexivity|].
    vm_compute. discriminate.
  - eapply (proj1 (proj2 (filter_stages_in_order PreorderTransformer_init
             sample_target counters_init filter_init
             (with_format sample_row (Str "CD")) eq_refl eq_refl))).
    + reflexivity.
    + reflexivity.
    + reflexivity.
  - eapply (proj2 (proj2 (filter_stages_in_order PreorderTransformer_init
             sample_target counters_init filter_init
             (with_avail sample_row (Str "2025-09-19 17:30:00"))
             eq_refl eq_refl))).
    + reflexivity.
    + reflexivity.
    + reflexivity.
Defined.

(** ** The counters of [transform_to_shopify] *)

Ltac unfold_counters :=
  cbn [vinyl_count skipped_count date_matches shopify_data count_vinyl
       count_date_match skip append_row].

Lemma process_row_counts (self : PreorderTransformer) (target : datetime)
  (st : counters) (row : alliance_row) :
  let st' := process_row self target st row in
  vinyl_count st' + skipped_count st' = S (vinyl_count st + skipped_count st)
  /\ List.length (shopify_data st') + vinyl_count st
     <= vinyl_count st' + List.length (shopify_data st)
  /\ vinyl_count st <= vinyl_count st'
  /\ vinyl_count st' + date_matches st <= date_matches st' + vinyl_count st
  /\ date_matches st <= date_matches st'.
Proof.
  cbn zeta.
  pose proof (process_row_stage self target st row) as P.
  destruct (classify _ _ _); cbn zeta in P; rewrite P; clear P;
    try (unfold_counters; lia).
  destruct (not_cost _); [unfold_counters; lia|].
  destruct (calculate_pricing self (MSRP row)) as [[[c a] k]|];
    unfold_counters; rewrite ?length_app; cbn [List.length]; lia.
Qed.

Lemma transform_fold_counts (self : PreorderTransformer) (target : datetime)
  (rows : list alliance_row) (st : counters) :
  let st' := fold_left (process_row self target) rows st in
  vinyl_count st' + skipped_count st'
  = List.length rows + (vinyl_count st + skipped_count st)
  /\ List.length (shopify_data st') + vinyl_count st
     <= vinyl_count st' + List.length (shopify_data st)
  /\ vinyl_count st <= vinyl_count st'
  /\ vinyl_count st' + date_matches st <= date_matches st' + vinyl_count st
  /\ date_matches st <= date_matches st'.
Proof.
  revert st. induction rows as [|row rest IH]; intro st; cbn zeta.
  - cbn. lia.
  - cbn [fold_left List.length].
    specialize (IH (process_row self target st row)). cbn zeta in IH.
    pose proof (process_row_counts self target st row) as H. cbn zeta in H.
    lia.
Qed.

(** C4, as the code has it.  The three filter conditions (missing artist
    or title, date mismatch, format mismatch) each add one to the single
    skipped counter.  The closing figures are the rows processed, the date
    matches, the vinyl matches, the rows skipped and the rows written; the
    rows processed are the vinyl matches plus the rows skipped, and no more
    rows are written than there are vinyl matches, no more vinyl matches
    than date matches. *)
Theorem summary_accounts_for_filter_skips (self : PreorderTransformer)
  (alliance_df : list alliance_row) (target : datetime) :
  (forall st row,
      classify (date_of target) row (avail_date_of row) <> Matched ->
      skipped_count (process_row self target st row) = S (skipped_count st)
      /\ vinyl_count (process_row self target st row) = vinyl_count st
      /\ shopify_data (process_row self target st row) = shopify_data st)
  /\ let s := transform_summary self alliance_df target in
     total_records_processed s = vinyl_records_found s + records_skipped s
     /\ final_products s <= vinyl_records_found s
     /\ vinyl_records_found s <= records_matching_target_date s
     /\ final_products s = List.length (transform_to_shopify self alliance_df target).
Proof.
  split.
  - intros st row H.
    pose proof (process_row_stage self target st row) as P.
    destruct (classify _ _ _); try congruence; rewrite P; cbn; auto.
  - cbn zeta. unfold transform_summary, transform_to_shopify, transform_loop.
    cbn [total_records_processed vinyl_records_found records_skipped
         final_products records_matching_target_date].
    pose proof (transform_fold_counts self target alliance_df counters_init) as H.
    cbn zeta in H. cbn [counters_init vinyl_count skipped_count date_matches
      shopify_data List.length] in H.
    repeat split; lia.
Qed.

Lemma summary_accounts_for_filter_skips_witness :
  skipped_count
    (process_row PreorderTransformer_init sample_target counters_init
       (with_format sample_row (Str "CD"))) = 1.
Proof.
  apply (proj1 (summary_accounts_for_filter_skips PreorderTransformer_init
                  [] sample_target) counters_init
           (with_format sample_row (Str "CD"))).
  vm_compute. discriminate.
Defined.

(** A row that passes the three filters and has a price [float] refuses is
    neither written nor counted as skipped, and a row without artist and a
    row for another date leave the same figures behind. *)
Lemma summary_misses_pricing_skips :
  (let s := transform_summary PreorderTransformer_init
              [with_msrp sample_row (Str "call us")] sample_target in
   total_records_processed s = 1 /\ final_products s = 0
   /\ records_skipped s = 0
   /\ total_records_processed s <> final_products s + records_skipped s)
  /\ transform_summary PreorderTransformer_init
       [with_artist sample_row NaN] sample_target
     = transform_summary PreorderTransformer_init
         [with_avail sample_row (Str "2025-09-20")] sample_target.
Proof.
  split; [|vm_compute; reflexivity].
  vm_compute. repeat split; discriminate.
Qed.

(** The sample row of the specification gives one product row. *)
Lemma sample_row_gives_one_product :
  exists r,
    transform_to_shopify PreorderTransformer_init [sample_row] sample_target = [r]
    /\ Title r = "Test Artist - Test Album LP"
    /\ Handle r = "test-artist-test-album-20250919"
    /\ Variant_Grams r = 180
    /\ Tags r = "preorder club,preorder20250919"
    /\ Cost_per_item r = S754_finite false 5414058587038784 (-48)
    /\ Variant_Compare_At_Price r = S754_finite false 4536616642138656 (-47)
    /\ Variant_Price r = S754_finite false 7102908447302720 (-48)
    /\ Status r = "draft".
Proof. eexists. repeat split; vm_compute; reflexivity. Qed.

(** ** Prices the caller takes for a failure *)





(** ** Reading the file *)

Section ReadingFacts.

Variable file : Type.
Variable read_csv : file -> string -> string -> option nat -> option frame.

Lemma try_separators_find (f : file) (encoding : string) (seps : list string) :
    try_separators file read_csv f encoding seps
    = option_map snd
        (find (accepts file read_csv f) (map (pair encoding) seps)).
  Proof.
    induction seps as [|sep rest IH]; [reflexivity|].
    cbn [try_separators map find]. unfold accepts at 1. cbn [fst snd].
    destruct (read_csv f encoding sep (Some 5)) as [df|]; [|exact IH].
    destruct (5 <? List.length (columns df)); [reflexivity|exact IH].
  Qed.

Lemma find_app {A : Type} (p : A -> bool) (l l' : list A) :
    find p (l ++ l') = match find p l with
                       | Some x => Some x
                       | None => find p l'
                       end.
  Proof.
    induction l as [|x l IH]; [reflexivity|].
    cbn. destruct (p x); [reflexivity|exact IH].
  Qed.

Lemma find_map_pair (f : file) (encoding : string) (seps : list string)
    (c : string * string) :
    find (accepts file read_csv f) (map (pair encoding) seps) = Some c ->
    c = (encoding, snd c).
  Proof.
    induction seps as [|sep rest IH]; cbn; [discriminate|].
    destruct (accepts file read_csv f (encoding, sep)).
    - intro H. inversion H. reflexivity.
    - exact IH.
  Qed.

Lemma try_encodings_find (f : file) (encs seps : list string) :
    (fix go (encs : list string) : option (string * string) :=
       match encs with
       | [] => None
       | encoding :: rest =>
           match try_separators file read_csv f encoding seps with
           | Some separator => Some (encoding, separator)
           | None => go rest
           end
       end) encs
    = find (accepts file read_csv f) (list_prod encs seps).
  Proof.
    induction encs as [|enc rest IH]; [reflexivity|].
    cbn [list_prod]. rewrite find_app, try_separators_find.
    destruct (find (accepts file read_csv f) (map (pair enc) seps))
      as [c|] eqn:E; cbn [option_map].
    - rewrite (find_map_pair _ _ _ _ E) at 2. reflexivity.
    - exact IH.
  Qed.

Lemma detect_format_find (f : file) :
    detect_format file read_csv f = find (accepts file read_csv f) combinations.
  Proof.
    unfold detect_format, combinations.
    rewrite <- (try_encodings_find f encodings_to_try separators_to_try).
    reflexivity.
  Qed.

End ReadingFacts.

(** C5, as the code has it.  The web application negotiates the encoding
    and the separator: it tries utf-16, utf-16-le, utf-16-be, utf-8 and
    latin-1, each with the pipe, the comma and the tab, in this order, and
    keeps the first combination whose sample of five rows has more than
    five columns; when there is none it returns no data frame and the
    message that the format could not be detected.  The loader of the
    command-line tool reads with utf-16 and the pipe only. *)
Theorem format_is_negotiated_by_the_web_application
  (file : Type)
  (read_csv : file -> string -> string -> option nat -> option frame)
  (self : PreorderTransformer) (f : file) (target : date) :
  combinations =
    [ ("utf-16", "|"); ("utf-16", ","); ("utf-16", tab);
      ("utf-16-le", "|"); ("utf-16-le", ","); ("utf-16-le", tab);
      ("utf-16-be", "|"); ("utf-16-be", ","); ("utf-16-be", tab);
      ("utf-8", "|"); ("utf-8", ","); ("utf-8", tab);
      ("latin-1", "|"); ("latin-1", ","); ("latin-1", tab) ]
  /\ detect_format file read_csv f = find (accepts file read_csv f) combinations
  /\ (detect_format file read_csv f = None ->
      process_alliance_catalog file read_csv self f target
      = (None, Some "Could not detect file format"))
  /\ load_alliance_data file read_csv f
     = option_map
         (fun df => {| columns := columns df;
                       rows := map clean_barcode_row (rows df) |})
         (read_csv f "utf-16" "|" None).
Proof.
  split; [reflexivity|split; [apply detect_format_find|split]].
  - intro H. unfold process_alliance_catalog. rewrite H. reflexivity.
  - unfold load_alliance_data.
    destruct (read_csv f "utf-16" "|" None); reflexivity.
Qed.

Lemma format_is_negotiated_by_the_web_application_witness :
  detect_format described_file described_read_csv legacy_file = None
  /\ process_alliance_catalog described_file described_read_csv
       PreorderTransformer_init legacy_file (date_of sample_target)
     = (None, Some "Could not detect file format").
Proof.
  split; [vm_compute; reflexivity|].
  apply (proj1 (proj2 (proj2 (format_is_negotiated_by_the_web_application
           described_file described_read_csv PreorderTransformer_init
           legacy_file (date_of sample_target))))).
  vm_compute. reflexivity.
Defined.

(** A comma-separated utf-8 file: the web application finds its format,
    the command-line loader does not read it. *)
Lemma command_line_loader_is_hard_coded :
  detect_format described_file described_read_csv comma_file
  = Some ("utf-8", ",")
  /\ load_alliance_data described_file described_read_csv comma_file = None.
Proof. split; vm_compute; reflexivity. Qed.

(** ** Handles *)

Lemma forall_ascii (p : ascii -> bool) :
  forallb p (map ascii_of_nat (seq 0 256)) = true -> forall c, p c = true.
Proof.
  intros H c. rewrite forallb_forall in H. apply H.
  rewrite <- (ascii_nat_embedding c). apply in_map. apply in_seq.
  pose proof (nat_ascii_bounded c). lia.
Qed.

Lemma lower_char_not_upper (c : ascii) : PyStr.isupper (PyStr.lower_char c) = false.
Proof.
  apply negb_true_iff.
  revert c. apply (forall_ascii (fun c => negb (PyStr.isupper (PyStr.lower_char c)))).
  vm_compute. reflexivity.
Qed.

Lemma sub_special_char (c : ascii) :
  PyStr.isupper c = false ->
  slug_char (if handle_char c then c else "-"%char) = true.
Proof.
  intro H. unfold handle_char. rewrite H.
  destruct (PyStr.islower c) eqn:El; destruct (PyStr.isdigit c) eqn:Ed;
    destruct (is_dash c) eqn:Es; cbn [orb];
    solve [ unfold slug_char; rewrite El, Ed, Es; reflexivity | reflexivity ].
Qed.

Lemma sub_special_lower_slug (s : string) :
  PyStr.all_chars slug_char (sub_special (PyStr.lower s)) = true.
Proof.
  induction s as [|c s IH]; [reflexivity|].
  cbn [PyStr.lower sub_special PyStr.all_chars].
  rewrite (sub_special_char _ (lower_char_not_upper c)). exact IH.
Qed.

Lemma sub_dashes_start (s : string) :
  starts_with_dash (sub_dashes s) = starts_with_dash s.
Proof.
  induction s as [|c s IH]; [reflexivity|].
  cbn [sub_dashes starts_with_dash].
  destruct (is_dash c) eqn:Ec; [|cbn; exact Ec].
  destruct (starts_with_dash s) eqn:Es; cbn; [exact IH|exact Ec].
Qed.

Lemma sub_dashes_all (p : ascii -> bool) (s : string) :
  PyStr.all_chars p s = true -> PyStr.all_chars p (sub_dashes s) = true.
Proof.
  induction s as [|c s IH]; [reflexivity|].
  cbn [sub_dashes PyStr.all_chars]. rewrite andb_true_iff. intros [Hc Hs].
  destruct (is_dash c && starts_with_dash s)%bool; [exact (IH Hs)|].
  cbn [PyStr.all_chars]. rewrite Hc. exact (IH Hs).
Qed.

Lemma sub_dashes_single (s : string) : has_double_dash (sub_dashes s) = false.
Proof.
  induction s as [|c s IH]; [reflexivity|].
  cbn [sub_dashes].
  destruct (is_dash c && starts_with_dash s)%bool eqn:E; [exact IH|].
  cbn [has_double_dash]. rewrite sub_dashes_start, E. exact IH.
Qed.

Section Strip.

Variable p : ascii -> bool.

Lemma lstrip_start (s : string) : starts_with p (PyStr.lstrip_by p s) = false.
  Proof.
    induction s as [|c s IH]; [reflexivity|].
    cbn [PyStr.lstrip_by]. destruct (p c) eqn:E; [exact IH|exact E].
  Qed.

Lemma lstrip_all (q : ascii -> bool) (s : string) :
    PyStr.all_chars q s = true -> PyStr.all_chars q (PyStr.lstrip_by p s) = true.
  Proof.
    induction s as [|c s IH]; [reflexivity|].
    cbn [PyStr.lstrip_by]. destruct (p c); [|trivial].
    cbn [PyStr.all_chars]. rewrite andb_true_iff. intros [_ H]. exact (IH H).
  Qed.

Lemma lstrip_single (s : string) :
    has_double_dash s = false -> has_double_dash (PyStr.lstrip_by p s) = false.
  Proof.
    induction s as [|c s IH]; [reflexivity|].
    cbn [PyStr.lstrip_by]. destruct (p c); [|trivial].
    cbn [has_double_dash]. rewrite orb_false_iff. intros [_ H]. exact (IH H).
  Qed.


Lemma rstrip_start (s : string) :
    starts_with p s = false -> starts_with p (PyStr.rstrip_by p s) = false.
  Proof.
    destruct s as [|c s]; [reflexivity|].
    cbn [PyStr.rstrip_by starts_with]. intro H. rewrite H. exact H.
  Qed.

Lemma rstrip_end (s : string) : ends_with p (PyStr.rstrip_by p s) = false.
  Proof.
    induction s as [|c s IH]; [reflexivity|].
    cbn [PyStr.rstrip_by].
    destruct (PyStr.rstrip_by p s) as [|c' r] eqn:E.
    - cbn [PyStr.is_empty]. rewrite andb_true_r.
      destruct (p c) eqn:Ec; [reflexivity|exact Ec].
    - cbn [PyStr.is_empty]. rewrite andb_false_r. exact IH.
  Qed.

Lemma rstrip_all (q : ascii -> bool) (s : string) :
    PyStr.all_chars q s = true -> PyStr.all_chars q (PyStr.rstrip_by p s) = true.
  Proof.
    induction s as [|c s IH]; [reflexivity|].
    cbn [PyStr.rstrip_by PyStr.all_chars]. rewrite andb_true_iff.
    intros [Hc Hs].
    destruct (p c && PyStr.is_empty (PyStr.rstrip_by p s))%bool; [reflexivity|].
    cbn [PyStr.all_chars]. rewrite Hc. exact (IH Hs).
  Qed.

Lemma rstrip_start_dash (s : string) :
    starts_with_dash (PyStr.rstrip_by p s) = true -> starts_with_dash s = true.
  Proof.
    destruct s as [|c s]; [trivial|].
    cbn [PyStr.rstrip_by].
    destruct (p c && PyStr.is_empty (PyStr.rstrip_by p s))%bool;
      [discriminate|trivial].
  Qed.

Lemma rstrip_single (s : string) :
    has_double_dash s = false -> has_double_dash (PyStr.rstrip_by p s) = false.
  Proof.
    induction s as [|c s IH]; [reflexivity|].
    cbn [PyStr.rstrip_by has_double_dash]. rewrite orb_false_iff.
    intros [Hc Hs].
    destruct (p c && PyStr.is_empty (PyStr.rstrip_by p s))%bool; [reflexivity|].
    cbn [has_double_dash]. rewrite (IH Hs), orb_false_r.
    destruct (is_dash c); [|reflexivity]. cbn [andb] in *.
    destruct (starts_with_dash (PyStr.rstrip_by p s)) eqn:E; [|reflexivity].
    apply rstrip_start_dash in E. congruence.
  Qed.

End Strip.

Lemma ends_with_is_dash (s : string) : ends_with is_dash s = ends_with_dash s.
Proof. induction s as [|c [|c' s] IH]; [reflexivity|reflexivity|exact IH]. Qed.

(** C8.  [create_handle] is a function of its four arguments, and the
    handle it builds has only characters of [a-z0-9-], does not begin or
    end with a dash, and has no two dashes in a row. *)
Theorem create_handle_is_a_slug (artist title details : cell)
  (release_date : datetime) :
  let handle := create_handle artist title details release_date in
  PyStr.all_chars slug_char handle = true
  /\ starts_with_dash handle = false
  /\ ends_with_dash handle = false
  /\ has_double_dash handle = false
  /\ forall artist' title' details' release_date',
       artist' = artist -> title' = title -> details' = details ->
       release_date' = release_date ->
       create_handle artist' title' details' release_date' = handle.
Proof.
  cbn zeta. unfold create_handle, PyStr.strip_char, PyStr.strip_by.
  set (joined := PyStr.join "-" _).
  change (fun x : ascii => Ascii.eqb x "-") with is_dash.
  pose proof (sub_dashes_all slug_char _ (sub_special_lower_slug joined)) as Hall.
  pose proof (sub_dashes_single (sub_special (PyStr.lower joined))) as Hsingle.
  set (collapsed := sub_dashes (sub_special (PyStr.lower joined))) in *.
  repeat split.
  - apply rstrip_all, lstrip_all, Hall.
  - apply (rstrip_start is_dash), (lstrip_start is_dash).
  - rewrite <- ends_with_is_dash. apply rstrip_end.
  - apply rstrip_single, lstrip_single, Hsingle.
  - intros a t d r -> -> -> ->. reflexivity.
Qed.

(** ** The detail formatter *)

Lemma fold_left_append {A B : Type} (f : A -> B) (l : list A) (acc : list B) :
  fold_left (fun acc x => acc ++ [f x]) l acc = acc ++ map f l.
Proof.
  revert acc. induction l as [|x l IH]; intro acc; cbn.
  - rewrite app_nil_r. reflexivity.
  - rewrite IH, <- app_assoc. reflexivity.
Qed.

Lemma filter_map_swap {A B : Type} (p : B -> bool) (f : A -> B) (l : list A) :
  map f (filter (fun x => p (f x)) l) = filter p (map f l).
Proof.
  induction l as [|x l IH]; [reflexivity|].
  cbn. destruct (p (f x)); cbn; rewrite IH; reflexivity.
Qed.

Lemma fold_left_ext {A B : Type} (f g : A -> B -> A) (l : list B) (a : A) :
  (forall a b, f a b = g a b) -> fold_left f l a = fold_left g l a.
Proof.
  intro H. revert a. induction l as [|b l IH]; intro a; [reflexivity|].
  cbn. rewrite H. apply IH.
Qed.

Lemma format_part_steps (part : string) :
  format_part part = trim_slash_segments (restore_terms (PyStr.title part)).
Proof.
  unfold format_part, trim_slash_segments, restore_terms.
  rewrite (fold_left_ext
             (fun formatted '(old, new) => PyStr.replace old new formatted)
             (fun text entry => PyStr.replace (fst entry) (snd entry) text))
    by (intros a [old new]; reflexivity).
  reflexivity.
Qed.




(** A key is replaced wherever it occurs, also at the start of a longer
    word. *)
Lemma replacement_inside_a_word :
  format_vinyl_details (Str "2 LPS^EPIC") = "2 LPs, EPic".
Proof. vm_compute. reflexivity. Qed.

(** ** Dates written and read back *)

Ltac enum x :=
  repeat (destruct x as [|x]; [try (exfalso; lia)|try (exfalso; lia)]).

Lemma digit_of_digit_char (a : nat) :
  a < 10 -> digit_of (digit_char a) = Some a.
Proof. intro H. enum a; reflexivity. Qed.

Lemma isspace_digit_char (a : nat) :
  a < 10 -> PyStr.isspace (digit_char a) = false.
Proof. intro H. enum a; reflexivity. Qed.

Lemma year_digits (y : nat) :
  (N.of_nat y <= 9999)%N ->
  y / 1000 < 10 /\ (y / 100) mod 10 < 10 /\ (y / 10) mod 10 < 10 /\ y mod 10 < 10
  /\ 1000 * (y / 1000) + 100 * ((y / 100) mod 10) + 10 * ((y / 10) mod 10)
     + y mod 10 = y.
Proof.
  intro H. repeat split; try (apply Nat.mod_upper_bound; discriminate).
  - apply Nat.Div0.div_lt_upper_bound. lia.
  - pose proof (Nat.div_mod_eq y 10) as H1.
    pose proof (Nat.div_mod_eq (y / 10) 10) as H2.
    pose proof (Nat.div_mod_eq (y / 100) 10) as H3.
    replace (y / 10 / 10) with (y / 100) in H2
      by (rewrite Nat.Div0.div_div; reflexivity).
    replace (y / 100 / 10) with (y / 1000) in H3
      by (rewrite Nat.Div0.div_div; reflexivity).
    lia.
Qed.

Lemma re_Y_pad4 (y : nat) (rest : string) :
  (N.of_nat y <= 9999)%N -> re_Y (pad4 y ++ rest) = [(y, rest)].
Proof.
  intro H. destruct (year_digits y H) as (Ha & Hb & Hc & Hd & E).
  unfold pad4. cbn [append re_Y].
  rewrite !digit_of_digit_char by assumption.
  rewrite E. reflexivity.
Qed.

Lemma re_m_pad2 (m : nat) (rest : string) :
  1 <= m <= 12 -> exists tail, re_m (pad2 m ++ rest) = (m, rest) :: tail.
Proof. intro H. enum m; eexists; reflexivity. Qed.

Lemma re_d_pad2 (d : nat) (rest : string) :
  1 <= d <= 31 -> exists tail, re_d (pad2 d ++ rest) = (d, rest) :: tail.
Proof. intro H. enum d; eexists; reflexivity. Qed.

Lemma re_H_pad2 (h : nat) (rest : string) :
  h <= 23 -> exists tail, re_H (pad2 h ++ rest) = (h, rest) :: tail.
Proof. intro H. enum h; eexists; reflexivity. Qed.

Lemma re_M_pad2 (m : nat) (rest : string) :
  m <= 59 -> exists tail, re_M (pad2 m ++ rest) = (m, rest) :: tail.
Proof. intro H. enum m; eexists; reflexivity. Qed.

Lemma re_S_pad2 (v : nat) (rest : string) :
  v <= 59 -> exists tail, re_S (pad2 v ++ rest) = (v, rest) :: tail.
Proof. intro H. enum v; eexists; reflexivity. Qed.

Lemma re_y_pad2 (v : nat) (rest : string) :
  v < 100 -> re_y (pad2 v ++ rest) = [(v, rest)].
Proof. intro H. enum v; reflexivity. Qed.

Lemma days_in_month_le (y m : nat) : days_in_month y m <= 31.
Proof.
  unfold days_in_month.
  do 12 (destruct m as [|m]; [try lia; destruct (is_leap y); lia|]). lia.
Qed.

Lemma valid_datetime_range (dt : datetime) :
  valid_datetime dt = true <-> in_range dt.
Proof.
  unfold valid_datetime.
  rewrite !andb_true_iff, !Nat.leb_le, N.leb_le.
  split.
  - intros [[[[[[[[H1 H2] H3] H4] H5] H6] H7] H8] H9].
    constructor; auto.
  - intros [H1 H2 [H3 H4] [H5 H6] H7 H8 H9]. repeat split; assumption.
Qed.

Lemma append_assoc (a b c : string) : ((a ++ b) ++ c = a ++ (b ++ c))%string.
Proof. induction a as [|x a IH]; cbn; [reflexivity|rewrite IH; reflexivity]. Qed.

Lemma append_empty (a : string) : (a ++ "")%string = a.
Proof. induction a as [|x a IH]; cbn; [reflexivity|rewrite IH; reflexivity]. Qed.

Lemma century_mod_lt (y : nat) : y mod 100 < 100.
Proof. apply Nat.mod_upper_bound. discriminate. Qed.

Lemma year_text_pad4 (y : nat) : 1000 <= y -> year_text y = pad4 y.
Proof.
  intro H. unfold year_text.
  destruct (y <? 10) eqn:E1; [apply Nat.ltb_lt in E1; lia|].
  destruct (y <? 100) eqn:E2; [apply Nat.ltb_lt in E2; lia|].
  destruct (y <? 1000) eqn:E3; [apply Nat.ltb_lt in E3; lia|].
  reflexivity.
Qed.

Section ReadBack.

Variable dt : datetime.
Hypothesis dt_range : in_range dt.
Hypothesis dt_year : 1000 <= year dt.

Lemma store_head (set : datetime -> nat -> datetime) (acc : datetime)
    (alts : list (nat * string)) (v : nat) (rest : string) :
    (exists tail, alts = (v, rest) :: tail) ->
    exists tail, store set acc alts = (set acc v, rest) :: tail.
  Proof. intros [tail ->]. eexists. reflexivity. Qed.

Lemma directive_starts_with_digit (it : fmt_item) (rest : string) :
    is_directive it = true ->
    re_space (format_item dt it ++ rest) = [].
  Proof.
    destruct dt_range as [H1 H2 H3 H4 H5 H6 H7].
    pose proof (days_in_month_le (year dt) (month dt)) as Hd.
    assert (P2 : forall v, v < 100 -> re_space (pad2 v ++ rest) = []).
    { intros v Hv. unfold pad2. cbn [append re_space].
      rewrite isspace_digit_char; [reflexivity|].
      apply Nat.Div0.div_lt_upper_bound. lia. }
    destruct it; cbn [is_directive]; intro Hit; try discriminate Hit;
      clear Hit; cbn [format_item].
    2-6: apply P2; lia.
    - destruct (year_digits _ H2) as (Ha & _).
      rewrite (year_text_pad4 _ dt_year).
      unfold pad4. cbn [append re_space].
      rewrite isspace_digit_char by assumption. reflexivity.
    - apply P2. apply century_mod_lt.
  Qed.

Lemma match_item_head (it : fmt_item) (acc : datetime) (rest : string) :
    match it with
    | FBad _ => False
    | FSpace => re_space rest = []
    | _ => True
    end ->
    exists tail,
      match_item it acc (format_item dt it ++ rest)
      = (read_back dt acc it, rest) :: tail.
  Proof.
    destruct dt_range as [H1 H2 H3 H4 H5 H6 H7].
    pose proof (days_in_month_le (year dt) (month dt)) as Hd.
    destruct it; intro Hit; cbn [match_item format_item read_back].
    - rewrite (year_text_pad4 _ dt_year), re_Y_pad4 by assumption.
      eexists. reflexivity.
    - apply store_head, re_m_pad2. assumption.
    - apply store_head, re_d_pad2. lia.
    - apply store_head, re_H_pad2. assumption.
    - apply store_head, re_M_pad2. assumption.
    - apply store_head, re_S_pad2. assumption.
    - rewrite re_y_pad2 by apply century_mod_lt. eexists. reflexivity.
    - cbn [append]. rewrite Ascii.eqb_refl. eexists. reflexivity.
    - change (" " ++ rest)%string with (String " " rest).
      cbn [re_space]. change (PyStr.isspace " ") with true. cbn iota.
      rewrite Hit. eexists. reflexivity.
    - destruct Hit.
  Qed.

Lemma match_items_head (items : list fmt_item) (acc : datetime) (rest : string) :
    well_formed items = true ->
    exists tail,
      match_items items acc (format_items dt items ++ rest)
      = (fold_left (read_back dt) items acc, rest) :: tail.
  Proof.
    revert acc. induction items as [|it items IH]; intros acc Hwf.
    - eexists. reflexivity.
    - cbn [format_items match_items fold_left]. rewrite append_assoc.
      assert (Hitems : well_formed items = true).
      { destruct it; cbn in Hwf; try assumption; try discriminate.
        apply andb_true_iff in Hwf. apply Hwf. }
      destruct (match_item_head it acc (format_items dt items ++ rest))
        as [tail E].
      { destruct it; try exact I.
        - destruct items as [|it' items']; [discriminate|].
          cbn in Hwf. apply andb_true_iff in Hwf. destruct Hwf as [Hd _].
          cbn [format_items]. rewrite append_assoc.
          apply directive_starts_with_digit. exact Hd.
        - discriminate. }
      rewrite E. cbn [flat_map].
      destruct (IH (read_back dt acc it) Hitems) as [tail' E'].
      rewrite E'. eexists. reflexivity.
  Qed.

Lemma strptime_strftime (fmt : string) :
    well_formed (parse_format fmt) = true ->
    strptime (strftime dt fmt) fmt
    = let r := fold_left (read_back dt) (parse_format fmt) strptime_default in
      if valid_datetime r then Ok r else Raise ValueError.
  Proof.
    intro Hwf. unfold strptime, strptime_items, strftime.
    assert (Hbad : has_bad (parse_format fmt) = false).
    { induction (parse_format fmt) as [|it items IH]; [reflexivity|].
      destruct it; cbn in Hwf |- *; try (apply IH; assumption);
        try discriminate.
      apply andb_true_iff in Hwf. apply IH, Hwf. }
    rewrite Hbad.
    destruct (match_items_head (parse_format fmt) strptime_default "" Hwf)
      as [tail E].
    rewrite append_empty in E. rewrite E. reflexivity.
  Qed.

End ReadBack.

(** *** Formats that refuse what another format wrote *)

Lemma digit_char_not_dash (a : nat) :
  a < 10 ->
  Ascii.eqb (PyStr.lower_char "-") (PyStr.lower_char (digit_char a)) = false
  /\ Ascii.eqb (PyStr.lower_char "/") (PyStr.lower_char (digit_char a)) = false.
Proof. intro H. enum a; split; reflexivity. Qed.

(** [%Y] wants four digits: a separator in third place stops it. *)
Lemma year_stops_at_separator (items : list fmt_item) (acc : datetime)
  (m : nat) (c : ascii) (r : string) :
  digit_of c = None ->
  match_items (FY :: items) acc (pad2 m ++ String c r) = [].
Proof.
  intro H. unfold pad2. cbn [append match_items match_item re_Y].
  destruct r as [|c4 r]; [reflexivity|].
  destruct (digit_of (digit_char (m / 10))); [|reflexivity].
  destruct (digit_of (digit_char (m mod 10))); [|reflexivity].
  rewrite H. reflexivity.
Qed.

(** [%m] followed by the other separator. *)
Lemma month_slash_meets_dash (items : list fmt_item) (acc : datetime)
  (m : nat) (r : string) :
  1 <= m <= 12 ->
  match_items (Fm :: FLit "/" :: items) acc (pad2 m ++ String "-" r) = [].
Proof. intro H. enum m; reflexivity. Qed.

Lemma month_dash_meets_slash (items : list fmt_item) (acc : datetime)
  (m : nat) (r : string) :
  1 <= m <= 12 ->
  match_items (Fm :: FLit "-" :: items) acc (pad2 m ++ String "/" r) = [].
Proof. intro H. enum m; reflexivity. Qed.

(** [%Y-] on a year followed by a month without separator. *)
Lemma year_dash_meets_digit (items : list fmt_item) (acc : datetime)
  (y m : nat) (r : string) :
  (N.of_nat y <= 9999)%N -> m < 100 ->
  match_items (FY :: FLit "-" :: items) acc (pad4 y ++ pad2 m ++ r) = [].
Proof.
  intros Hy Hm. cbn [match_items match_item].
  rewrite re_Y_pad4 by assumption. cbn [store map flat_map].
  unfold pad2. cbn [append match_items match_item].
  assert (Ha : m / 10 < 10) by (apply Nat.Div0.div_lt_upper_bound; lia).
  rewrite (proj1 (digit_char_not_dash _ Ha)). reflexivity.
Qed.

(** [%m] and a separator on the digits of a year. *)
Lemma month_meets_year (items : list fmt_item) (acc : datetime)
  (sep : ascii) (a b c : nat) (r : string) :
  sep = "/"%char \/ sep = "-"%char ->
  a < 10 -> b < 10 -> c < 10 ->
  match_items (Fm :: FLit sep :: items) acc
    (String (digit_char a) (String (digit_char b) (String (digit_char c) r)))
  = [].
Proof.
  intros Hsep Ha Hb Hc.
  destruct Hsep as [-> | ->]; enum a; enum b; enum c; reflexivity.
Qed.

(** A single way to match leaves the answer of the remaining items
    followed by two empty lists. *)
Ltac single_way :=
  etransitivity; [|apply app_nil_r];
  etransitivity; [|apply app_nil_r];
  reflexivity.

(** A month, a day and the separator after it are read in one way. *)
Lemma month_then_separator (items : list fmt_item) (acc : datetime)
  (sep : ascii) (m : nat) (r : string) :
  sep = "/"%char \/ sep = "-"%char -> 1 <= m <= 12 ->
  match_items (Fm :: FLit sep :: items) acc (pad2 m ++ String sep r)
  = match_items items (with_month acc m) r.
Proof.
  intros Hsep Hm. destruct Hsep as [-> | ->]; enum m; single_way.
Qed.

Lemma day_then_separator (items : list fmt_item) (acc : datetime)
  (sep : ascii) (d : nat) (r : string) :
  sep = "/"%char \/ sep = "-"%char -> 1 <= d <= 31 ->
  match_items (Fd :: FLit sep :: items) acc (pad2 d ++ String sep r)
  = match_items items (with_day acc d) r.
Proof.
  intros Hsep Hd. destruct Hsep as [-> | ->]; enum d; single_way.
Qed.

(** [%d] and white space on a day and nothing more. *)
Lemma day_then_end (items : list fmt_item) (acc : datetime) (d : nat) :
  1 <= d <= 31 ->
  match_items (Fd :: FSpace :: items) acc (pad2 d ++ "") = [].
Proof. intro Hd. enum d; reflexivity. Qed.

Lemma no_match_raises (s fmt : string) :
  match_items (parse_format fmt) strptime_default s = [] ->
  strptime s fmt = Raise ValueError.
Proof.
  intro H. unfold strptime, strptime_items. rewrite H.
  destruct (has_bad _); reflexivity.
Qed.

Lemma year_then_dash (items : list fmt_item) (acc : datetime)
  (y : nat) (r : string) :
  (N.of_nat y <= 9999)%N ->
  match_items (FY :: FLit "-" :: items) acc (pad4 y ++ String "-" r)
  = match_items items (with_year acc y) r.
Proof.
  intro Hy. cbn [match_items match_item].
  rewrite re_Y_pad4 by assumption.
  cbn [store map flat_map].
  change (PyStr.lower_char "-" =? PyStr.lower_char "-")%char with true.
  cbn [flat_map]. rewrite !app_nil_r. reflexivity.
Qed.

Lemma year_then_end (items : list fmt_item) (acc : datetime) (y : nat) :
  (N.of_nat y <= 9999)%N ->
  match_items (FY :: FSpace :: items) acc (pad4 y ++ "") = [].
Proof.
  intro Hy. cbn [match_items match_item].
  rewrite re_Y_pad4 by assumption. reflexivity.
Qed.

Lemma year_needs_four (items : list fmt_item) (acc : datetime) (v : nat) :
  match_items (FY :: items) acc (pad2 v ++ "") = [].
Proof. reflexivity. Qed.

Lemma parse_formats :
  map parse_format date_formats =
  [ [FY; FLit "-"; Fm; FLit "-"; Fd; FSpace; FH; FLit ":"; FM; FLit ":"; FS];
    [FY; FLit "-"; Fm; FLit "-"; Fd];
    [Fm; FLit "/"; Fd; FLit "/"; FY; FSpace; FH; FLit ":"; FM; FLit ":"; FS];
    [Fm; FLit "/"; Fd; FLit "/"; FY];
    [Fm; FLit "-"; Fd; FLit "-"; FY];
    [FY; Fm; Fd];
    [Fm; FLit "/"; Fd; FLit "/"; Fy] ].
Proof. vm_compute. reflexivity. Qed.

(** The text of a date in a format, with the format read. *)
Ltac expose :=
  unfold strftime;
  repeat match goal with
         | |- context [parse_format ?f] =>
             let items := eval vm_compute in (parse_format f) in
             change (parse_format f) with items
         end;
  cbn [format_items format_item year month day hour minute second append];
  rewrite ?year_text_pad4 by assumption.

Ltac refuse := apply no_match_raises; expose.

Section Refusals.

Variables y m d H M S : nat.
Let dt := mkdatetime y m d H M S.
Hypothesis dt_range : in_range dt.
Hypothesis dt_year : 1000 <= y.

Let Hy : (N.of_nat y <= 9999)%N := year_high dt dt_range.
Let Hm : 1 <= m <= 12 := month_range dt dt_range.

Lemma day_le_31 : 1 <= d <= 31.
  Proof.
    pose proof (day_range dt dt_range) as Hd.
    pose proof (days_in_month_le y m). cbn in Hd. lia.
  Qed.

Let slash : digit_of "/" = None := eq_refl.
Let dash : digit_of "-" = None := eq_refl.

  (** What [%Y-%m-%d] wrote *)
Lemma ymd_refused_1 :
    strptime (strftime dt "%Y-%m-%d") "%Y-%m-%d %H:%M:%S" = Raise ValueError.
  Proof.
    refuse. rewrite year_then_dash by exact Hy.
    rewrite (month_then_separator _ _ "-") by (auto; exact Hm).
    apply day_then_end, day_le_31.
  Qed.

  (** What [%m/%d/%Y %H:%M:%S] wrote *)
Lemma mdyt_refused_1 :
    strptime (strftime dt "%m/%d/%Y %H:%M:%S") "%Y-%m-%d %H:%M:%S"
    = Raise ValueError.
  Proof. refuse. apply year_stops_at_separator, slash. Qed.

Lemma mdyt_refused_2 :
    strptime (strftime dt "%m/%d/%Y %H:%M:%S") "%Y-%m-%d" = Raise ValueError.
  Proof. refuse. apply year_stops_at_separator, slash. Qed.

  (** What [%m/%d/%Y] wrote *)
Lemma mdy_refused_1 :
    strptime (strftime dt "%m/%d/%Y") "%Y-%m-%d %H:%M:%S" = Raise ValueError.
  Proof. refuse. apply year_stops_at_separator, slash. Qed.

Lemma mdy_refused_2 :
    strptime (strftime dt "%m/%d/%Y") "%Y-%m-%d" = Raise ValueError.
  Proof. refuse. apply year_stops_at_separator, slash. Qed.

Lemma mdy_refused_3 :
    strptime (strftime dt "%m/%d/%Y") "%m/%d/%Y %H:%M:%S" = Raise ValueError.
  Proof.
    refuse. rewrite (month_then_separator _ _ "/") by (auto; exact Hm).
    rewrite (day_then_separator _ _ "/") by (auto; exact day_le_31).
    apply year_then_end, Hy.
  Qed.

  (** What [%m-%d-%Y] wrote *)
Lemma mdy_dash_refused_1 :
    strptime (strftime dt "%m-%d-%Y") "%Y-%m-%d %H:%M:%S" = Raise ValueError.
  Proof. refuse. apply year_stops_at_separator, dash. Qed.

Lemma mdy_dash_refused_2 :
    strptime (strftime dt "%m-%d-%Y") "%Y-%m-%d" = Raise ValueError.
  Proof. refuse. apply year_stops_at_separator, dash. Qed.

Lemma mdy_dash_refused_3 :
    strptime (strftime dt "%m-%d-%Y") "%m/%d/%Y %H:%M:%S" = Raise ValueError.
  Proof. refuse. apply month_slash_meets_dash, Hm. Qed.

Lemma mdy_dash_refused_4 :
    strptime (strftime dt "%m-%d-%Y") "%m/%d/%Y" = Raise ValueError.
  Proof. refuse. apply month_slash_meets_dash, Hm. Qed.

  (** What [%Y%m%d] wrote *)
Lemma compact_refused_1 :
    strptime (strftime dt "%Y%m%d") "%Y-%m-%d %H:%M:%S" = Raise ValueError.
  Proof.
    refuse. apply year_dash_meets_digit; [exact Hy|].
    pose proof Hm as Hm'. change (m < 100). lia.
  Qed.

Lemma compact_refused_2 :
    strptime (strftime dt "%Y%m%d") "%Y-%m-%d" = Raise ValueError.
  Proof.
    refuse. apply year_dash_meets_digit; [exact Hy|].
    pose proof Hm as Hm'. change (m < 100). lia.
  Qed.

Lemma compact_refused_by_month (sep : ascii) (items : list fmt_item) :
    sep = "/"%char \/ sep = "-"%char ->
    match_items (Fm :: FLit sep :: items) strptime_default
      (pad4 y ++ pad2 m ++ pad2 d ++ "") = [].
  Proof.
    intro Hsep. destruct (year_digits y Hy) as (Ha & Hb & Hc & _).
    unfold pad4. cbn [append]. apply month_meets_year; assumption.
  Qed.

Lemma compact_refused_3 :
    strptime (strftime dt "%Y%m%d") "%m/%d/%Y %H:%M:%S" = Raise ValueError.
  Proof. refuse. apply compact_refused_by_month. auto. Qed.

Lemma compact_refused_4 :
    strptime (strftime dt "%Y%m%d") "%m/%d/%Y" = Raise ValueError.
  Proof. refuse. apply compact_refused_by_month. auto. Qed.

Lemma compact_refused_5 :
    strptime (strftime dt "%Y%m%d") "%m-%d-%Y" = Raise ValueError.
  Proof. refuse. apply compact_refused_by_month. auto. Qed.

  (** What [%m/%d/%y] wrote *)
Lemma short_refused_1 :
    strptime (strftime dt "%m/%d/%y") "%Y-%m-%d %H:%M:%S" = Raise ValueError.
  Proof. refuse. apply year_stops_at_separator, slash. Qed.

Lemma short_refused_2 :
    strptime (strftime dt "%m/%d/%y") "%Y-%m-%d" = Raise ValueError.
  Proof. refuse. apply year_stops_at_separator, slash. Qed.

Lemma short_refused_3 :
    strptime (strftime dt "%m/%d/%y") "%m/%d/%Y %H:%M:%S" = Raise ValueError.
  Proof.
    refuse. rewrite (month_then_separator _ _ "/") by (auto; exact Hm).
    rewrite (day_then_separator _ _ "/") by (auto; exact day_le_31).
    apply year_needs_four.
  Qed.

Lemma short_refused_4 :
    strptime (strftime dt "%m/%d/%y") "%m/%d/%Y" = Raise ValueError.
  Proof.
    refuse. rewrite (month_then_separator _ _ "/") by (auto; exact Hm).
    rewrite (day_then_separator _ _ "/") by (auto; exact day_le_31).
    apply year_needs_four.
  Qed.

Lemma short_refused_5 :
    strptime (strftime dt "%m/%d/%y") "%m-%d-%Y" = Raise ValueError.
  Proof. refuse. apply month_dash_meets_slash, Hm. Qed.

Lemma short_refused_6 :
    strptime (strftime dt "%m/%d/%y") "%Y%m%d" = Raise ValueError.
  Proof. refuse. apply year_stops_at_separator, slash. Qed.

End Refusals.

(** *** The format that wrote the text reads it back *)

Lemma midnight_in_range (y m d H M S : nat) :
  in_range (mkdatetime y m d H M S) -> valid_datetime (mkdatetime y m d 0 0 0) = true.
Proof.
  intros [H1 H2 H3 H4 H5 H6 H7]. apply valid_datetime_range.
  constructor; cbn in *; auto; lia.
Qed.

Lemma century_window (y : nat) :
  1969 <= y <= 2068 -> century (y mod 100) = y.
Proof.
  intro H. unfold century.
  pose proof (Nat.div_mod_eq y 100) as E.
  pose proof (century_mod_lt y) as L.
  destruct (y mod 100 <=? 68) eqn:C;
    [apply Nat.leb_le in C|apply Nat.leb_gt in C]; lia.
Qed.

Section OwnFormat.

Variables y m d H M S : nat.
Let dt := mkdatetime y m d H M S.
Hypothesis dt_range : in_range dt.
Hypothesis dt_year : 1000 <= y.

Ltac read_own :=
    rewrite (strptime_strftime dt dt_range dt_year) by (vm_compute; reflexivity);
    cbv zeta;
    repeat match goal with
           | |- context [parse_format ?f] =>
               let items := eval vm_compute in (parse_format f) in
               change (parse_format f) with items
           end;
    cbn [fold_left read_back year month day hour minute second];
    match goal with
    | |- (if valid_datetime ?x then Ok ?x else _) = Ok ?r => change x with r
    end.

Lemma own_1 :
    strptime (strftime dt "%Y-%m-%d %H:%M:%S") "%Y-%m-%d %H:%M:%S" = Ok dt.
  Proof.
    read_own.
    rewrite (proj2 (valid_datetime_range dt) dt_range). reflexivity.
  Qed.

Lemma own_2 :
    strptime (strftime dt "%Y-%m-%d") "%Y-%m-%d" = Ok (mkdatetime y m d 0 0 0).
  Proof. read_own. rewrite (midnight_in_range _ _ _ _ _ _ dt_range). reflexivity. Qed.

Lemma own_3 :
    strptime (strftime dt "%m/%d/%Y %H:%M:%S") "%m/%d/%Y %H:%M:%S" = Ok dt.
  Proof.
    read_own.
    rewrite (proj2 (valid_datetime_range dt) dt_range). reflexivity.
  Qed.

Lemma own_4 :
    strptime (strftime dt "%m/%d/%Y") "%m/%d/%Y" = Ok (mkdatetime y m d 0 0 0).
  Proof. read_own. rewrite (midnight_in_range _ _ _ _ _ _ dt_range). reflexivity. Qed.

Lemma own_5 :
    strptime (strftime dt "%m-%d-%Y") "%m-%d-%Y" = Ok (mkdatetime y m d 0 0 0).
  Proof. read_own. rewrite (midnight_in_range _ _ _ _ _ _ dt_range). reflexivity. Qed.

Lemma own_6 :
    strptime (strftime dt "%Y%m%d") "%Y%m%d" = Ok (mkdatetime y m d 0 0 0).
  Proof. read_own. rewrite (midnight_in_range _ _ _ _ _ _ dt_range). reflexivity. Qed.

Lemma own_7 :
    1969 <= y <= 2068 ->
    strptime (strftime dt "%m/%d/%y") "%m/%d/%y" = Ok (mkdatetime y m d 0 0 0).
  Proof.
    intro Hw.
    rewrite (strptime_strftime dt dt_range dt_year) by (vm_compute; reflexivity).
    cbv zeta.
    change (parse_format "%m/%d/%y") with [Fm; FLit "/"; Fd; FLit "/"; Fy].
    cbn [fold_left read_back]. change (year dt) with y.
    rewrite (century_window y Hw).
    change (with_year _ y) with (mkdatetime y m d 0 0 0).
    rewrite (midnight_in_range _ _ _ _ _ _ dt_range). reflexivity.
  Qed.

End OwnFormat.

(** *** The text [strftime] writes has nothing to trim *)

Lemma lstrip_idle (p : ascii -> bool) (s : string) :
  starts_with p s = false -> PyStr.lstrip_by p s = s.
Proof. destruct s as [|c s]; cbn; [reflexivity|]. intros ->. reflexivity. Qed.

Lemma rstrip_idle (p : ascii -> bool) (s : string) :
  ends_with p s = false -> PyStr.rstrip_by p s = s.
Proof.
  induction s as [|c s IH]; [reflexivity|].
  cbn [PyStr.rstrip_by]. destruct s as [|c' s'].
  - cbn. intros ->. reflexivity.
  - intro H. change (ends_with p (String c' s') = false) in H.
    rewrite (IH H). cbn [PyStr.is_empty]. rewrite andb_false_r. reflexivity.
Qed.

Lemma strip_idle (s : string) :
  starts_with PyStr.isspace s = false -> ends_with PyStr.isspace s = false ->
  PyStr.strip s = s.
Proof.
  intros H1 H2. unfold PyStr.strip, PyStr.strip_by.
  rewrite (lstrip_idle _ _ H1). apply rstrip_idle, H2.
Qed.

Lemma digit_is_not_n (a : nat) (r : string) :
  a < 10 ->
  String.eqb (PyStr.lower (String (digit_char a) r)) "nan" = false.
Proof. intro H. enum a; reflexivity. Qed.

Lemma parse_avail_date_plain (s : string) :
  PyStr.is_empty s = false ->
  starts_with PyStr.isspace s = false -> ends_with PyStr.isspace s = false ->
  String.eqb (PyStr.lower s) "nan" = false ->
  parse_avail_date (Str s) = try_formats s date_formats.
Proof.
  intros H1 H2 H3 H4. unfold parse_avail_date.
  rewrite (strip_idle s H2 H3), H1, H4. reflexivity.
Qed.

Ltac digit_bound :=
  first [ apply Nat.mod_upper_bound; discriminate
        | apply Nat.Div0.div_lt_upper_bound; lia ].

Lemma formatted_plain (y m d H M S : nat) (fmt : string) :
  in_range (mkdatetime y m d H M S) -> 1000 <= y -> In fmt date_formats ->
  parse_avail_date (Str (strftime (mkdatetime y m d H M S) fmt))
  = try_formats (strftime (mkdatetime y m d H M S) fmt) date_formats.
Proof.
  intros [H1 H2 H3 H4 H5 H6 H7] Hy4 Hin. cbn in H1, H2, H3, H4, H5, H6, H7.
  pose proof (days_in_month_le y m) as Hd.
  destruct (year_digits y H2) as (Ha & _).
  cbn [date_formats In] in Hin.
  repeat (destruct Hin as [<-|Hin]);
    [ .. | destruct Hin ];
    apply parse_avail_date_plain; expose; unfold pad2, pad4;
    cbn [append starts_with ends_with PyStr.is_empty];
    try reflexivity;
    try (apply digit_is_not_n; first [exact Ha|digit_bound]);
    apply isspace_digit_char; first [exact Ha|digit_bound].
Qed.

(** C3, as the code has it.  For a date with a four-digit year and each
    of the six formats that write the year in full, the text [strftime]
    writes is read back by [parse_avail_date] as the same calendar date;
    for [%m/%d/%y] this holds for the years 1969 to 2068, the years a
    two-digit year is read as. *)
Theorem dates_round_trip (dt : datetime) (fmt : string) :
  valid_datetime dt = true ->
  1000 <= year dt ->
  In fmt date_formats ->
  (fmt = "%m/%d/%y" -> 1969 <= year dt <= 2068) ->
  exists dt',
    parse_avail_date (Str (strftime dt fmt)) = Ok (Some dt')
    /\ date_of dt' = date_of dt.
Proof.
  intros Hv Hy Hin Hw. destruct dt as [y m d H M S].
  apply valid_datetime_range in Hv. cbn [year] in Hy, Hw.
  rewrite (formatted_plain _ _ _ _ _ _ _ Hv Hy Hin).
  cbn [date_formats In] in Hin. cbn [date_formats try_formats].
  destruct Hin as [<-|[<-|[<-|[<-|[<-|[<-|[<-|[]]]]]]]].
  - rewrite own_1 by assumption. eexists. split; reflexivity.
  - rewrite ymd_refused_1, own_2 by assumption.
    eexists. split; reflexivity.
  - rewrite mdyt_refused_1, mdyt_refused_2, own_3 by assumption.
    eexists. split; reflexivity.
  - rewrite mdy_refused_1, mdy_refused_2, mdy_refused_3, own_4 by assumption.
    eexists. split; reflexivity.
  - rewrite mdy_dash_refused_1, mdy_dash_refused_2, mdy_dash_refused_3,
      mdy_dash_refused_4, own_5 by assumption.
    eexists. split; reflexivity.
  - rewrite compact_refused_1, compact_refused_2, compact_refused_3,
      compact_refused_4, compact_refused_5, own_6 by assumption.
    eexists. split; reflexivity.
  - rewrite short_refused_1, short_refused_2, short_refused_3,
      short_refused_4, short_refused_5, short_refused_6 by assumption.
    rewrite own_7; [|assumption|assumption|exact (Hw eq_refl)].
    eexists. split; reflexivity.
Qed.

Lemma dates_round_trip_witness :
  exists dt',
    parse_avail_date
      (Str (strftime (mkdatetime 2025 9 19 17 30 0) "%m/%d/%Y %H:%M:%S"))
    = Ok (Some dt')
    /\ date_of dt' = mkdate 2025 9 19.
Proof.
  apply (dates_round_trip (mkdatetime 2025 9 19 17 30 0) "%m/%d/%Y %H:%M:%S").
  - vm_compute. reflexivity.
  - simpl. lia.
  - simpl. right. right. left. reflexivity.
  - intro E. discriminate E.
Defined.

(** The year 1950 written with two digits is read as 2050, and the year 5,
    written without leading zeros, is not read at all. *)
Lemma dates_that_do_not_come_back :
  (valid_datetime (mkdatetime 1950 3 4 0 0 0) = true
   /\ strftime (mkdatetime 1950 3 4 0 0 0) "%m/%d/%y" = "03/04/50"
   /\ parse_avail_date (Str (strftime (mkdatetime 1950 3 4 0 0 0) "%m/%d/%y"))
      = Ok (Some (mkdatetime 2050 3 4 0 0 0))
   /\ date_of (mkdatetime 2050 3 4 0 0 0) <> date_of (mkdatetime 1950 3 4 0 0 0))
  /\ (valid_datetime (mkdatetime 5 3 4 0 0 0) = true
      /\ strftime (mkdatetime 5 3 4 0 0 0) "%Y-%m-%d" = "5-03-04"
      /\ parse_avail_date (Str (strftime (mkdatetime 5 3 4 0 0 0) "%Y-%m-%d"))
         = Ok None).
Proof.
  repeat split; try (vm_compute; reflexivity).
  intro E. vm_compute in E. discriminate E.
Qed.

Lemma create_handle_is_a_slug_witness :
  PyStr.all_chars slug_char
    (create_handle (Str " Test Artist") (Str "Test Album!!")
       (Str "LTD^COLORED") sample_target) = true
  /\ create_handle (Str " Test Artist") (Str "Test Album!!")
       (Str "LTD^COLORED") sample_target
     = "test-artist-test-album-ltd-colored-20250919".
Proof.
  split.
  - exact (proj1 (create_handle_is_a_slug (Str " Test Artist")
                    (Str "Test Album!!") (Str "LTD^COLORED") sample_target)).
  - vm_compute. reflexivity.
Defined.

(** * Properties of the rest of the two programs *)

(** ** Margins of the prices *)

(** X1.  For an MSRP that [float] reads as [P], [calculate_pricing]
    returns the cost [P * 0.77], the club price [cost + 6] and an adjusted
    list price that is [P] or [club + 7].  In the arithmetic and the
    comparison of binary64 the adjusted list price is never below the MSRP
    and never below [club + 6]; and a finite MSRP gives three finite
    prices, no operation overflows. *)
Theorem pricing_margins (msrp : cell) (P : pyfloat) :
  float msrp = Some P ->
  exists cost adjusted club,
    calculate_pricing PreorderTransformer_init msrp
    = Some (cost, adjusted, club)
    /\ cost = fmul P float_0_77
    /\ club = fadd cost (of_Z 6)
    /\ (adjusted = P \/ adjusted = fadd club (of_Z 7))
    /\ flt adjusted P = false
    /\ flt adjusted (fadd club (of_Z 6)) = false
    /\ (is_number P = true ->
        is_number cost = true /\ is_number club = true
        /\ is_number adjusted = true).
Proof.
  intro H. rewrite (calculate_pricing_unfold _ _ H).
  pose proof (float_valid _ _ H) as VP.
  pose proof (cost_valid P VP) as Vc.
  set (cost := fmul P float_0_77) in *.
  set (club := fadd cost (of_Z 6)).
  destruct (flt P (fadd club (of_Z 6))) eqn:E.
  - assert (NP : is_number P = true).
    { destruct P as [s|s| |s m e]; try reflexivity.
      - exfalso. destruct s; vm_compute in E; discriminate E.
      - discriminate E. }
    pose proof (cost_number P VP NP) as Nc. fold cost in Nc.
    destruct (fadd_markup cost 6 Vc Nc ltac:(lia)) as [Vk Nk]. fold club in Vk, Nk.
    destruct (fadd_markup club 6 Vk Nk ltac:(lia)) as [V6 N6].
    destruct (fadd_markup club 7 Vk Nk ltac:(lia)) as [V7 N7].
    pose proof (fadd_small_mono club 6 7 Vk Nk ltac:(lia) ltac:(lia)) as M.
    rewrite (flt_units _ _ VP V6 NP N6) in E. apply Z.ltb_lt in E.
    exists cost, (fadd club (of_Z 7)), club.
    split; [reflexivity|]. split; [reflexivity|]. split; [reflexivity|].
    split; [right; reflexivity|].
    split; [rewrite (flt_units _ _ V7 VP N7 NP); apply Z.ltb_ge; lia|].
    split; [rewrite (flt_units _ _ V7 V6 N7 N6); apply Z.ltb_ge; lia|].
    intros _. repeat split; assumption.
  - exists cost, P, club.
    split; [reflexivity|]. split; [reflexivity|]. split; [reflexivity|].
    split; [left; reflexivity|].
    split; [apply flt_irrefl|]. split; [exact E|].
    intro NP. pose proof (cost_number P VP NP) as Nc. fold cost in Nc.
    destruct (fadd_markup cost 6 Vc Nc ltac:(lia)) as [Vk Nk].
    repeat split; assumption.
Qed.

Lemma pricing_margins_witness :
  exists cost adjusted club,
    calculate_pricing PreorderTransformer_init (Str "24.98")
    = Some (cost, adjusted, club)
    /\ flt adjusted (S754_finite false 7031244918232187 (-48)) = false
    /\ is_number adjusted = true.
Proof.
  destruct (pricing_margins (Str "24.98")
              (S754_finite false 7031244918232187 (-48)))
    as (cost & adjusted & club & E & _ & _ & _ & L & _ & N);
    [vm_compute; reflexivity|].
  exists cost, adjusted, club. split; [exact E|]. split; [exact L|].
  exact (proj2 (proj2 (N eq_refl))).
Defined.

(** ** A record without a price *)

Lemma matched_row_step (self : PreorderTransformer) (target : datetime)
  (st : counters) (row : alliance_row) :
  classify (date_of target) row (avail_date_of row) = Matched ->
  process_row self target st row =
  let st' := count_vinyl (count_date_match st) in
  let pricing := calculate_pricing self (MSRP row) in
  if not_cost pricing then st'
  else match pricing with
       | Some (cost, adjusted_msrp, club_price) =>
           append_row st'
             (build_row self target (safe_get (Artist row))
                (safe_get (ItemName row)) (safe_get (FormatDesc row))
                (safe_get (Barcode row)) (safe_get (DelimMisc row))
                (safe_get (ItemNotes row)) (safe_get (ImgHttpPath row))
                cost adjusted_msrp club_price)
       | None => st'
       end.
Proof.
  intro Hm. pose proof (process_row_stage self target st row) as P.
  rewrite Hm in P. exact P.
Qed.



(** ** One record, one row at most *)

Lemma process_row_data (self : PreorderTransformer) (target : datetime)
  (st : counters) (row : alliance_row) :
  shopify_data (process_row self target st row)
  = shopify_data st ++ row_output self target row.
Proof.
  unfold row_output.
  pose proof (process_row_stage self target st row) as P.
  pose proof (process_row_stage self target counters_init row) as P0.
  destruct (classify _ _ _); cbv zeta in P, P0; rewrite P, P0; clear P P0;
    try (cbn; rewrite app_nil_r; reflexivity).
  destruct (not_cost _); [cbn; rewrite app_nil_r; reflexivity|].
  destruct (calculate_pricing self (MSRP row)) as [[[c a] k]|];
    cbn; rewrite ?app_nil_r; reflexivity.
Qed.

Lemma fold_process_row_data (self : PreorderTransformer) (target : datetime)
  (rows : list alliance_row) (st : counters) :
  shopify_data (fold_left (process_row self target) rows st)
  = shopify_data st ++ flat_map (row_output self target) rows.
Proof.
  revert st. induction rows as [|row rest IH]; intro st; cbn [fold_left flat_map].
  - rewrite app_nil_r. reflexivity.
  - rewrite IH, process_row_data, app_assoc. reflexivity.
Qed.

Lemma transform_is_flat_map (self : PreorderTransformer) (target : datetime)
  (rows : list alliance_row) :
  transform_to_shopify self rows target = flat_map (row_output self target) rows.
Proof.
  unfold transform_to_shopify, transform_loop.
  rewrite fold_process_row_data. reflexivity.
Qed.

Lemma row_output_single (self : PreorderTransformer) (target : datetime)
  (row : alliance_row) :
  transform_to_shopify self [row] target = row_output self target row.
Proof. rewrite transform_is_flat_map. cbn. apply app_nil_r. Qed.

Lemma row_output_unmatched (self : PreorderTransformer) (target : datetime)
  (row : alliance_row) :
  classify (date_of target) row (avail_date_of row) <> Matched ->
  row_output self target row = [].
Proof.
  intro H. unfold row_output.
  pose proof (process_row_stage self target counters_init row) as P.
  destruct (classify _ _ _); try congruence; rewrite P; reflexivity.
Qed.

Lemma row_output_short (self : PreorderTransformer) (target : datetime)
  (row : alliance_row) :
  List.length (row_output self target row) <= 1.
Proof.
  unfold row_output.
  pose proof (process_row_stage self target counters_init row) as P.
  destruct (classify _ _ _); cbv zeta in P; rewrite P; clear P; cbn; try lia.
  destruct (not_cost _); [cbn; lia|].
  destruct (calculate_pricing self (MSRP row)) as [[[c a] k]|]; cbn; lia.
Qed.

(** X3.  Every record gives at most one row, whatever the records around
    it, and the rows keep the order of the records: the product file of a
    catalog is the product files of its records one after the other, so a
    catalog cut in two batches gives the two product files in a row. *)
Theorem records_are_independent (self : PreorderTransformer)
  (target : datetime) (batch1 batch2 : list alliance_row) :
  transform_to_shopify self (batch1 ++ batch2) target
  = transform_to_shopify self batch1 target
    ++ transform_to_shopify self batch2 target
  /\ transform_to_shopify self batch1 target
     = flat_map (fun row => transform_to_shopify self [row] target) batch1
  /\ forall row, List.length (transform_to_shopify self [row] target) <= 1.
Proof.
  split; [|split].
  - rewrite !transform_is_flat_map. apply flat_map_app.
  - rewrite transform_is_flat_map. apply flat_map_ext.
    intro row. symmetry. apply row_output_single.
  - intro row. rewrite row_output_single. apply row_output_short.
Qed.

(** ** The filter of the web application *)

Lemma filter_rows_result (self : PreorderTransformer) (target : date)
  (rows : list alliance_row) (st : filter_state) :
  filter_rows self target st rows
  = Ok (mkfilter (List.length rows + total_processed st)
          (List.length (filter (is_date_match target) rows)
           + filter_date_matches st)
          (List.length (filter (is_matched target) rows) + vinyl_matches st)
          (matched_records st ++ filter (is_matched target) rows)).
Proof.
  revert st. induction rows as [|row rest IH]; intro st.
  - cbn. rewrite app_nil_r. destruct st; reflexivity.
  - cbn [filter_rows]. rewrite filter_row_stage. cbn [filter List.length].
    assert (Hm : is_matched target row
                 = match classify target row (avail_date_of row) with
                   | Matched => true
                   | _ => false
                   end) by reflexivity.
    assert (Hd : is_date_match target row
                 = match classify target row (avail_date_of row) with
                   | Matched | FormatMismatch => true
                   | _ => false
                   end) by reflexivity.
    rewrite Hm, Hd. clear Hm Hd.
    destruct (classify target row (avail_date_of row)); rewrite IH;
      unfold tick; cbn [total_processed filter_date_matches vinyl_matches
                        matched_records List.length];
      rewrite <- ?app_assoc; cbn [app]; f_equal; f_equal; lia.
Qed.

(** X4.  The filter of the web application never fails.  It counts every
    record, keeps exactly the records that pass the three stages, in
    their order, and its counters are the number of records, of date
    matches and of records kept; there are no more records kept than date
    matches. *)
Theorem web_filter_keeps_the_matches (self : PreorderTransformer)
  (target : date) (rows : list alliance_row) :
  exists st,
    filter_rows self target filter_init rows = Ok st
    /\ matched_records st = filter (is_matched target) rows
    /\ total_processed st = List.length rows
    /\ filter_date_matches st
       = List.length (filter (is_date_match target) rows)
    /\ vinyl_matches st = List.length (matched_records st)
    /\ vinyl_matches st <= filter_date_matches st <= total_processed st.
Proof.
  eexists. split; [apply filter_rows_result|].
  cbn [matched_records total_processed filter_date_matches vinyl_matches
       filter_init app].
  rewrite !Nat.add_0_r. repeat split.
  - induction rows as [|row rest IH]; [cbn; lia|].
    unfold is_matched, is_date_match in *. cbn [filter].
    destruct (classify target row (avail_date_of row)); cbn [List.length]; lia.
  - induction rows as [|row rest IH]; [cbn; lia|].
    cbn [filter]. destruct (is_date_match target row); cbn [List.length]; lia.
Qed.

Lemma transform_of_matches (self : PreorderTransformer) (target : datetime)
  (rows : list alliance_row) :
  transform_to_shopify self (filter (is_matched (date_of target)) rows) target
  = transform_to_shopify self rows target.
Proof.
  rewrite !transform_is_flat_map.
  induction rows as [|row rest IH]; [reflexivity|].
  cbn [filter flat_map]. unfold is_matched at 1.
  destruct (classify (date_of target) row (avail_date_of row)) eqn:E;
    cbn [flat_map]; rewrite IH;
    try (rewrite (row_output_unmatched self target row) by congruence);
    reflexivity.
Qed.

Lemma date_of_midnight (d : date) : date_of (at_midnight d) = d.
Proof. destruct d; reflexivity. Qed.

(** X5.  Once the format is detected and the file is read, the web
    application returns no error and the very rows [transform_to_shopify]
    makes of all the rows of the file for the target date at midnight:
    filtering first and transforming the records kept changes nothing. *)
Theorem web_application_transforms_the_file
  (file : Type)
  (read_csv : file -> string -> string -> option nat -> option frame)
  (self : PreorderTransformer) (f : file) (target : date)
  (encoding separator : string) (df : frame) :
  detect_format file read_csv f = Some (encoding, separator) ->
  read_csv f encoding separator None = Some df ->
  process_alliance_catalog file read_csv self f target
  = (Some (transform_to_shopify self (rows df) (at_midnight target)), None).
Proof.
  intros Hd Hr. unfold process_alliance_catalog. rewrite Hd, Hr.
  rewrite filter_rows_result.
  cbn [matched_records filter_init app].
  rewrite <- (transform_of_matches self (at_midnight target) (rows df)).
  destruct (filter (is_matched (date_of (at_midnight target))) (rows df))
    as [|row rest] eqn:E; reflexivity.
Qed.

Lemma web_application_transforms_the_file_witness :
  process_alliance_catalog described_file described_read_csv
    PreorderTransformer_init comma_file (date_of sample_target)
  = (Some (transform_to_shopify PreorderTransformer_init [sample_row]
             (at_midnight (date_of sample_target))), None).
Proof.
  apply (web_application_transforms_the_file described_file
           described_read_csv PreorderTransformer_init comma_file
           (date_of sample_target) "utf-8" "," 
           {| columns := header comma_file; rows := body comma_file |}).
  - vm_compute. reflexivity.
  - vm_compute. reflexivity.
Defined.

(** ** Where a row comes from *)

Lemma in_formats_weight (f : string) :
  in_formats f = true ->
  (f = "12-INCH SINGLE" /\ calculate_weight_grams f = 140)
  \/ (f = "7-INCH SINGLE" /\ calculate_weight_grams f = 40)
  \/ (f = "VINYL LP" /\ calculate_weight_grams f = 180).
Proof.
  unfold in_formats, vinyl_formats. cbn [existsb].
  rewrite !orb_true_iff, !String.eqb_eq.
  intros [->|[->|[->|H]]]; [auto|auto|auto|discriminate H].
Qed.

Lemma classify_matched (target : date) (row : alliance_row) :
  classify target row (avail_date_of row) = Matched ->
  PyStr.truthy (safe_get (Artist row)) = true
  /\ PyStr.truthy (safe_get (ItemName row)) = true
  /\ (exists dt, avail_date_of row = Some dt /\ date_of dt = target)
  /\ in_formats (safe_get (FormatDesc row)) = true.
Proof.
  unfold classify, PyStr.truthy.
  destruct (PyStr.is_empty (safe_get (Artist row))); [discriminate|].
  destruct (PyStr.is_empty (safe_get (ItemName row))); [discriminate|].
  cbn [orb]. destruct (avail_date_of row) as [dt|]; [|discriminate].
  destruct (date_eqb (date_of dt) target) eqn:E; [|discriminate].
  destruct (in_formats _); [|discriminate].
  intros _. repeat split. exists dt. split; [reflexivity|].
  apply date_eqb_eq. exact E.
Qed.

(** X6.  Every row of the product file comes from a record of the catalog
    that has an artist and a title, an availability date on the target
    date and one of the three vinyl formats, and whose cost is not zero.
    The row carries the prices of that record's MSRP, the weight of its
    format (140, 40 or 180 grams, never the default), the tag of the
    target date and the status [draft]. *)
Theorem rows_come_from_matches (self : PreorderTransformer)
  (target : datetime) (rows : list alliance_row) (r : shopify_row) :
  In r (transform_to_shopify self rows target) ->
  exists row cost adjusted_msrp club_price,
    In row rows
    /\ PyStr.truthy (safe_get (Artist row)) = true
    /\ PyStr.truthy (safe_get (ItemName row)) = true
    /\ (exists dt, avail_date_of row = Some dt /\ date_of dt = date_of target)
    /\ calculate_pricing self (MSRP row) = Some (cost, adjusted_msrp, club_price)
    /\ PyFloat.truthy cost = true
    /\ Cost_per_item r = cost
    /\ Variant_Compare_At_Price r = adjusted_msrp
    /\ Variant_Price r = club_price
    /\ ((safe_get (FormatDesc row) = "12-INCH SINGLE" /\ Variant_Grams r = 140)
        \/ (safe_get (FormatDesc row) = "7-INCH SINGLE" /\ Variant_Grams r = 40)
        \/ (safe_get (FormatDesc row) = "VINYL LP" /\ Variant_Grams r = 180))
    /\ Tags r = ("preorder club,preorder" ++ strftime target "%Y%m%d")%string
    /\ Status r = "draft".
Proof.
  rewrite transform_is_flat_map. intro Hin.
  apply in_flat_map in Hin. destruct Hin as (row & Hrow & Hr).
  destruct (classify (date_of target) row (avail_date_of row)) eqn:E;
    try (rewrite row_output_unmatched in Hr by congruence; destruct Hr).
  unfold row_output in Hr. rewrite (matched_row_step _ _ _ _ E) in Hr.
  cbv zeta in Hr.
  destruct (calculate_pricing self (MSRP row)) as [[[c a] k]|] eqn:Ep;
    [|destruct Hr].
  cbn [not_cost] in Hr.
  destruct (PyFloat.truthy c) eqn:Et; [|destruct Hr].
  cbn [negb append_row shopify_data count_vinyl count_date_match
       counters_init app] in Hr.
  destruct Hr as [<-|[]].
  destruct (classify_matched _ _ E) as (Ha & Hn & Hd & Hf).
  exists row, c, a, k. cbn [Cost_per_item Variant_Compare_At_Price
    Variant_Price Variant_Grams Tags Status build_row].
  repeat split; try assumption; try reflexivity.
  apply in_formats_weight, Hf.
Qed.

Lemma rows_come_from_matches_witness :
  exists r,
    In r (transform_to_shopify PreorderTransformer_init [sample_row] sample_target)
    /\ Variant_Grams r = 180 /\ Status r = "draft".
Proof.
  destruct (transform_to_shopify PreorderTransformer_init [sample_row]
              sample_target) as [|r rest] eqn:E; [vm_compute in E; discriminate E|].
  exists r.
  destruct (rows_come_from_matches PreorderTransformer_init sample_target
              [sample_row] r) as (row & c & a & k & Hin & _ & _ & _ & _ & _
                                  & _ & _ & _ & Hw & _ & Hs).
  { rewrite E. left. reflexivity. }
  destruct Hin as [<-|[]].
  split; [left; reflexivity|]. split; [|exact Hs].
  destruct Hw as [[Hf _]|[[Hf _]|[_ Hw]]];
    [vm_compute in Hf; discriminate Hf|vm_compute in Hf; discriminate Hf|exact Hw].
Defined.

(** ** Barcodes of the command-line loader *)

Lemma replace_without_first (c : ascii) (old new s : string) :
  PyStr.contains_char c s = false ->
  PyStr.replace (String c old) new s = s.
Proof.
  unfold PyStr.replace. induction s as [|x s IH]; [reflexivity|].
  cbn [PyStr.contains_char PyStr.replace_from String.prefix].
  rewrite orb_false_iff. intros [Hx Hs].
  destruct (Ascii.ascii_dec c x) as [->|Hne].
  - rewrite Ascii.eqb_refl in Hx. discriminate Hx.
  - rewrite (IH Hs). reflexivity.
Qed.

Lemma digit_is_not_dot (x : ascii) :
  PyStr.isdigit x = true -> Ascii.eqb "."%char x = false.
Proof.
  intro H.
  assert (T : forallb (fun x => implb (PyStr.isdigit x)
                                  (negb (Ascii.eqb "."%char x)))
                (map ascii_of_nat (seq 0 256)) = true)
    by (vm_compute; reflexivity).
  pose proof (forall_ascii _ T x) as F. cbv beta in F.
  rewrite H in F. cbn [implb] in F.
  apply negb_true_iff in F. exact F.
Qed.

Lemma digits_have_no_dot (s : string) :
  PyStr.all_chars PyStr.isdigit s = true -> PyStr.contains_char "." s = false.
Proof.
  induction s as [|x s IH]; [reflexivity|].
  cbn [PyStr.all_chars PyStr.contains_char]. rewrite andb_true_iff.
  intros [Hx Hs]. rewrite (digit_is_not_dot x Hx), (IH Hs). reflexivity.
Qed.

Lemma prefix_empty (s : string) : String.prefix EmptyString s = true.
Proof. destruct s; reflexivity. Qed.

Lemma replace_dot_zero_inside (a b : string) :
  PyStr.all_chars PyStr.isdigit a = true ->
  PyStr.contains_char "." b = false ->
  PyStr.replace ".0" "" (a ++ ".0" ++ b) = (a ++ b)%string.
Proof.
  intros Ha Hb. unfold PyStr.replace.
  change (".0" ++ b)%string with (String "." (String "0" b)).
  induction a as [|x a IH].
  - cbn [append PyStr.replace_from String.prefix].
    destruct (ascii_dec "." "."); [|congruence].
    destruct (ascii_dec "0" "0"); [|congruence].
    rewrite prefix_empty. cbn [String.length Nat.sub append].
    exact (replace_without_first "." "0" "" b Hb).
  - cbn [PyStr.all_chars] in Ha. apply andb_true_iff in Ha.
    destruct Ha as [Hx Ha].
    cbn [append PyStr.replace_from String.prefix].
    destruct (ascii_dec "." x) as [<-|_]; [discriminate Hx|].
    rewrite (IH Ha). reflexivity.
Qed.

(** X7.  The barcode cleaning of the command-line loader leaves a barcode
    without a dot as it is, and takes [.0] out wherever it stands between
    digits, not only at the end: digits, [.0] and more text without a dot
    become the digits and that text.  An empty cell becomes the text
    [nan]. *)
Theorem barcode_cleaning (a b : string) :
  (PyStr.contains_char "." b = false -> clean_barcode (Str b) = Str b)
  /\ (PyStr.all_chars PyStr.isdigit a = true ->
      PyStr.contains_char "." b = false ->
      clean_barcode (Str (a ++ ".0" ++ b)) = Str (a ++ b))
  /\ (PyStr.all_chars PyStr.isdigit a = true ->
      clean_barcode (Str (a ++ ".0")) = Str a)
  /\ clean_barcode NaN = Str "nan".
Proof.
  repeat split.
  - intro H. cbn [clean_barcode]. f_equal.
    exact (replace_without_first "." "0" "" b H).
  - intros Ha Hb. cbn [clean_barcode]. f_equal.
    apply replace_dot_zero_inside; assumption.
  - intro Ha. cbn [clean_barcode]. f_equal.
    pose proof (replace_dot_zero_inside a "" Ha eq_refl) as E.
    rewrite (append_empty a) in E. exact E.
Qed.

Lemma barcode_cleaning_witness :
  clean_barcode (Str "602455123456.0") = Str "602455123456"
  /\ clean_barcode (Str "10.05") = Str "105".
Proof.
  split.
  - exact (proj1 (proj2 (proj2 (barcode_cleaning "602455123456" ""))) eq_refl).
  - exact (proj1 (proj2 (barcode_cleaning "10" "5")) eq_refl eq_refl).
Defined.

Lemma classify_clean_barcode (target : date) (row : alliance_row) :
  classify target (clean_barcode_row row) (avail_date_of (clean_barcode_row row))
  = classify target row (avail_date_of row).
Proof. reflexivity. Qed.

Lemma row_output_clean_barcode (self : PreorderTransformer)
  (target : datetime) (row : alliance_row) :
  row_output self target (clean_barcode_row row)
  = map (fun r => with_barcode r (safe_get (clean_barcode (Barcode row))))
      (row_output self target row).
Proof.
  unfold row_output.
  pose proof (process_row_stage self target counters_init row) as P.
  pose proof (process_row_stage self target counters_init (clean_barcode_row row)) as P'.
  rewrite classify_clean_barcode in P'.
  destruct (classify (date_of target) row (avail_date_of row));
    cbv zeta in P, P'; rewrite P, P'; clear P P'; try reflexivity.
  change (MSRP (clean_barcode_row row)) with (MSRP row).
  destruct (not_cost _); [reflexivity|].
  destruct (calculate_pricing self (MSRP row)) as [[[c a] k]|]; reflexivity.
Qed.

(** X8.  For the product file the barcode cleaning of the command-line
    loader changes the barcode column and nothing else: the rows made of
    the cleaned records are the rows made of the records as read, each
    with the cleaned barcode of its record, so a record without barcode
    is written with the barcode [nan]. *)
Theorem cleaning_changes_the_barcode_only (self : PreorderTransformer)
  (target : datetime) (rows : list alliance_row) :
  transform_to_shopify self (map clean_barcode_row rows) target
  = flat_map
      (fun row =>
         map (fun r => with_barcode r (safe_get (clean_barcode (Barcode row))))
           (transform_to_shopify self [row] target))
      rows
  /\ forall row r,
       Barcode row = NaN ->
       In r (transform_to_shopify self [clean_barcode_row row] target) ->
       Variant_Barcode r = "nan".
Proof.
  split.
  - rewrite transform_is_flat_map, flat_map_concat_map, map_map,
      <- flat_map_concat_map.
    apply flat_map_ext. intro row.
    rewrite row_output_single. apply row_output_clean_barcode.
  - intros row r Hb Hin.
    rewrite row_output_single, row_output_clean_barcode, Hb in Hin.
    apply in_map_iff in Hin. destruct Hin as (r0 & <- & _). reflexivity.
Qed.

Lemma cleaning_changes_the_barcode_only_witness :
  exists r,
    In r (transform_to_shopify PreorderTransformer_init
            [clean_barcode_row sample_row_without_barcode] sample_target)
    /\ Variant_Barcode r = "nan".
Proof.
  destruct (transform_to_shopify PreorderTransformer_init
              [clean_barcode_row sample_row_without_barcode] sample_target)
    as [|r rest] eqn:E; [vm_compute in E; discriminate E|].
  exists r. split; [left; reflexivity|].
  apply (proj2 (cleaning_changes_the_barcode_only PreorderTransformer_init
                  sample_target []) sample_row_without_barcode r eq_refl).
  rewrite E. left. reflexivity.
Defined.

(** ** The entry of the archive *)

Section ArchiveFacts.

Variable file_size : string -> nat.

Lemma find_target_text (file_list : list string) (filename : string)
  (target_file : option string) (largest_size : nat) :
  find is_text_file file_list = Some filename ->
  find_target file_size file_list target_file largest_size = Some filename.
Proof.
  revert target_file largest_size.
  induction file_list as [|x l IH]; intros t L; [discriminate|].
  cbn [find find_target]. unfold is_text_file at 1.
  destruct (endswith "/" x); cbn [negb andb]; [apply IH|].
  destruct (endswith ".txt" (PyStr.lower x)); [trivial|].
  intro H. destruct (L <? file_size x); apply IH, H.
Qed.

Lemma find_target_largest (file_list : list string)
  (target_file : option string) (largest_size : nat) :
  find is_text_file file_list = None ->
  (find_target file_size file_list target_file largest_size = target_file
   /\ forall n, In n file_list -> endswith "/" n = false ->
                file_size n <= largest_size)
  \/ (exists before filename after,
         file_list = before ++ filename :: after
         /\ find_target file_size file_list target_file largest_size
            = Some filename
         /\ endswith "/" filename = false
         /\ largest_size < file_size filename
         /\ (forall n, In n before -> endswith "/" n = false ->
                       file_size n < file_size filename)
         /\ (forall n, In n after -> endswith "/" n = false ->
                       file_size n <= file_size filename)).
Proof.
  revert target_file largest_size.
  induction file_list as [|x l IH]; intros t L.
  - intros _. left. split; [reflexivity|]. intros n [].
  - cbn [find find_target]. unfold is_text_file at 1.
    destruct (endswith "/" x) eqn:Ed; cbn [negb andb].
    + intro H. destruct (IH t L H) as [[E A]|(b & n & a & El & E & Hn & HL & Hb & Ha)].
      * left. split; [exact E|]. intros n [<-|Hin] Hf; [congruence|auto].
      * right. exists (x :: b), n, a. subst l. repeat split; auto.
        intros n' [<-|Hin] Hf; [congruence|auto].
    + destruct (endswith ".txt" (PyStr.lower x)); [discriminate|].
      intro H. destruct (L <? file_size x) eqn:Es.
      * apply Nat.ltb_lt in Es.
        destruct (IH (Some x) (file_size x) H)
          as [[E A]|(b & n & a & El & E & Hn & HL & Hb & Ha)].
        -- right. exists [], x, l. repeat split; auto. intros n [].
        -- right. exists (x :: b), n, a. subst l.
           repeat split; auto; [lia|].
           intros n' [<-|Hin] Hf; [lia|auto].
      * apply Nat.ltb_ge in Es.
        destruct (IH t L H) as [[E A]|(b & n & a & El & E & Hn & HL & Hb & Ha)].
        -- left. split; [exact E|]. intros n [<-|Hin] Hf; [lia|auto].
        -- right. exists (x :: b), n, a. subst l. repeat split; auto.
           intros n' [<-|Hin] Hf; [lia|auto].
Qed.

End ArchiveFacts.

(** X9.  When the archive has a file whose name ends in [.txt], in any
    case, the first such file is the one that is read, whatever the sizes
    of the entries. *)
Theorem archive_text_file_first (file_size : string -> nat)
  (file_list : list string) (filename : string) :
  find is_text_file file_list = Some filename ->
  select_target file_size file_list = Some filename.
Proof. apply find_target_text. Qed.

Lemma archive_text_file_first_witness :
  select_target String.length ["data/"; "readme.md"; "Catalog.TXT"; "b.txt"]
  = Some "Catalog.TXT".
Proof.
  apply (archive_text_file_first String.length
           ["data/"; "readme.md"; "Catalog.TXT"; "b.txt"] "Catalog.TXT").
  vm_compute. reflexivity.
Defined.

(** X10.  When no file of the archive ends in [.txt], the file read is
    the first of the largest files, directories left aside, and it is not
    empty; when every file is empty, or the archive holds directories
    only, no file is chosen. *)
Theorem archive_largest_file (file_size : string -> nat)
  (file_list : list string) :
  find is_text_file file_list = None ->
  (select_target file_size file_list = None
   /\ forall n, In n file_list -> endswith "/" n = false -> file_size n = 0)
  \/ (exists before filename after,
         file_list = before ++ filename :: after
         /\ select_target file_size file_list = Some filename
         /\ endswith "/" filename = false
         /\ 0 < file_size filename
         /\ (forall n, In n before -> endswith "/" n = false ->
                       file_size n < file_size filename)
         /\ (forall n, In n after -> endswith "/" n = false ->
                       file_size n <= file_size filename)).
Proof.
  intro H. unfold select_target.
  destruct (find_target_largest file_size file_list None 0 H)
    as [[E A]|R]; [left|right; exact R].
  split; [exact E|]. intros n Hin Hf. specialize (A n Hin Hf). lia.
Qed.

Lemma archive_largest_file_witness :
  select_target (fun _ => 0) ["data/"; "empty.csv"] = None.
Proof.
  destruct (archive_largest_file (fun _ => 0) ["data/"; "empty.csv"] eq_refl)
    as [[E _]|(b & n & a & _ & _ & _ & H & _)]; [exact E|].
  exfalso. exact (Nat.lt_irrefl 0 H).
Defined.

(** ** What the parsers of dates return *)

Lemma strptime_valid (s fmt : string) (dt : datetime) :
  strptime s fmt = Ok dt -> valid_datetime dt = true.
Proof.
  unfold strptime, strptime_items.
  destruct (has_bad _); [intro H; discriminate H|].
  destruct (match_items _ _ _) as [|[dt' rest] l]; [intro H; discriminate H|].
  destruct (PyStr.is_empty rest); [|intro H; discriminate H].
  destruct (valid_datetime dt') eqn:E; intro H; [|discriminate H].
  inversion H. subst dt'. exact E.
Qed.

Lemma try_formats_some (s : string) (fmts : list string) (dt : datetime) :
  try_formats s fmts = Ok (Some dt) ->
  exists fmt, In fmt fmts /\ strptime s fmt = Ok dt.
Proof.
  induction fmts as [|fmt rest IH]; cbn [try_formats]; [intro H; discriminate H|].
  destruct (strptime s fmt) as [dt'|e] eqn:E.
  - intro H. inversion H. subst dt'. exists fmt. split; [left; reflexivity|exact E].
  - destruct e; [|intro H; discriminate H].
    intro H. destruct (IH H) as (f & Hin & Hf). exists f. split; [right|]; assumption.
Qed.

Lemma strip_twice (s : string) : PyStr.strip (PyStr.strip s) = PyStr.strip s.
Proof.
  apply strip_idle; unfold PyStr.strip, PyStr.strip_by.
  - apply rstrip_start, lstrip_start.
  - apply rstrip_end.
Qed.

(** X11.  A date [parse_avail_date] returns is one the calendar has: the
    month is 1 to 12, the day exists in that month of that year, the time
    is at most 23:59:59.  White space around the text does not count: the
    text and the trimmed text are read alike. *)
Theorem parse_avail_date_result (c : cell) (s : string) :
  (forall dt, parse_avail_date c = Ok (Some dt) -> valid_datetime dt = true)
  /\ parse_avail_date (Str s) = parse_avail_date (Str (PyStr.strip s)).
Proof.
  split.
  - intros dt. destruct c as [t| |]; try (intro H; discriminate H).
    unfold parse_avail_date.
    destruct (PyStr.is_empty t); [intro H; discriminate H|].
    destruct (PyStr.is_empty (PyStr.strip t) || _)%bool; [intro H; discriminate H|].
    intro H. apply try_formats_some in H. destruct H as (fmt & _ & H).
    exact (strptime_valid _ _ _ H).
  - unfold parse_avail_date. rewrite strip_twice.
    destruct (PyStr.is_empty s) eqn:E.
    + apply is_empty_true in E. subst s. reflexivity.
    + destruct (PyStr.is_empty (PyStr.strip s)); reflexivity.
Qed.

Lemma parse_avail_date_result_witness :
  valid_datetime (mkdatetime 2024 2 29 0 0 0) = true
  /\ parse_avail_date (Str "2025-02-30") = Ok None.
Proof.
  split.
  - apply (proj1 (parse_avail_date_result (Str " 02/29/2024 ") EmptyString)).
    vm_compute. reflexivity.
  - vm_compute. reflexivity.
Defined.

(** *** The target date of the command line *)










(** X13.  For a date with a four-digit year and each of the five formats
    of the command line, [parse_target_date] reads the text [strftime]
    writes as that calendar date at midnight; for [%m/%d/%y] this holds
    for the years 1969 to 2068. *)
Theorem target_date_round_trip (dt : datetime) (fmt : string) :
  valid_datetime dt = true ->
  1000 <= year dt ->
  In fmt target_date_formats ->
  (fmt = "%m/%d/%y" -> 1969 <= year dt <= 2068) ->
  parse_target_date (strftime dt fmt) = Ok (Some (at_midnight (date_of dt))).
Proof.
  intros Hv Hy Hin Hw. destruct dt as [y m d H M S].
  apply valid_datetime_range in Hv. cbn [year] in Hy, Hw.
  unfold parse_target_date.
  assert (He : PyStr.is_empty (strftime (mkdatetime y m d H M S) fmt) = false).
  { cbn [target_date_formats In] in Hin.
    destruct Hin as [<-|[<-|[<-|[<-|[<-|[]]]]]];
      expose; unfold pad2, pad4; reflexivity. }
  rewrite He. clear He.
  cbn [target_date_formats In] in Hin.
  cbn [target_date_formats try_target_formats].
  unfold at_midnight, date_of. cbn [year month day date_year date_month date_day].
  destruct Hin as [<-|[<-|[<-|[<-|[<-|[]]]]]].
  - rewrite own_2 by assumption. reflexivity.
  - rewrite mdy_refused_2, own_4 by assumption. reflexivity.
  - rewrite mdy_dash_refused_2, mdy_dash_refused_4, own_5 by assumption.
    reflexivity.
  - rewrite compact_refused_2, compact_refused_4, compact_refused_5, own_6
      by assumption.
    reflexivity.
  - rewrite short_refused_2, short_refused_4, short_refused_5,
      short_refused_6 by assumption.
    rewrite own_7; [|assumption|assumption|exact (Hw eq_refl)].
    reflexivity.
Qed.

Lemma target_date_round_trip_witness :
  parse_target_date (strftime (mkdatetime 2025 9 19 17 30 0) "%Y%m%d")
  = Ok (Some (mkdatetime 2025 9 19 0 0 0)).
Proof.
  apply (target_date_round_trip (mkdatetime 2025 9 19 17 30 0) "%Y%m%d").
  - vm_compute. reflexivity.
  - simpl. lia.
  - simpl. right. right. right. left. reflexivity.
  - intro E. discriminate E.
Defined.

(** ** The calendar and the release Fridays *)

Lemma max_ordinal_is_the_last_day :
  toordinal (mkdate (N.to_nat 9999) 12 31) = max_ordinal.
Proof. vm_compute. reflexivity. Qed.

Lemma is_leap_Z (y : nat) :
  is_leap y
  = (((Z.of_nat y mod 4 =? 0)%Z && negb (Z.of_nat y mod 100 =? 0)%Z)
     || (Z.of_nat y mod 400 =? 0)%Z)%bool.
Proof.
  assert (E : forall a, (a =? 0) = (Z.of_nat a =? 0)%Z)
    by (intro a; destruct a; reflexivity).
  unfold is_leap. rewrite !E, !Nat2Z.inj_mod. reflexivity.
Qed.

Lemma days_before_year_succ (y : nat) :
  days_before_year (S y)
  = (days_before_year y + 365 + (if is_leap y then 1 else 0))%Z.
Proof.
  rewrite is_leap_Z. unfold days_before_year. cbv zeta.
  rewrite Nat2Z.inj_succ.
  replace (Z.succ (Z.of_nat y) - 1)%Z with (Z.of_nat y) by lia.
  pose proof (Nat2Z.is_nonneg y) as Hy.
  generalize dependent (Z.of_nat y). intros z Hz.
  destruct (z mod 4 =? 0)%Z eqn:E4; destruct (z mod 100 =? 0)%Z eqn:E100;
    destruct (z mod 400 =? 0)%Z eqn:E400; cbn [andb orb negb];
    rewrite ?Z.eqb_eq, ?Z.eqb_neq in *;
    Z.to_euclidean_division_equations; lia.
Qed.

Lemma days_before_year_mono (a b : nat) :
  a <= b -> (days_before_year a <= days_before_year b)%Z.
Proof.
  induction 1 as [|b _ IH]; [lia|].
  rewrite days_before_year_succ. destruct (is_leap b); lia.
Qed.

Lemma days_before_month_succ (y m : nat) :
  1 <= m <= 11 ->
  days_before_month y (S m)
  = (days_before_month y m + Z.of_nat (days_in_month y m))%Z.
Proof.
  intro H. unfold days_before_month, days_in_month.
  enum m; cbn; destruct (is_leap y); reflexivity.
Qed.

Lemma days_before_month_mono (y m m' : nat) :
  1 <= m -> m <= m' -> m' <= 12 ->
  (days_before_month y m <= days_before_month y m')%Z.
Proof.
  intros H1 H. induction H as [|m' H IH]; intro H2; [lia|].
  rewrite days_before_month_succ by lia. lia.
Qed.

Lemma days_before_month_end (y : nat) :
  (days_before_month y 12 + 31 = 365 + (if is_leap y then 1 else 0))%Z.
Proof. unfold days_before_month. cbn. destruct (is_leap y); reflexivity. Qed.

Lemma days_in_month_pos (y m : nat) : 28 <= days_in_month y m.
Proof.
  unfold days_in_month.
  do 12 (destruct m as [|m]; [try lia; destruct (is_leap y); lia|]). lia.
Qed.

Lemma valid_date_range (d : date) :
  valid_date d = true <->
  1 <= date_year d /\ (N.of_nat (date_year d) <= 9999)%N
  /\ 1 <= date_month d <= 12
  /\ 1 <= date_day d <= days_in_month (date_year d) (date_month d).
Proof.
  unfold valid_date. rewrite valid_datetime_range. destruct d as [y m d].
  split.
  - intros [H1 H2 H3 H4 _ _ _]. cbn in *. auto.
  - intros (H1 & H2 & H3 & H4). constructor; cbn; auto; lia.
Qed.

Lemma valid_date_of (dt : datetime) :
  valid_datetime dt = true -> valid_date (date_of dt) = true.
Proof.
  intro H. apply valid_datetime_range in H. destruct H as [H1 H2 H3 H4 _ _ _].
  apply valid_date_range. destruct dt. cbn in *. auto.
Qed.

Lemma toordinal_in_year (d : date) :
  valid_date d = true ->
  (days_before_year (date_year d) + days_before_month (date_year d) (date_month d)
   < toordinal d
   <= days_before_year (date_year d)
      + days_before_month (date_year d) (date_month d)
      + Z.of_nat (days_in_month (date_year d) (date_month d)))%Z.
Proof.
  intro H. apply valid_date_range in H. destruct H as (_ & _ & _ & H).
  unfold toordinal. lia.
Qed.

Lemma toordinal_year_end (d : date) :
  valid_date d = true ->
  (days_before_year (date_year d) < toordinal d
   <= days_before_year (S (date_year d)))%Z.
Proof.
  intro H. pose proof (toordinal_in_year d H) as Ho.
  apply valid_date_range in H. destruct H as (_ & _ & Hm & _).
  rewrite days_before_year_succ.
  pose proof (days_before_month_end (date_year d)) as He.
  assert (H0 : (0 <= days_before_month (date_year d) (date_month d))%Z).
  { change 0%Z with (days_before_month_table 1 + 0)%Z.
    pose proof (days_before_month_mono (date_year d) 1 (date_month d)) as M.
    unfold days_before_month at 1 in M. cbn in M. cbn. lia. }
  assert (H1 : (days_before_month (date_year d) (date_month d)
                + Z.of_nat (days_in_month (date_year d) (date_month d))
                <= days_before_month (date_year d) 12 + 31)%Z).
  { destruct (Nat.eq_dec (date_month d) 12) as [E|E].
    - rewrite E. cbn [days_in_month]. lia.
    - rewrite <- days_before_month_succ by lia.
      pose proof (days_before_month_mono (date_year d) (S (date_month d)) 12).
      lia. }
  lia.
Qed.

Lemma tomorrow_ordinal (d d' : date) :
  valid_date d = true -> tomorrow d = Some d' ->
  toordinal d' = (toordinal d + 1)%Z /\ valid_date d' = true.
Proof.
  intros Hv. pose proof Hv as Hr. apply valid_date_range in Hr.
  destruct d as [y m dd]. cbn [date_year date_month date_day] in Hr.
  destruct Hr as (Hy & Hy' & Hm & Hd).
  unfold tomorrow. cbn [date_year date_month date_day].
  destruct (dd <? days_in_month y m) eqn:E1.
  - apply Nat.ltb_lt in E1. intro H. inversion H. subst d'. split.
    + unfold toordinal. cbn [date_year date_month date_day]. lia.
    + apply valid_date_range. cbn. lia.
  - apply Nat.ltb_ge in E1. destruct (m <? 12) eqn:E2.
    + apply Nat.ltb_lt in E2. intro H. inversion H. subst d'. split.
      * unfold toordinal. cbn [date_year date_month date_day].
        rewrite days_before_month_succ by lia. lia.
      * apply valid_date_range. cbn [date_year date_month date_day].
        pose proof (days_in_month_pos y (S m)). lia.
    + apply Nat.ltb_ge in E2. destruct (N.of_nat y <? 9999)%N eqn:E3;
        [|intro H; discriminate H].
      apply N.ltb_lt in E3. intro H. inversion H. subst d'.
      assert (m = 12) by lia. subst m.
      assert (dd = 31) by (cbn [days_in_month] in *; lia). subst dd. split.
      * unfold toordinal. cbn [date_year date_month date_day].
        rewrite days_before_year_succ.
        pose proof (days_before_month_end y).
        change (days_before_month (S y) 1) with 0%Z. lia.
      * apply valid_date_range. cbn [date_year date_month date_day days_in_month].
        lia.
Qed.

Lemma toordinal_max (d : date) :
  valid_date d = true -> (toordinal d <= max_ordinal)%Z.
Proof.
  intro H. pose proof (toordinal_year_end d H) as [_ Ho].
  apply valid_date_range in H. destruct H as (_ & Hy & _).
  assert (E : days_before_year (S (date_year d)) = 
              let y := Z.of_nat (date_year d) in (y * 365 + y / 4 - y / 100 + y / 400)%Z).
  { unfold days_before_year. cbv zeta. rewrite Nat2Z.inj_succ.
    replace (Z.succ (Z.of_nat (date_year d)) - 1)%Z with (Z.of_nat (date_year d)) by lia.
    reflexivity. }
  rewrite E in Ho. cbv zeta in Ho. unfold max_ordinal.
  assert (Hz : (0 <= Z.of_nat (date_year d) <= 9999)%Z) by lia.
  generalize dependent (Z.of_nat (date_year d)). intros z Ho Hz.
  Z.to_euclidean_division_equations. lia.
Qed.

Lemma tomorrow_some (d : date) :
  valid_date d = true -> (toordinal d < max_ordinal)%Z ->
  exists d', tomorrow d = Some d'.
Proof.
  intros Hv Ho. destruct (tomorrow d) as [d'|] eqn:E; [exists d'; reflexivity|].
  exfalso. pose proof Hv as Hr. apply valid_date_range in Hr.
  destruct d as [y m dd]. cbn [date_year date_month date_day] in Hr.
  destruct Hr as (Hy & Hy' & Hm & Hd).
  unfold tomorrow in E. cbn [date_year date_month date_day] in E.
  destruct (dd <? days_in_month y m) eqn:E1; [discriminate E|].
  destruct (m <? 12) eqn:E2; [discriminate E|].
  destruct (N.of_nat y <? 9999)%N eqn:E3; [discriminate E|].
  apply Nat.ltb_ge in E1. apply Nat.ltb_ge in E2. apply N.ltb_ge in E3.
  assert (m = 12) by lia. subst m.
  assert (dd = 31) by (cbn [days_in_month] in *; lia). subst dd.
  unfold toordinal in Ho. cbn [date_year date_month date_day] in Ho.
  pose proof (days_before_month_end y) as He.
  pose proof (days_before_year_succ y) as Hs.
  assert (Ez : Z.of_nat y = 9999%Z) by lia.
  assert (El : days_before_year (S y) = max_ordinal).
  { unfold days_before_year. cbv zeta. rewrite Nat2Z.inj_succ, Ez. reflexivity. }
  lia.
Qed.

Lemma add_days_spec (n : nat) (d d' : date) :
  valid_date d = true -> add_days n d = Some d' ->
  toordinal d' = (toordinal d + Z.of_nat n)%Z /\ valid_date d' = true.
Proof.
  revert d. induction n as [|n IH]; intros d Hv; cbn [add_days].
  - intro H. inversion H. subst d'. split; [lia|exact Hv].
  - destruct (tomorrow d) as [d1|] eqn:E; [|intro H; discriminate H].
    destruct (tomorrow_ordinal d d1 Hv E) as [Ho Hv1].
    intro H. destruct (IH d1 Hv1 H) as [Ho' Hv']. split; [lia|exact Hv'].
Qed.

Lemma add_days_some (n : nat) (d : date) :
  valid_date d = true -> (toordinal d + Z.of_nat n <= max_ordinal)%Z ->
  exists d', add_days n d = Some d'.
Proof.
  revert d. induction n as [|n IH]; intros d Hv Ho; cbn [add_days].
  - exists d. reflexivity.
  - destruct (tomorrow_some d Hv) as [d1 E]; [lia|]. rewrite E.
    destruct (tomorrow_ordinal d d1 Hv E) as [Ho1 Hv1].
    apply IH; [exact Hv1|lia].
Qed.

Lemma add_days_none (n : nat) (d : date) :
  valid_date d = true -> (max_ordinal < toordinal d + Z.of_nat n)%Z ->
  add_days n d = None.
Proof.
  intros Hv Ho. destruct (add_days n d) as [d'|] eqn:E; [|reflexivity].
  destruct (add_days_spec n d d' Hv E) as [Ho' Hv'].
  pose proof (toordinal_max d' Hv'). lia.
Qed.

Ltac to_props :=
  repeat first
    [ rewrite orb_true_iff | rewrite andb_true_iff | rewrite orb_false_iff
    | rewrite andb_false_iff | rewrite Nat.ltb_lt | rewrite Nat.ltb_ge
    | rewrite Nat.eqb_eq | rewrite Nat.eqb_neq ].

Lemma date_ltb_lt (a b : date) :
  valid_date a = true -> valid_date b = true ->
  date_ltb a b = true -> (toordinal a < toordinal b)%Z.
Proof.
  intros Ha Hb.
  pose proof (toordinal_year_end a Ha) as Ya.
  pose proof (toordinal_year_end b Hb) as Yb.
  pose proof (toordinal_in_year a Ha) as Ma.
  pose proof (toordinal_in_year b Hb) as Mb.
  apply valid_date_range in Ha. apply valid_date_range in Hb.
  unfold date_ltb. to_props.
  intros [H|[Ey [H|[Em H]]]].
  - pose proof (days_before_year_mono (S (date_year a)) (date_year b)). lia.
  - rewrite Ey in *.
    destruct (Nat.eq_dec (date_month a) 12) as [E|E]; [lia|].
    pose proof (days_before_month_succ (date_year b) (date_month a)).
    pose proof (days_before_month_mono (date_year b) (S (date_month a))
                  (date_month b)).
    lia.
  - unfold toordinal. rewrite Ey, Em. lia.
Qed.

Lemma date_ltb_total (a b : date) :
  date_ltb a b = false -> a = b \/ date_ltb b a = true.
Proof.
  destruct a as [y m d], b as [y' m' d']. unfold date_ltb.
  cbn [date_year date_month date_day].
  to_props. intro H.
  destruct (Nat.eq_dec y y') as [->|Ny]; [|right; lia].
  destruct (Nat.eq_dec m m') as [->|Nm]; [|right; lia].
  destruct (Nat.eq_dec d d') as [->|Nd]; [left; reflexivity|right; lia].
Qed.

Lemma date_ltb_ordinal (a b : date) :
  valid_date a = true -> valid_date b = true ->
  date_ltb a b = (toordinal a <? toordinal b)%Z.
Proof.
  intros Ha Hb. destruct (date_ltb a b) eqn:E; symmetry.
  - apply Z.ltb_lt. apply date_ltb_lt; assumption.
  - apply Z.ltb_ge. destruct (date_ltb_total a b E) as [->|H]; [lia|].
    pose proof (date_ltb_lt b a Hb Ha H). lia.
Qed.

Lemma date_leb_ordinal (a b : date) :
  valid_date a = true -> valid_date b = true ->
  date_leb a b = (toordinal a <=? toordinal b)%Z.
Proof.
  intros Ha Hb. unfold date_leb. rewrite date_ltb_ordinal by assumption.
  rewrite Z.leb_antisym. reflexivity.
Qed.

Lemma toordinal_inj (a b : date) :
  valid_date a = true -> valid_date b = true ->
  toordinal a = toordinal b -> a = b.
Proof.
  intros Ha Hb E.
  destruct (date_ltb a b) eqn:L.
  - pose proof (date_ltb_lt a b Ha Hb L). lia.
  - destruct (date_ltb_total a b L) as [H|H]; [exact H|].
    pose proof (date_ltb_lt b a Hb Ha H). lia.
Qed.

Lemma weekday_lt (d : date) : weekday d < 7.
Proof.
  unfold weekday. pose proof (Z.mod_pos_bound (toordinal d + 6) 7). lia.
Qed.

Lemma weekday_shift (d d' : date) (n : nat) :
  toordinal d' = (toordinal d + Z.of_nat n)%Z ->
  weekday d' = (weekday d + n) mod 7.
Proof.
  intro H. unfold weekday. rewrite H.
  apply Nat2Z.inj. rewrite Nat2Z.inj_mod, Nat2Z.inj_add.
  pose proof (Z.mod_pos_bound (toordinal d + 6) 7).
  pose proof (Z.mod_pos_bound (toordinal d + Z.of_nat n + 6) 7).
  rewrite !Z2Nat.id by lia.
  rewrite Zplus_mod_idemp_l. f_equal. lia.
Qed.

Lemma days_until_friday_range (today : datetime) :
  1 <= days_until_friday today <= 7
  /\ (weekday (date_of today) + days_until_friday today) mod 7 = 4.
Proof.
  unfold days_until_friday. pose proof (weekday_lt (date_of today)) as H.
  generalize dependent (weekday (date_of today)). intros w H.
  enum w; vm_compute; repeat split; lia.
Qed.

Lemma datetime_add_days_spec (n : nat) (dt : datetime) :
  valid_datetime dt = true ->
  (toordinal (date_of dt) + Z.of_nat n <= max_ordinal)%Z ->
  exists dt', datetime_add_days n dt = Some dt'
    /\ toordinal (date_of dt') = (toordinal (date_of dt) + Z.of_nat n)%Z
    /\ valid_datetime dt' = true
    /\ hour dt' = hour dt /\ minute dt' = minute dt /\ second dt' = second dt.
Proof.
  intros Hv Ho. pose proof (valid_date_of dt Hv) as Hd.
  destruct (add_days_some n (date_of dt) Hd Ho) as [d E].
  destruct (add_days_spec n (date_of dt) d Hd E) as [Eo Hv'].
  unfold datetime_add_days. rewrite E. eexists. split; [reflexivity|].
  destruct d as [y m dd]. cbn [date_year date_month date_day date_of year month day
                                hour minute second].
  split; [exact Eo|]. split; [|repeat split].
  apply valid_datetime_range in Hv. destruct Hv as [_ _ _ _ H5 H6 H7].
  apply valid_date_range in Hv'. cbn [date_year date_month date_day] in Hv'.
  apply valid_datetime_range. constructor; cbn; tauto.
Qed.

Lemma datetime_add_days_none (n : nat) (dt : datetime) :
  valid_datetime dt = true ->
  (max_ordinal < toordinal (date_of dt) + Z.of_nat n)%Z ->
  datetime_add_days n dt = None.
Proof.
  intros Hv Ho. unfold datetime_add_days.
  rewrite (add_days_none n (date_of dt) (valid_date_of dt Hv) Ho). reflexivity.
Qed.

Lemma next_friday_spec (today : datetime) :
  valid_datetime today = true ->
  (toordinal (date_of today) + 7 <= max_ordinal)%Z ->
  exists next_friday,
    datetime_add_days (days_until_friday today) today = Some next_friday
    /\ valid_datetime next_friday = true
    /\ weekday (date_of next_friday) = 4
    /\ (1 <= toordinal (date_of next_friday) - toordinal (date_of today) <= 7)%Z
    /\ hour next_friday = hour today /\ minute next_friday = minute today
    /\ second next_friday = second today.
Proof.
  intros Hv Ho. destruct (days_until_friday_range today) as [Hr Hw].
  destruct (datetime_add_days_spec (days_until_friday today) today Hv)
    as (f & E & Eo & Hf & Ht); [lia|].
  exists f. split; [exact E|]. split; [exact Hf|].
  split; [rewrite (weekday_shift _ _ _ Eo); exact Hw|].
  split; [lia|exact Ht].
Qed.

Lemma later_friday_spec (next_friday : datetime) (weeks : nat) :
  valid_datetime next_friday = true ->
  weekday (date_of next_friday) = 4 ->
  (toordinal (date_of next_friday) + Z.of_nat (weeks * 7) <= max_ordinal)%Z ->
  exists friday,
    datetime_add_days (weeks * 7) next_friday = Some friday
    /\ valid_datetime friday = true
    /\ weekday (date_of friday) = 4
    /\ toordinal (date_of friday)
       = (toordinal (date_of next_friday) + 7 * Z.of_nat weeks)%Z
    /\ hour friday = hour next_friday /\ minute friday = minute next_friday
    /\ second friday = second next_friday.
Proof.
  intros Hv Hw Ho.
  destruct (datetime_add_days_spec (weeks * 7) next_friday Hv Ho)
    as (f & E & Eo & Hf & Ht).
  exists f. split; [exact E|]. split; [exact Hf|].
  split.
  - rewrite (weekday_shift _ _ _ Eo), Hw.
    rewrite Nat.Div0.add_mod, Nat.Div0.mod_mul, Nat.add_0_r.
    reflexivity.
  - split; [lia|exact Ht].
Qed.

(** X14.  On a day up to 3 December 9999 [calculate_default_friday]
    returns a Friday that is 22 to 28 days after today: the fourth Friday
    strictly after today, also when today is a Friday.  From 10 December
    9999 on the addition leaves the calendar and there is no result. *)
Theorem default_friday_is_the_fourth (today : datetime) :
  valid_datetime today = true ->
  ((toordinal (date_of today) + 28 <= max_ordinal)%Z ->
   exists d, calculate_default_friday today = Some d
     /\ valid_date d = true /\ weekday d = 4
     /\ (22 <= toordinal d - toordinal (date_of today) <= 28)%Z)
  /\ ((max_ordinal < toordinal (date_of today) + 22)%Z ->
      calculate_default_friday today = None).
Proof.
  intro Hv. split; intro Ho.
  - destruct (next_friday_spec today Hv) as (f & E & Hf & Hw & Hr & _); [lia|].
    destruct (later_friday_spec f 3 Hf Hw) as (t & Et & Ht & Hwt & Hot & _);
      [cbn; lia|].
    unfold calculate_default_friday. rewrite E, Et.
    exists (date_of t). split; [reflexivity|].
    split; [exact (valid_date_of t Ht)|]. split; [exact Hwt|]. lia.
  - unfold calculate_default_friday.
    destruct (days_until_friday_range today) as [Hr _].
    destruct (datetime_add_days (days_until_friday today) today) as [f|] eqn:E;
      [|reflexivity].
    unfold datetime_add_days in E.
    destruct (add_days (days_until_friday today) (date_of today)) as [d|] eqn:Ed;
      [|discriminate E].
    destruct (add_days_spec _ _ _ (valid_date_of today Hv) Ed) as [Eo Hd].
    inversion E. subst f. clear E.
    rewrite datetime_add_days_none; [reflexivity| |].
    + apply valid_datetime_range in Hv. destruct Hv as [_ _ _ _ H5 H6 H7].
      apply valid_date_range in Hd.
      apply valid_datetime_range. constructor; cbn; tauto.
    + destruct d as [y m dd]. unfold date_of at 1.
      cbn [year month day date_year date_month date_day].
      change (Z.of_nat (3 * 7)) with 21%Z. lia.
Qed.

Lemma default_friday_is_the_fourth_witness :
  (exists d, calculate_default_friday (mkdatetime 2025 8 22 9 30 0) = Some d
     /\ valid_date d = true /\ weekday d = 4
     /\ (22 <= toordinal d - toordinal (mkdate 2025 8 22) <= 28)%Z)
  /\ calculate_default_friday (mkdatetime (N.to_nat 9999) 12 25 0 0 0) = None.
Proof.
  split.
  - apply (proj1 (default_friday_is_the_fourth (mkdatetime 2025 8 22 9 30 0) eq_refl)).
    vm_compute. intro H. discriminate H.
  - apply (proj2 (default_friday_is_the_fourth (mkdatetime (N.to_nat 9999) 12 25 0 0 0) eq_refl)).
    vm_compute. reflexivity.
Defined.

(** X15.  [calculate_next_four_fridays] returns four Fridays, at today's
    time of day: the first is 1 to 7 days after today, each next one is 7
    days later, and the last one is the date [calculate_default_friday]
    of the web application returns. *)
Theorem four_fridays_a_week_apart (today : datetime) :
  valid_datetime today = true ->
  (toordinal (date_of today) + 28 <= max_ordinal)%Z ->
  exists f1 f2 f3 f4,
    calculate_next_four_fridays today = Some [f1; f2; f3; f4]
    /\ Forall (fun f => valid_datetime f = true
                        /\ weekday (date_of f) = 4
                        /\ hour f = hour today /\ minute f = minute today
                        /\ second f = second today) [f1; f2; f3; f4]
    /\ (1 <= toordinal (date_of f1) - toordinal (date_of today) <= 7)%Z
    /\ toordinal (date_of f2) = (toordinal (date_of f1) + 7)%Z
    /\ toordinal (date_of f3) = (toordinal (date_of f2) + 7)%Z
    /\ toordinal (date_of f4) = (toordinal (date_of f3) + 7)%Z
    /\ calculate_default_friday today = Some (date_of f4).
Proof.
  intros Hv Ho.
  destruct (next_friday_spec today Hv) as (f & E & Hf & Hw & Hr & Ht); [lia|].
  destruct (later_friday_spec f 0 Hf Hw) as (f1 & E1 & V1 & W1 & O1 & T1);
    [cbn; lia|].
  destruct (later_friday_spec f 1 Hf Hw) as (f2 & E2 & V2 & W2 & O2 & T2);
    [cbn; lia|].
  destruct (later_friday_spec f 2 Hf Hw) as (f3 & E3 & V3 & W3 & O3 & T3);
    [cbn; lia|].
  destruct (later_friday_spec f 3 Hf Hw) as (f4 & E4 & V4 & W4 & O4 & T4);
    [cbn; lia|].
  exists f1, f2, f3, f4.
  unfold calculate_next_four_fridays, calculate_default_friday. rewrite E.
  cbn [seq weeks_from]. rewrite E1, E2, E3, E4.
  split; [reflexivity|].
  split.
  { repeat constructor; try assumption; intuition congruence. }
  repeat split; try lia.
Qed.

Lemma four_fridays_a_week_apart_witness :
  exists f1 f2 f3 f4,
    calculate_next_four_fridays (mkdatetime 2025 8 22 9 30 0)
    = Some [f1; f2; f3; f4]
    /\ date_of f1 = mkdate 2025 8 29 /\ date_of f4 = mkdate 2025 9 19.
Proof.
  destruct (four_fridays_a_week_apart (mkdatetime 2025 8 22 9 30 0) eq_refl)
    as (f1 & f2 & f3 & f4 & E & _).
  - vm_compute. intro H. discriminate H.
  - exists f1, f2, f3, f4. split; [exact E|].
    vm_compute in E. inversion E. split; reflexivity.
Defined.

Lemma validate_date_spec (selected_date : date) (now : datetime) :
  valid_date selected_date = true ->
  valid_datetime now = true ->
  (toordinal (date_of now) + 90 <= max_ordinal)%Z ->
  exists warnings,
    validate_date selected_date now = Some warnings
    /\ (warnings = [] <->
        weekday selected_date = 4
        /\ (toordinal (date_of now) < toordinal selected_date
            <= toordinal (date_of now) + 90)%Z)
    /\ List.length warnings <= 2.
Proof.
  intros Hd Hn Ho. pose proof (valid_date_of now Hn) as Hv.
  destruct (add_days_some 90 (date_of now) Hv) as [t Et]; [exact Ho|].
  destruct (add_days_spec 90 (date_of now) t Hv Et) as [Eo Ht].
  unfold validate_date. rewrite Et. cbv zeta.
  rewrite (date_leb_ordinal _ _ Hd Hv), (date_ltb_ordinal _ _ Ht Hd), Eo.
  change (Z.of_nat 90) with 90%Z.
  eexists. split; [reflexivity|].
  destruct (Nat.eqb_spec (weekday selected_date) 4) as [Ew|Ew];
    destruct (Z.leb_spec (toordinal selected_date) (toordinal (date_of now)));
    destruct (Z.ltb_spec (toordinal (date_of now) + 90) (toordinal selected_date));
    cbn [negb app List.length]; try (exfalso; lia);
    (split; [split; [intro Hx; first [discriminate Hx|split; [assumption|lia]]
                    |intros [Hx1 Hx2];
                     first [reflexivity|exfalso; first [exact (Ew Hx1)|lia]]]
            |lia]).
Qed.

(** X16.  [validate_date] gives no warning exactly when the date is a
    Friday, later than today and at most 90 days ahead; it never gives
    more than two warnings, as a date is not both in the past and more
    than 90 days ahead. *)
Theorem validate_date_warnings (selected_date : date) (now : datetime) :
  valid_date selected_date = true ->
  valid_datetime now = true ->
  (toordinal (date_of now) + 90 <= max_ordinal)%Z ->
  exists warnings,
    validate_date selected_date now = Some warnings
    /\ (warnings = [] <->
        weekday selected_date = 4
        /\ (toordinal (date_of now) < toordinal selected_date
            <= toordinal (date_of now) + 90)%Z)
    /\ List.length warnings <= 2.
Proof. exact (validate_date_spec selected_date now). Qed.

Lemma validate_date_warnings_witness :
  exists warnings,
    validate_date (mkdate 2025 9 20) (mkdatetime 2025 8 22 9 30 0) = Some warnings
    /\ warnings <> [] /\ List.length warnings <= 2.
Proof.
  destruct (validate_date_warnings (mkdate 2025 9 20)
              (mkdatetime 2025 8 22 9 30 0) eq_refl eq_refl)
    as (ws & E & Hw & Hl).
  - vm_compute. intro H. discriminate H.
  - exists ws. split; [exact E|]. split; [|exact Hl].
    intro H. apply Hw in H. destruct H as [H _]. vm_compute in H. discriminate H.
Defined.

(** X17.  The dates the programs propose pass their own checks: the
    default date of the web application gets no warning from
    [validate_date], and each of the four Fridays of the command line is
    accepted by [validate_target_date] without a question, whatever the
    operator would have typed. *)
Theorem proposed_fridays_are_accepted (now : datetime) (answers : list string) :
  valid_datetime now = true ->
  (toordinal (date_of now) + 90 <= max_ordinal)%Z ->
  (exists d, calculate_default_friday now = Some d
             /\ validate_date d now = Some [])
  /\ (exists fridays, calculate_next_four_fridays now = Some fridays
        /\ Forall (fun f => validate_target_date f now answers
                            = Some (true, answers)) fridays).
Proof.
  intros Hv Ho.
  destruct (next_friday_spec now Hv) as (f & E & Hf & Hw & Hr & _); [lia|].
  assert (L : forall k, k <= 3 ->
            exists t, datetime_add_days (k * 7) f = Some t
                      /\ valid_datetime t = true
                      /\ weekday (date_of t) = 4
                      /\ (toordinal (date_of now) < toordinal (date_of t)
                          <= toordinal (date_of now) + 28)%Z).
  { intros k Hk.
    destruct (later_friday_spec f k Hf Hw) as (t & Et & Ht & Hwt & Hot & _);
      [lia|].
    exists t. repeat split; try assumption; lia. }
  assert (A : forall t, valid_datetime t = true -> weekday (date_of t) = 4 ->
            (toordinal (date_of now) < toordinal (date_of t))%Z ->
            validate_target_date t now answers = Some (true, answers)).
  { intros t Ht Hwt Hot. unfold validate_target_date.
    rewrite Hwt, (date_leb_ordinal _ _ (valid_date_of t Ht) (valid_date_of now Hv)).
    cbn [Nat.eqb negb].
    destruct (Z.leb_spec (toordinal (date_of t)) (toordinal (date_of now)));
      [exfalso; lia|reflexivity]. }
  split.
  - destruct (L 3 (le_n 3)) as (t & Et & Ht & Hwt & Hot).
    unfold calculate_default_friday. rewrite E, Et.
    exists (date_of t). split; [reflexivity|].
    destruct (validate_date_spec (date_of t) now (valid_date_of t Ht) Hv Ho)
      as (ws & Ews & Hws & _).
    rewrite Ews. f_equal. apply Hws. split; [exact Hwt|lia].
  - unfold calculate_next_four_fridays. rewrite E. cbn [seq weeks_from].
    destruct (L 0) as (t0 & E0 & V0 & W0 & O0); [lia|].
    destruct (L 1) as (t1 & E1 & V1 & W1 & O1); [lia|].
    destruct (L 2) as (t2 & E2 & V2 & W2 & O2); [lia|].
    destruct (L 3) as (t3 & E3 & V3 & W3 & O3); [lia|].
    rewrite E0, E1, E2, E3. eexists. split; [reflexivity|].
    repeat constructor; apply A; try assumption; lia.
Qed.

Lemma proposed_fridays_are_accepted_witness :
  exists d, calculate_default_friday (mkdatetime 2025 8 22 9 30 0) = Some d
            /\ validate_date d (mkdatetime 2025 8 22 9 30 0) = Some [].
Proof.
  destruct (proposed_fridays_are_accepted (mkdatetime 2025 8 22 9 30 0) []
              eq_refl) as [H _].
  - vm_compute. intro H. discriminate H.
  - exact H.
Defined.

Lemma validate_target_date_asks (target_date now : datetime)
  (answers : list string) :
  validate_target_date target_date now answers
  = ask_all (questions target_date now) answers.
Proof.
  unfold validate_target_date, questions.
  destruct (weekday (date_of target_date) =? 4);
    destruct (date_leb (date_of target_date) (date_of now));
    cbn [negb Nat.add ask_all]; try reflexivity;
    destruct answers as [|r1 rest]; try reflexivity;
    destruct (String.eqb (PyStr.lower r1) "y"); cbn [negb]; try reflexivity;
    destruct rest as [|r2 rest]; try reflexivity;
    destruct (String.eqb (PyStr.lower r2) "y"); reflexivity.
Qed.

Lemma ask_all_true (q : nat) (answers rest : list string) :
  ask_all q answers = Some (true, rest) <->
  exists yes, answers = yes ++ rest /\ List.length yes = q
              /\ Forall (fun r => PyStr.lower r = "y") yes.
Proof.
  revert answers. induction q as [|q IH]; intro answers; cbn [ask_all].
  - split.
    + intro H. inversion H. exists []. repeat split. constructor.
    + intros (yes & E & L & _). destruct yes; [|discriminate L].
      rewrite E. reflexivity.
  - destruct answers as [|r rs].
    + split; [intro H; discriminate H|].
      intros (yes & E & L & _). destruct yes; discriminate.
    + destruct (String.eqb (PyStr.lower r) "y") eqn:Er.
      * rewrite IH. apply String.eqb_eq in Er. split.
        -- intros (yes & E & L & F). exists (r :: yes). cbn. rewrite E, L.
           repeat split. constructor; assumption.
        -- intros (yes & E & L & F). destruct yes as [|y yes]; [discriminate L|].
           cbn in E, L. inversion E. subst y rs. inversion F.
           exists yes. repeat split; [lia|assumption].
      * apply String.eqb_neq in Er. split; [intro H; discriminate H|].
        intros (yes & E & L & F). destruct yes as [|y yes]; [discriminate L|].
        cbn in E. inversion E. subst y. inversion F. contradiction.
Qed.

Lemma ask_all_false (q : nat) (answers rest : list string) :
  ask_all q answers = Some (false, rest) <->
  exists yes no, answers = yes ++ no :: rest /\ List.length yes < q
              /\ Forall (fun r => PyStr.lower r = "y") yes
              /\ PyStr.lower no <> "y".
Proof.
  revert answers. induction q as [|q IH]; intro answers; cbn [ask_all].
  - split; [intro H; discriminate H|].
    intros (yes & no & _ & L & _). lia.
  - destruct answers as [|r rs].
    + split; [intro H; discriminate H|].
      intros (yes & no & E & _). destruct yes; discriminate.
    + destruct (String.eqb (PyStr.lower r) "y") eqn:Er.
      * rewrite IH. apply String.eqb_eq in Er. split.
        -- intros (yes & no & E & L & F & N). exists (r :: yes), no. cbn.
           rewrite E. repeat split; [lia|constructor; assumption|exact N].
        -- intros (yes & no & E & L & F & N). destruct yes as [|y yes].
           ++ cbn in E. inversion E. subst no. contradiction.
           ++ cbn in E, L. inversion E. subst y rs. inversion F.
              exists yes, no. repeat split; [lia|assumption|exact N].
      * apply String.eqb_neq in Er. split.
        -- intro H. inversion H. subst rs. exists [], r.
           repeat split; [cbn; lia|constructor|exact Er].
        -- intros (yes & no & E & L & F & N). destruct yes as [|y yes].
           ++ cbn in E. inversion E. reflexivity.
           ++ cbn in E. inversion E. subst y. inversion F. contradiction.
Qed.

Lemma ask_all_none (q : nat) (answers : list string) :
  ask_all q answers = None <->
  List.length answers < q /\ Forall (fun r => PyStr.lower r = "y") answers.
Proof.
  revert answers. induction q as [|q IH]; intro answers; cbn [ask_all].
  - split; [intro H; discriminate H|]. intros [L _]. lia.
  - destruct answers as [|r rs].
    + split; [|reflexivity]. intros _. split; [cbn; lia|constructor].
    + destruct (String.eqb (PyStr.lower r) "y") eqn:Er.
      * rewrite IH. apply String.eqb_eq in Er. cbn [List.length]. split.
        -- intros [L F]. split; [lia|constructor; assumption].
        -- intros [L F]. inversion F. split; [lia|assumption].
      * apply String.eqb_neq in Er. split; [intro H; discriminate H|].
        intros [_ F]. inversion F. contradiction.
Qed.

(** X18.  [validate_target_date] reads one answer for each warning, in
    order.  It returns [True] exactly when every warning was answered [y]
    or [Y]; it returns [False] at the first other answer, without reading
    further; and it ends without a result exactly when the answers run out
    and all of them were [y]. *)
Theorem validate_target_date_answers (target_date now : datetime)
  (answers rest : list string) :
  (validate_target_date target_date now answers = Some (true, rest) <->
   exists yes, answers = yes ++ rest
               /\ List.length yes = questions target_date now
               /\ Forall (fun r => PyStr.lower r = "y") yes)
  /\ (validate_target_date target_date now answers = Some (false, rest) <->
      exists yes no, answers = yes ++ no :: rest
               /\ List.length yes < questions target_date now
               /\ Forall (fun r => PyStr.lower r = "y") yes
               /\ PyStr.lower no <> "y")
  /\ (validate_target_date target_date now answers = None <->
      List.length answers < questions target_date now
      /\ Forall (fun r => PyStr.lower r = "y") answers).
Proof.
  rewrite validate_target_date_asks.
  split; [apply ask_all_true|]. split; [apply ask_all_false|apply ask_all_none].
Qed.

(** ** The handle and the title *)

Lemma isdigit_digit_char (a : nat) :
  a < 10 -> PyStr.isdigit (digit_char a) = true.
Proof. intro H. enum a; reflexivity. Qed.

Lemma all_chars_app (p : ascii -> bool) (a b : string) :
  PyStr.all_chars p (a ++ b)
  = (PyStr.all_chars p a && PyStr.all_chars p b)%bool.
Proof.
  induction a as [|c a IH]; [reflexivity|].
  cbn [append PyStr.all_chars]. rewrite IH, andb_assoc. reflexivity.
Qed.

Lemma pad2_digits (n : nat) :
  n < 100 -> PyStr.all_chars PyStr.isdigit (pad2 n) = true.
Proof.
  intro H. unfold pad2. cbn [PyStr.all_chars].
  rewrite !isdigit_digit_char; [reflexivity| |].
  - apply Nat.mod_upper_bound. discriminate.
  - apply Nat.Div0.div_lt_upper_bound. lia.
Qed.

Lemma year_text_digits (y : nat) :
  (N.of_nat y <= 9999)%N ->
  PyStr.all_chars PyStr.isdigit (year_text y) = true
  /\ PyStr.is_empty (year_text y) = false.
Proof.
  intro H. unfold year_text.
  destruct (y <? 10) eqn:E1.
  { apply Nat.ltb_lt in E1. cbn [PyStr.all_chars PyStr.is_empty].
    rewrite isdigit_digit_char by exact E1. split; reflexivity. }
  destruct (y <? 100) eqn:E2.
  { apply Nat.ltb_lt in E2. split; [apply pad2_digits; exact E2|reflexivity]. }
  destruct (y <? 1000) eqn:E3.
  { apply Nat.ltb_lt in E3. cbn [PyStr.all_chars PyStr.is_empty].
    rewrite isdigit_digit_char by (apply Nat.Div0.div_lt_upper_bound; lia).
    rewrite pad2_digits by (apply Nat.mod_upper_bound; discriminate).
    split; reflexivity. }
  destruct (year_digits y H) as (H1 & H2 & H3 & H4 & _).
  unfold pad4. cbn [PyStr.all_chars PyStr.is_empty].
  rewrite !isdigit_digit_char by assumption. split; reflexivity.
Qed.

Lemma stamp_digits (dt : datetime) :
  valid_datetime dt = true ->
  PyStr.all_chars PyStr.isdigit (strftime dt "%Y%m%d") = true
  /\ PyStr.is_empty (strftime dt "%Y%m%d") = false.
Proof.
  intro H. apply valid_datetime_range in H.
  destruct H as [H1 H2 H3 H4 _ _ _].
  pose proof (days_in_month_le (year dt) (month dt)) as Hd.
  destruct (year_text_digits (year dt) H2) as [Hy He].
  unfold strftime.
  change (parse_format "%Y%m%d") with [FY; Fm; Fd].
  cbn [format_items format_item]. split.
  - rewrite !all_chars_app, Hy, !pad2_digits by lia. reflexivity.
  - destruct (year_text (year dt)); [discriminate He|reflexivity].
Qed.

Section Stamp.

Variable stamp : string.
Hypothesis stamp_all_digits : PyStr.all_chars PyStr.isdigit stamp = true.
Hypothesis stamp_not_empty : PyStr.is_empty stamp = false.

Lemma digit_facts (c : ascii) :
  PyStr.isdigit c = true ->
  PyStr.lower_char c = c /\ handle_char c = true /\ is_dash c = false.
Proof.
  intro H.
  assert (T : forallb (fun c => implb (PyStr.isdigit c)
                         (Ascii.eqb (PyStr.lower_char c) c && handle_char c
                          && negb (is_dash c)))
                (map ascii_of_nat (seq 0 256)) = true)
    by (vm_compute; reflexivity).
  pose proof (forall_ascii _ T c) as F. cbv beta in F. rewrite H in F.
  cbn [implb] in F. rewrite !andb_true_iff, negb_true_iff, Ascii.eqb_eq in F.
  tauto.
Qed.

Lemma digits_untouched (s : string) :
  PyStr.all_chars PyStr.isdigit s = true ->
  PyStr.lower s = s /\ sub_special s = s /\ sub_dashes s = s
  /\ PyStr.all_chars (fun c => negb (is_dash c)) s = true.
Proof.
  induction s as [|c s IH]; [repeat split|].
  cbn [PyStr.all_chars]. rewrite andb_true_iff. intros [Hc Hs].
  destruct (IH Hs) as (I1 & I2 & I3 & I4).
  destruct (digit_facts c Hc) as (D1 & D2 & D3).
  cbn [PyStr.lower sub_special sub_dashes PyStr.all_chars].
  rewrite I1, I2, I3, I4, D1, D2, D3. repeat split.
Qed.

Lemma lower_app (a b : string) :
  PyStr.lower (a ++ b) = (PyStr.lower a ++ PyStr.lower b)%string.
Proof.
  induction a as [|c a IH]; [reflexivity|].
  cbn [append PyStr.lower]. rewrite IH. reflexivity.
Qed.

Lemma sub_special_app (a b : string) :
  sub_special (a ++ b) = (sub_special a ++ sub_special b)%string.
Proof.
  induction a as [|c a IH]; [reflexivity|].
  cbn [append sub_special]. rewrite IH. reflexivity.
Qed.

Lemma sub_dashes_app (a b : string) :
  starts_with_dash b = false ->
  sub_dashes (a ++ b) = (sub_dashes a ++ sub_dashes b)%string.
Proof.
  intro Hb. induction a as [|c a IH]; [reflexivity|].
  cbn [append sub_dashes].
  assert (E : starts_with_dash (a ++ b) = starts_with_dash a)
    by (destruct a; [exact Hb|reflexivity]).
  rewrite E, IH. destruct (is_dash c && starts_with_dash a)%bool; reflexivity.
Qed.

Lemma lstrip_app (p : ascii -> bool) (a b : string) :
  starts_with p b = false ->
  PyStr.lstrip_by p (a ++ b) = (PyStr.lstrip_by p a ++ b)%string.
Proof.
  intro Hb. induction a as [|c a IH].
  - cbn [append PyStr.lstrip_by]. apply lstrip_idle, Hb.
  - cbn [append PyStr.lstrip_by]. destruct (p c); [exact IH|reflexivity].
Qed.

Lemma rstrip_app (p : ascii -> bool) (a b : string) :
  PyStr.is_empty b = false -> ends_with p b = false ->
  PyStr.rstrip_by p (a ++ b) = (a ++ b)%string.
Proof.
  intros Hn Hb. induction a as [|c a IH].
  - cbn [append]. apply rstrip_idle, Hb.
  - cbn [append PyStr.rstrip_by]. rewrite IH.
    assert (E : PyStr.is_empty (a ++ b) = false)
      by (destruct a; [exact Hn|reflexivity]).
    rewrite E, andb_false_r. reflexivity.
Qed.

Lemma no_dash_ends (s : string) :
  PyStr.all_chars (fun c => negb (is_dash c)) s = true ->
  starts_with is_dash s = false /\ ends_with is_dash s = false
  /\ starts_with_dash s = false.
Proof.
  intro H. repeat split.
  - destruct s as [|c s]; [reflexivity|]. cbn in *.
    apply andb_true_iff in H. destruct H as [H _].
    apply negb_true_iff in H. exact H.
  - induction s as [|c s IH]; [reflexivity|].
    cbn [PyStr.all_chars] in H. apply andb_true_iff in H. destruct H as [Hc Hs].
    destruct s as [|c' s'].
    + cbn. apply negb_true_iff in Hc. exact Hc.
    + exact (IH Hs).
  - destruct s as [|c s]; [reflexivity|]. cbn in *.
    apply andb_true_iff in H. destruct H as [H _].
    apply negb_true_iff in H. exact H.
Qed.

Lemma slug_ends_with_stamp (stem : string) :
  PyStr.strip_char "-" (sub_dashes (sub_special (PyStr.lower (stem ++ stamp))))
  = (PyStr.lstrip_by is_dash (sub_dashes (sub_special (PyStr.lower stem)))
     ++ stamp)%string.
Proof.
  destruct (digits_untouched stamp stamp_all_digits) as (L & S & D & N).
  destruct (no_dash_ends stamp N) as (N1 & N2 & N3).
  rewrite lower_app, sub_special_app, L, S, sub_dashes_app, D by exact N3.
  unfold PyStr.strip_char, PyStr.strip_by.
  change (fun x : ascii => Ascii.eqb x "-") with is_dash.
  rewrite lstrip_app by exact N1.
  apply rstrip_app; assumption.
Qed.

Lemma join_last (sep : string) (parts : list string) :
  exists stem, PyStr.join sep (parts ++ [stamp]) = (stem ++ stamp)%string.
Proof.
  induction parts as [|p parts [stem IH]].
  - exists EmptyString. reflexivity.
  - cbn [app]. destruct (parts ++ [stamp]) as [|q rest] eqn:E.
    + destruct parts; discriminate E.
    + change (PyStr.join sep (p :: q :: rest))
        with (p ++ sep ++ PyStr.join sep (q :: rest))%string.
      rewrite IH. exists (p ++ sep ++ stem)%string.
      rewrite !append_assoc. reflexivity.
Qed.

End Stamp.

(** X19.  For a release date the calendar has, the handle ends with the
    date as [strftime] writes it with [%Y%m%d], which is digits only; so
    the handle is never empty, and with the three text cells absent it is
    that date alone. *)
Theorem create_handle_ends_with_the_date (artist title details : cell)
  (release_date : datetime) :
  valid_datetime release_date = true ->
  let stamp := strftime release_date "%Y%m%d" in
  PyStr.all_chars PyStr.isdigit stamp = true
  /\ PyStr.is_empty stamp = false
  /\ (exists stem,
        create_handle artist title details release_date
        = (stem ++ stamp)%string)
  /\ PyStr.is_empty (create_handle artist title details release_date) = false
  /\ create_handle NaN NaN NaN release_date = stamp.
Proof.
  intros Hv stamp. destruct (stamp_digits release_date Hv) as [Hd He].
  fold stamp in Hd, He.
  assert (Ht : PyStr.truthy stamp = true)
    by (unfold PyStr.truthy; rewrite He; reflexivity).
  assert (Hs : exists stem,
             create_handle artist title details release_date
             = (stem ++ stamp)%string).
  { unfold create_handle. cbv zeta. fold stamp.
    change [safe_str artist; safe_str title; safe_str details; stamp]
      with ([safe_str artist; safe_str title; safe_str details] ++ [stamp]).
    rewrite filter_app.
    change (filter PyStr.truthy [stamp])
      with (if PyStr.truthy stamp then [stamp] else []).
    rewrite Ht.
    destruct (join_last stamp "-"
                (filter PyStr.truthy
                   [safe_str artist; safe_str title; safe_str details]))
      as [stem E].
    rewrite E, (slug_ends_with_stamp stamp Hd He). eexists. reflexivity. }
  split; [exact Hd|]. split; [exact He|]. split; [exact Hs|]. split.
  - destruct Hs as [stem ->]. destruct stem; [exact He|reflexivity].
  - unfold create_handle. cbv zeta. fold stamp.
    cbn [safe_str filter PyStr.truthy PyStr.is_empty negb].
    fold (PyStr.truthy stamp). rewrite Ht. cbn [PyStr.join].
    exact (slug_ends_with_stamp stamp Hd He EmptyString).
Qed.

Lemma create_handle_ends_with_the_date_witness :
  exists stem,
    create_handle (Str "AC/DC") (Str "") NaN (mkdatetime 2025 9 19 0 0 0)
    = (stem ++ "20250919")%string.
Proof.
  exact (proj1 (proj2 (proj2 (create_handle_ends_with_the_date
                                (Str "AC/DC") (Str "") NaN
                                (mkdatetime 2025 9 19 0 0 0) eq_refl)))).
Defined.

Lemma format_vinyl_details_parts (s : string) :
  format_vinyl_details (Str s)
  = if is_absent s then EmptyString
    else PyStr.join ", " (map format_part (tags_of s)).
Proof.
  unfold format_vinyl_details, is_absent, tags_of.
  destruct (PyStr.is_empty s) eqn:Es.
  - apply is_empty_true in Es. subst s. reflexivity.
  - cbn [orb].
    destruct (String.eqb (PyStr.lower (PyStr.strip s)) "nan");
      [rewrite orb_true_r; reflexivity|].
    rewrite orb_false_r.
    destruct (PyStr.is_empty (PyStr.strip s)); [reflexivity|].
    rewrite fold_left_append. cbn [app].
    rewrite (filter_map_swap PyStr.truthy PyStr.strip). reflexivity.
Qed.

Lemma title_not_empty (cased : bool) (s : string) :
  PyStr.is_empty (PyStr.title_from cased s) = PyStr.is_empty s.
Proof.
  destruct s as [|c s]; [reflexivity|]. cbn [PyStr.title_from].
  destruct (PyStr.islower c); [reflexivity|].
  destruct (PyStr.isupper c); reflexivity.
Qed.

Lemma replace_not_empty (old new s : string) :
  PyStr.is_empty new = false -> PyStr.is_empty s = false ->
  PyStr.is_empty (PyStr.replace old new s) = false.
Proof.
  intros Hn Hs. destruct s as [|c s]; [discriminate Hs|].
  unfold PyStr.replace. cbn [PyStr.replace_from].
  destruct (String.prefix old (String c s)); [|reflexivity].
  destruct new; [discriminate Hn|reflexivity].
Qed.

Lemma restore_not_empty (entries : list (string * string)) (text : string) :
  forallb (fun entry => PyStr.truthy (snd entry)) entries = true ->
  PyStr.is_empty text = false ->
  PyStr.is_empty
    (fold_left (fun text entry => PyStr.replace (fst entry) (snd entry) text)
       entries text) = false.
Proof.
  revert text. induction entries as [|[old new] entries IH]; intros text He Ht.
  - exact Ht.
  - cbn [forallb snd] in He. apply andb_true_iff in He. destruct He as [Hn He].
    cbn [fold_left fst snd]. apply IH; [exact He|].
    apply replace_not_empty; [|exact Ht].
    apply negb_true_iff. exact Hn.
Qed.

Lemma split_not_nil (sep : ascii) (s : string) : PyStr.split sep s <> [].
Proof.
  destruct s as [|c s]; [discriminate|]. cbn [PyStr.split].
  destruct (Ascii.eqb c sep); [discriminate|].
  destruct (PyStr.split sep s); discriminate.
Qed.

Lemma split_contains (sep : ascii) (s : string) :
  PyStr.contains_char sep s = true ->
  exists a b rest, PyStr.split sep s = a :: b :: rest.
Proof.
  induction s as [|c s IH]; [intro H; discriminate H|].
  cbn [PyStr.contains_char PyStr.split]. rewrite Ascii.eqb_sym.
  destruct (Ascii.eqb c sep).
  - intros _. destruct (PyStr.split sep s) as [|b rest] eqn:E.
    + exfalso. exact (split_not_nil sep s E).
    + exists EmptyString, b, rest. reflexivity.
  - cbn [orb]. intro H. destruct (IH H) as (a & b & rest & E). rewrite E.
    exists (String c a), b, rest. reflexivity.
Qed.

Lemma join_not_empty (sep part : string) (parts : list string) :
  PyStr.is_empty part = false ->
  PyStr.is_empty (PyStr.join sep (part :: parts)) = false.
Proof.
  intro H. destruct part as [|c part]; [discriminate H|].
  destruct parts; reflexivity.
Qed.

Lemma trim_slash_not_empty (text : string) :
  PyStr.is_empty text = false ->
  PyStr.is_empty (trim_slash_segments text) = false.
Proof.
  intro H. unfold trim_slash_segments.
  destruct (PyStr.contains_char "/" text) eqn:E; [|exact H].
  destruct (split_contains _ _ E) as (a & b & rest & ->).
  cbn [map]. 
  change (PyStr.join "/" (PyStr.strip a :: PyStr.strip b :: map PyStr.strip rest))
    with (PyStr.strip a ++ "/" ++ PyStr.join "/" (PyStr.strip b :: map PyStr.strip rest))%string.
  destruct (PyStr.strip a); reflexivity.
Qed.

Lemma format_part_not_empty (part : string) :
  PyStr.is_empty part = false -> PyStr.is_empty (format_part part) = false.
Proof.
  intro H. rewrite format_part_steps.
  apply trim_slash_not_empty. unfold restore_terms.
  apply restore_not_empty; [vm_compute; reflexivity|].
  unfold PyStr.title. rewrite title_not_empty. exact H.
Qed.

Lemma format_vinyl_details_truthy (details : cell) :
  PyStr.truthy (format_vinyl_details details) = has_tags details.
Proof.
  destruct details as [s| |]; [|reflexivity|reflexivity].
  rewrite format_vinyl_details_parts. unfold has_tags.
  destruct (is_absent s); [reflexivity|]. cbn [negb andb].
  destruct (tags_of s) as [|part parts] eqn:E; [reflexivity|].
  cbn [map]. unfold PyStr.truthy.
  rewrite join_not_empty; [reflexivity|].
  apply format_part_not_empty.
  assert (Hin : In part (tags_of s)) by (rewrite E; left; reflexivity).
  unfold tags_of in Hin. apply filter_In in Hin. destruct Hin as [_ Hin].
  apply negb_true_iff. exact Hin.
Qed.

Lemma format_vinyl_details_strip (s : string) :
  format_vinyl_details (Str (PyStr.strip s)) = format_vinyl_details (Str s).
Proof.
  rewrite !format_vinyl_details_parts. unfold is_absent, tags_of.
  rewrite !strip_twice. reflexivity.
Qed.

(** X20.  [format_vinyl_details] returns a text that is not empty exactly
    when the cell holds a tag: it is not empty or absent and a part
    between carets is not blank.  [create_title] appends the details in
    parentheses exactly then, so an empty pair of parentheses is never
    written. *)
Theorem details_are_shown_when_there_is_a_tag (artist album color_details : cell) :
  let title := (safe_str artist ++ " - " ++ safe_str album ++ " LP")%string in
  PyStr.truthy (format_vinyl_details color_details) = has_tags color_details
  /\ create_title artist album color_details
     = (if has_tags color_details
        then title ++ " (" ++ format_vinyl_details color_details ++ ")"
        else title)%string.
Proof.
  intro title. split; [apply format_vinyl_details_truthy|].
  unfold create_title. cbv zeta. fold title.
  destruct color_details as [s| |]; [|reflexivity|reflexivity].
  cbn [safe_str]. rewrite format_vinyl_details_strip.
  rewrite format_vinyl_details_truthy.
  destruct (PyStr.truthy (PyStr.strip s)) eqn:E; [reflexivity|].
  assert (A : has_tags (Str s) = false).
  { unfold has_tags, is_absent. unfold PyStr.truthy in E.
    apply negb_false_iff in E. rewrite E. reflexivity. }
  rewrite A. reflexivity.
Qed.
